(** * FarmTech irrigation suite: the decision engines, the analysis pipeline
      and the reading store, embedded from the Python sources.

    Python floats are IEEE-754 binary64 values, so they are embedded as Rocq's
    primitive floats: the comparisons [<?] and [<=?] are the hardware ones
    (false on NaN), and [a > b] in the source is written [b <? a].  Text built
    by an f-string is kept as the template the source writes, literal pieces
    and formatted values in sequence.  Dictionaries with string keys are
    finite maps. *)

From Stdlib Require Import ZArith Lia Bool List Ascii String Floats DecimalString.
From stdpp Require Import base option list strings gmap sorting.

Local Open Scope string_scope.
Local Open Scope list_scope.

(** ** F-strings *)

Module FString.

(** One piece of an f-string: literal text, [{x}] (the float's [repr]),
    [{x:.1f}] (one decimal) or [{n}] for an integer. *)
Inductive piece : Type :=
| Lit (s : string)
| Repr (x : float)
| Fixed1 (x : float)
| Dec (n : Z).

Definition fstring : Type := list piece.

Section Render.
(** Python's own float and integer formatting, supplied by the reader. *)
Variable repr : float -> string.
Variable fixed1 : float -> string.
Variable dec : Z -> string.

Definition render_piece (p : piece) : string :=
  match p with
  | Lit s => s
  | Repr x => repr x
  | Fixed1 x => fixed1 x
  | Dec n => dec n
  end.

Definition render (f : fstring) : string :=
  fold_right (fun p acc => String.append (render_piece p) acc) "" f.
End Render.

(** Does the message carry the integer [n] as a formatted value? *)
Definition names_int (n : Z) (f : fstring) : bool :=
  existsb (fun p => match p with Dec m => Z.eqb m n | _ => false end) f.

End FString.
Import FString.

(** ** config_manager.py: the thresholds of [logica_esp32] *)

Module ConfigManager.

(** The dictionary [config['logica_esp32']]; the engines read exactly these
    seven keys. *)
Record logica_esp32 : Type := {
  UMIDADE_CRITICA_BAIXA : float;
  UMIDADE_MINIMA_PARA_IRRIGAR : float;
  UMIDADE_ALTA_PARAR_IRRIGACAO : float;
  PH_IDEAL_MINIMO : float;
  PH_IDEAL_MAXIMO : float;
  PH_CRITICO_MINIMO : float;
  PH_CRITICO_MAXIMO : float
}.

(** [default_config['logica_esp32']]. *)
Definition default_logica_esp32 : logica_esp32 := {|
  UMIDADE_CRITICA_BAIXA := 15.0;
  UMIDADE_MINIMA_PARA_IRRIGAR := 20.0;
  UMIDADE_ALTA_PARAR_IRRIGACAO := 60.0;
  PH_IDEAL_MINIMO := 5.5;
  PH_IDEAL_MAXIMO := 6.5;
  PH_CRITICO_MINIMO := 4.5;
  PH_CRITICO_MAXIMO := 7.5
|}.

End ConfigManager.
Import ConfigManager.

(** ** Exceptions the sources raise or let through *)

Inductive exn : Type :=
| KeyError (key : string)
| TypeError
| ValueError (msg : fstring)
| RuntimeError (msg : fstring)
| AttributeError
| OverflowError
| IntegrityError
| StatementError
| OperationalError.

(** ** Python values held in dictionaries, table rows and object columns *)

Inductive pyval : Type :=
| PNone
| PBool (b : bool)
| PInt (z : Z)
| PFloat (x : float)
| PStr (s : string)
| PDateTime (t : Z).          (* nanoseconds since the epoch *)

(** Results of code that may raise: [inl] carries the exception. *)
Definition bind {E A B : Type} (r : E + A) (k : A -> E + B) : E + B :=
  match r with
  | inl e => inl e
  | inr a => k a
  end.

Notation "'let*' x ':=' r 'in' k" := (bind r (fun x => k))
  (at level 10, x pattern, r at level 100, k at level 200).

(** ** The pandas objects the analysis code works on *)

Module Pandas.

(** Timestamps are [datetime64] values: nanoseconds since the epoch. *)
Inductive column : Type :=
| NumCol (xs : list float)            (* float64, NaN marks a missing value *)
| IntCol (ns : list Z)                (* int64 *)
| BoolCol (bs : list bool)
| TimeCol (ts : list Z)               (* datetime64 *)
| ObjCol (vs : list pyval).           (* object *)

Inductive index : Type :=
| RangeIndex (n : nat)
| DatetimeIndex (ts : list Z).

Definition index_len (i : index) : nat :=
  match i with
  | RangeIndex n => n
  | DatetimeIndex ts => length ts
  end.

Record DataFrame : Type := {
  df_index : index;
  df_columns : gmap string column
}.

(** [len(df)], [df.empty], [col in df.columns], [df.assign(col=values)]. *)
Definition len (df : DataFrame) : nat := index_len (df_index df).

Definition empty (df : DataFrame) : bool :=
  Nat.eqb (len df) 0 || Nat.eqb (size (df_columns df)) 0.

Definition has_column (col : string) (df : DataFrame) : bool :=
  match df_columns df !! col with Some _ => true | None => false end.

Definition assign (col : string) (c : column) (df : DataFrame) : DataFrame :=
  {| df_index := df_index df; df_columns := <[col := c]> (df_columns df) |}.

(** [df[col]] raises [KeyError] on a column the frame does not have. *)
Definition getitem (df : DataFrame) (col : string) : exn + column :=
  match df_columns df !! col with
  | Some c => inr c
  | None => inl (KeyError col)
  end.

(** Integers as floats (exact below 2^53). *)
Definition float_of_Z (z : Z) : float :=
  match z with
  | Z0 => 0%float
  | Zpos _ => PrimFloat.of_uint63 (Uint63.of_Z z)
  | Zneg _ => PrimFloat.opp (PrimFloat.of_uint63 (Uint63.of_Z (- z)))
  end.

(** The float64 view of a column of numeric dtype; the arithmetic below is
    modelled on these, and refused on dates and on object columns. *)
Definition to_numeric (c : column) : exn + list float :=
  match c with
  | NumCol xs => inr xs
  | IntCol ns => inr (map float_of_Z ns)
  | BoolCol bs => inr (map (fun b : bool => if b then 1%float else 0%float) bs)
  | TimeCol _ | ObjCol _ => inl TypeError
  end.

(** [pd.isna] on one value of an object column: [None] and NaN are both
    missing. *)
Definition isna (v : pyval) : bool :=
  match v with
  | PNone => true
  | PFloat x => PrimFloat.is_nan x
  | _ => false
  end.

(** [Series.mean()] and [Series.std(ddof=0)] skip NaN: missing values count
    as zero in the sums and are left out of the count.  The terms are added
    in sequence, which is numpy's order for fewer than eight values. *)
Definition fill0 (x : float) : float := if PrimFloat.is_nan x then 0%float else x.

Definition nansum (xs : list float) : float :=
  fold_left (fun acc x => (acc + fill0 x)%float) xs 0%float.

Definition count (xs : list float) : nat :=
  length (filter (fun x => negb (PrimFloat.is_nan x)) xs).

Definition mean (xs : list float) : float :=
  (nansum xs / float_of_Z (Z.of_nat (count xs)))%float.

Definition std0 (xs : list float) : float :=
  let n := float_of_Z (Z.of_nat (count xs)) in
  let avg := (nansum xs / n)%float in
  let sqr := map (fun x => if PrimFloat.is_nan x then 0%float
                           else ((avg - x) * (avg - x))%float) xs in
  PrimFloat.sqrt (nansum sqr / n)%float.

End Pandas.

(** ** data_analysis.py *)

Module DataAnalysis.

(** The dictionary [simular_logica_irrigacao] returns. *)
Record resultado : Type := {
  decisao : string;
  justificativa : fstring;
  emergencia : bool
}.

(** [simular_logica_irrigacao(umidade, ph, cfg_logica)], lines 35-53.  The
    chained comparison [a < ph < b] is [a < ph and ph < b]. *)
Definition simular_logica_irrigacao (umidade ph : float) (params : logica_esp32)
  : resultado :=
  if (umidade <? UMIDADE_CRITICA_BAIXA params)%float
     || negb ((PH_CRITICO_MINIMO params <? ph)%float && (ph <? PH_CRITICO_MAXIMO params)%float)
  then
    {| decisao := "Ligar bomba (EMERGÊNCIA)";
       justificativa :=
         if (umidade <? UMIDADE_CRITICA_BAIXA params)%float
         then [Lit "EMERGÊNCIA: Umidade ("; Repr umidade; Lit "%) abaixo do crítico."]
         else [Lit "EMERGÊNCIA: pH ("; Repr ph; Lit ") fora da faixa crítica."];
       emergencia := true |}
  else if (umidade <? UMIDADE_MINIMA_PARA_IRRIGAR params)%float then
    if negb ((PH_IDEAL_MINIMO params <? ph)%float && (ph <? PH_IDEAL_MAXIMO params)%float)
    then
      {| decisao := "Manter bomba desligada";
         justificativa :=
           [Lit "Umidade baixa ("; Repr umidade; Lit "%), mas pH ("; Repr ph;
            Lit ") fora do ideal."];
         emergencia := false |}
    else
      {| decisao := "Ligar bomba";
         justificativa := [Lit "Umidade ("; Repr umidade; Lit "%) ideal para irrigar."];
         emergencia := false |}
  else if (UMIDADE_ALTA_PARAR_IRRIGACAO params <? umidade)%float then
    {| decisao := "Manter bomba desligada";
       justificativa := [Lit "Umidade ("; Repr umidade; Lit "%) acima do necessário."];
       emergencia := false |}
  else
    {| decisao := "Manter bomba desligada";
       justificativa := [Lit "Condições normais."];
       emergencia := false |}.

(** [detect_anomalies(df, col, z_thresh)], lines 17-20: the population
    z-score of every row, flagged when its absolute value exceeds the
    threshold. *)
Definition z_scores (xs : list float) : list float :=
  let m := Pandas.mean xs in
  let s := Pandas.std0 xs in
  map (fun x => ((x - m) / s)%float) xs.

Definition detect_anomalies (df : Pandas.DataFrame) (col : string) (z_thresh : float)
  : exn + Pandas.DataFrame :=
  if Pandas.empty df then
    inr (Pandas.assign "anomalia" (Pandas.BoolCol (repeat false (Pandas.len df))) df)
  else
    match Pandas.getitem df col with
    | inl e => inl e
    | inr c =>
        match Pandas.to_numeric c with
        | inl e => inl e
        | inr xs =>
            let flags := map (fun z => (z_thresh <? PrimFloat.abs z)%float) (z_scores xs) in
            inr (Pandas.assign "anomalia" (Pandas.BoolCol flags) df)
        end
    end.

(** The [anomalia] column of a result. *)
Definition anomalia (r : exn + Pandas.DataFrame) : option (list bool) :=
  match r with
  | inr df =>
      match Pandas.df_columns df !! "anomalia" with
      | Some (Pandas.BoolCol flags) => Some flags
      | _ => None
      end
  | inl _ => None
  end.

End DataAnalysis.

(** ** ml_predictor.py *)

Module MlPredictor.
Import Pandas.

(** *** Feature engineering *)

Definition ns_per_hour : Z := 3600 * 1000000000.

(** [.dt.hour] and [.dt.dayofweek] (Monday is 0; the epoch was a Thursday). *)
Definition dt_hour (t : Z) : Z := (t / ns_per_hour) mod 24.
Definition dt_dayofweek (t : Z) : Z := (t / (24 * ns_per_hour) + 3) mod 7.

(** [rolling(window, min_periods=1).mean()]: the mean of the values at hand
    among the last [window] ones, NaN when all are missing.  [recent] holds
    the window so far, newest first. *)
Fixpoint rolling_mean_from (window : nat) (recent xs : list float) : list float :=
  match xs with
  | [] => []
  | x :: rest =>
      let w := firstn window (x :: recent) in
      (if Nat.eqb (count w) 0 then PrimFloat.nan else mean w)
        :: rolling_mean_from window w rest
  end.

Definition rolling_mean (window : nat) (xs : list float) : list float :=
  rolling_mean_from window [] xs.

(** [fillna(method="ffill").fillna(0)] on one column. *)
Fixpoint ffill_from (last : float) (xs : list float) : list float :=
  match xs with
  | [] => []
  | x :: rest =>
      let v := if PrimFloat.is_nan x then last else x in
      v :: ffill_from v rest
  end.

Fixpoint ffill_obj_from (last : pyval) (vs : list pyval) : list pyval :=
  match vs with
  | [] => []
  | v :: rest =>
      let w := if isna v then last else v in
      w :: ffill_obj_from w rest
  end.

Definition fillna_ffill_zero (c : column) : column :=
  match c with
  | NumCol xs => NumCol (map fill0 (ffill_from PrimFloat.nan xs))
  | ObjCol vs =>
      ObjCol (map (fun v => if isna v then PInt 0 else v)
                  (ffill_obj_from PNone vs))
  | IntCol _ | BoolCol _ | TimeCol _ => c
  end.

(** A finite float cut to an integer, as [astype(int)] does. *)
Definition trunc_float (x : float) : option Z :=
  match Prim2SF x with
  | S754_zero _ => Some 0%Z
  | S754_finite s m e =>
      let a := match e with
               | Zneg k => (Zpos m / 2 ^ Zpos k)%Z
               | _ => (Zpos m * 2 ^ e)%Z
               end in
      Some (if s then (- a)%Z else a)
  | S754_infinity _ | S754_nan => None
  end.

Definition mapM {A B : Type} (f : A -> exn + B) : list A -> exn + list B :=
  fix go (l : list A) : exn + list B :=
    match l with
    | [] => inr []
    | a :: rest => let* b := f a in let* bs := go rest in inr (b :: bs)
    end.

Definition feature_cols : list string :=
  [ "umidade"; "ph_estimado"; "fosforo_presente"; "potassio_presente";
    "temperatura"; "hora_dia"; "dia_semana"; "umidade_ma3";
    "temperatura_ma3"; "ph_estimado_ma3" ].

(** The column name [f"{col}_ma{window}"]. *)
Definition ma_name (col : string) (window : nat) : string :=
  String.append col (String.append "_ma" (NilZero.string_of_uint (Nat.to_uint window))).

(** The dictionary returned when a classifier cannot be trained,
    [{"modelo": None, "acuracia": 0, "mensagem": m}], or the report of a fit. *)
Inductive train_result (Report : Type) : Type :=
| Insufficient (mensagem : string)
| Trained (report : Report).
Arguments Insufficient {Report} mensagem.
Arguments Trained {Report} report.

(** The defaults [test_size=0.3] (the nearest binary64 value) and
    [random_state=42]. *)
Definition default_test_size : float := 0x1.3333333333333p-2%float.
Definition default_random_state : Z := 42.

Definition default_param_grid : gmap string (list pyval) :=
  {[ "n_estimators" := [PInt 50; PInt 100; PInt 200];
     "max_depth" := [PInt 5; PInt 10; PNone];
     "min_samples_leaf" := [PInt 2; PInt 4] ]}.

Section Risk.
(** What pandas and scikit-learn decide on their own: [pd.to_datetime] on a
    column that is not yet [datetime64], [int(s)] on text, and the split,
    grid search and scoring of lines 100-118. *)
Variable parse_dates : column -> exn + list Z.
Variable int_of_string : string -> option Z.
Variable Report : Type.
Variable sk_train :
  DataFrame -> list Z -> gmap string (list pyval) -> float -> Z -> exn + Report.

Definition to_datetime (c : column) : exn + list Z :=
  match c with
  | TimeCol ts => inr ts
  | _ => parse_dates c
  end.

(** [Series.astype(int)]. *)
Definition int_of_pyval (v : pyval) : exn + Z :=
  match v with
  | PBool b => inr (if b then 1 else 0)%Z
  | PInt z => inr z
  | PFloat x => match trunc_float x with Some z => inr z | None => inl (ValueError []) end
  | PStr s => match int_of_string s with Some z => inr z | None => inl (ValueError []) end
  | PNone | PDateTime _ => inl TypeError
  end.

Definition astype_int (c : column) : exn + list Z :=
  match c with
  | BoolCol bs => inr (map (fun b : bool => if b then 1 else 0)%Z bs)
  | IntCol ns => inr ns
  | TimeCol ts => inr ts
  | NumCol xs => mapM (fun x => int_of_pyval (PFloat x)) xs
  | ObjCol vs => mapM int_of_pyval vs
  end.

(** The loop of lines 65-67: a feature column the frame lacks is added
    as a column of zeros. *)
Definition fill_missing (df : DataFrame) (cols : list string) : DataFrame :=
  fold_left (fun d col => if has_column col d then d
                          else assign col (IntCol (repeat 0%Z (len d))) d)
            cols df.

(** [add_time_based_features(df, timestamp_col)], lines 26-34. *)
Definition add_time_based_features (df : DataFrame) (timestamp_col : string)
  : exn + DataFrame :=
  let* c := getitem df timestamp_col in
  let* ts := to_datetime c in
  let df := assign timestamp_col (TimeCol ts) df in
  let df := assign "hora_dia" (IntCol (map dt_hour ts)) df in
  inr (assign "dia_semana" (IntCol (map dt_dayofweek ts)) df).

(** [add_moving_average(df, col, window)], lines 37-41. *)
Definition add_moving_average (df : DataFrame) (col : string) (window : nat)
  : exn + DataFrame :=
  let* c := getitem df col in
  let* xs := to_numeric c in
  inr (assign (ma_name col window) (NumCol (rolling_mean window xs)) df).

(** [build_feature_matrix(df)], lines 44-71. *)
Definition build_feature_matrix (df : DataFrame) : exn + (DataFrame * list Z) :=
  let df_f :=
    match df_index df with
    | DatetimeIndex ts =>
        if negb (has_column "timestamp" df) then assign "timestamp" (TimeCol ts) df else df
    | RangeIndex _ => df
    end in
  let* df_f := add_time_based_features df_f "timestamp" in
  let* df_f := add_moving_average df_f "umidade" 3 in
  let* df_f := add_moving_average df_f "temperatura" 3 in
  let* df_f := add_moving_average df_f "ph_estimado" 3 in
  let df_f := fill_missing df_f feature_cols in
  let* cols := mapM (fun col => let* c := getitem df_f col in inr (col, fillna_ffill_zero c))
                    feature_cols in
  let X := {| df_index := df_index df_f; df_columns := list_to_map cols |} in
  let* e := getitem df_f "emergencia" in
  let* y := astype_int e in
  inr (X, y).

(** [train_risk_model(df, param_grid, test_size, random_state)], lines
    77-118. *)
Definition train_risk_model (df : DataFrame)
    (param_grid : option (gmap string (list pyval)))
    (test_size : float) (random_state : Z) : exn + train_result Report :=
  if empty df || negb (has_column "emergencia" df) then
    inl (ValueError
           [Lit "DataFrame para treino de risco deve ser válido e conter a coluna 'emergencia'."])
  else
    let param_grid := default default_param_grid param_grid in
    let* Xy := build_feature_matrix df in
    let '(X, y) := Xy in
    if Nat.ltb (length (remove_dups y)) 2 then
      inr (Insufficient
             "Não há dados suficientes de ambas as classes (emergência e não emergência) para treinar o modelo.")
    else
      let* report := sk_train X y param_grid test_size random_state in
      inr (Trained report).
End Risk.

(** What the feature builder needs of a frame: timestamps, as a
    [datetime64] column or else as the index, and a column of numeric dtype
    under a given name. *)
Definition has_timestamps (df : DataFrame) : Prop :=
  (exists ts, df_columns df !! "timestamp" = Some (TimeCol ts))
  \/ (df_columns df !! "timestamp" = None /\ exists ts, df_index df = DatetimeIndex ts).

Definition numeric_column (df : DataFrame) (col : string) : Prop :=
  exists c xs, df_columns df !! col = Some c /\ to_numeric c = inr xs.

(** *** Forecast *)

Record Series : Type := {
  s_index : index;
  s_values : list float
}.

(** What [train_arima_model] may be handed: a [pd.Series] or anything else. *)
Inductive pyobj : Type :=
| PdSeries (s : Series)
| Other.

(** The library calls the function makes, in order. *)
Inductive libcall : Type :=
| InferFreq (i : index)
| Asfreq (s : Series)
| ArimaFit (xs : list float) (order : Z * Z * Z).

Section Arima.
(** pandas' frequency inference and resampling, and the statsmodels fit,
    which either returns a fitted model or raises with a message.
    [inferred_freq] is the attribute of a [DatetimeIndex]; a [RangeIndex] has
    no such attribute. *)
Variable inferred_freq : index -> option string.
Variable infer_freq : index -> exn + option string.
Variable asfreq_ffill : Series -> option string -> exn + Series.
Variable Model : Type.
Variable arima_fit : list float -> Z * Z * Z -> string + Model.

(** [train_arima_model(series, order)], lines 125-142: the calls made and
    the outcome. *)
Definition train_arima_model (series : pyobj) (order : Z * Z * Z)
  : list libcall * (exn + Model) :=
  match series with
  | Other => ([], inl (ValueError [Lit "A entrada deve ser uma pandas Series não vazia."]))
  | PdSeries s =>
      if Nat.eqb (length (s_values s)) 0 then
        ([], inl (ValueError [Lit "A entrada deve ser uma pandas Series não vazia."]))
      else if Nat.ltb (length (s_values s)) 20 then
        ([], inl (ValueError
                    [Lit "Série temporal muito curta ("; Dec (Z.of_nat (length (s_values s)));
                     Lit " pontos). São necessários pelo menos 20 pontos para o forecast."]))
      else
        let fit (calls : list libcall) (s : Series) :=
          (calls ++ [ArimaFit (s_values s) order],
           match arima_fit (s_values s) order with
           | inr model_fit => inr model_fit
           | inl e => inl (RuntimeError [Lit "Falha ao treinar modelo ARIMA: "; Lit e])
           end) in
        match s_index s with
        | RangeIndex _ => ([], inl AttributeError)
        | DatetimeIndex _ =>
            match inferred_freq (s_index s) with
            | Some _ => fit [] s
            | None =>
                match infer_freq (s_index s) with
                | inl e => ([InferFreq (s_index s)], inl e)
                | inr freq =>
                    match asfreq_ffill s freq with
                    | inl e => ([InferFreq (s_index s); Asfreq s], inl e)
                    | inr s' => fit [InferFreq (s_index s); Asfreq s] s'
                    end
                end
            end
        end
  end.
End Arima.

End MlPredictor.

(** ** wokwi_listener.py *)

Module WokwiListener.

(** [WokwiListener._simulate_irrigation_logic], lines 123-157; [params] is
    [self.params].  The temperature is received and never read. *)
Definition _simulate_irrigation_logic (params : logica_esp32)
    (humidity ph : float) (phosphorus potassium : bool) (temperature : float)
  : bool * fstring :=
  if (humidity <? UMIDADE_CRITICA_BAIXA params)%float then
    (true, [Lit "EMERGÊNCIA: Umidade crítica ("; Fixed1 humidity; Lit "%)"])
  else if (ph <? PH_CRITICO_MINIMO params)%float || (PH_CRITICO_MAXIMO params <? ph)%float then
    (false, [Lit "pH crítico ("; Fixed1 ph; Lit ") - Irrigação bloqueada"])
  else if (humidity <? UMIDADE_MINIMA_PARA_IRRIGAR params)%float then
    if (PH_IDEAL_MINIMO params <=? ph)%float && (ph <=? PH_IDEAL_MAXIMO params)%float then
      if phosphorus && potassium then
        (true, [Lit "Umidade baixa ("; Fixed1 humidity; Lit "%), pH ideal, nutrientes OK"])
      else if phosphorus || potassium then
        (true, [Lit "Umidade baixa ("; Fixed1 humidity; Lit "%), pH ideal, nutrientes parciais"])
      else
        (true, [Lit "Umidade baixa ("; Fixed1 humidity; Lit "%), pH ideal, sem nutrientes"])
    else
      (false, [Lit "Umidade baixa ("; Fixed1 humidity; Lit "%), mas pH não ideal (";
               Fixed1 ph; Lit ")"])
  else if (UMIDADE_ALTA_PARAR_IRRIGACAO params <? humidity)%float then
    (false, [Lit "Umidade alta ("; Fixed1 humidity; Lit "%) - Irrigação desnecessária"])
  else
    (false, [Lit "Condições normais - Bomba desligada (Umidade: "; Fixed1 humidity; Lit "%)"]).

(** The expression bound to [emergency] in [simulate_wokwi_data], lines
    105-109. *)
Definition emergency (params : logica_esp32) (humidity ph : float) : bool :=
  (humidity <? UMIDADE_CRITICA_BAIXA params)%float
  || (ph <? PH_CRITICO_MINIMO params)%float
  || (PH_CRITICO_MAXIMO params <? ph)%float.

(** Python's [max(a, b)] and [min(a, b)] on two arguments: the first one
    unless the second is strictly greater (smaller). *)
Definition py_max (a b : float) : float := if (a <? b)%float then b else a.
Definition py_min (a b : float) : float := if (b <? a)%float then b else a.

(** The record [simulate_wokwi_data] builds (the keys of its dictionary). *)
Record wokwi_data : Type := {
  wd_timestamp : string;
  wd_umidade : float;
  wd_ph_estimado : float;
  wd_fosforo_presente : bool;
  wd_potassio_presente : bool;
  wd_temperatura : float;
  wd_bomba_ligada : bool;
  wd_decisao_logica_esp32 : fstring;
  wd_emergencia : bool
}.

(** The literal [0.1]: the binary64 value nearest to one tenth. *)
Definition tenth : float := 0x1.999999999999ap-4%float.

Section Simulate.
(** [round(x, 1)] and [datetime.now().isoformat()] come from Python. *)
Variable round1 : float -> float.
Variable now_iso : string.

(** [simulate_wokwi_data], lines 79-121, as a function of the five random
    draws: the three [random.uniform] offsets and the two [random.random]
    values. *)
Definition simulate_wokwi_data (params : logica_esp32)
    (dh dph dt rp rk : float) : wokwi_data :=
  let humidity := py_max 0 (py_min 100 (30.0 + dh)%float) in
  let ph := py_max 0 (py_min 14 (6.5 + dph)%float) in
  let temperature := py_max 0 (py_min 50 (25.0 + dt)%float) in
  let phosphorus := (tenth <? rp)%float in
  let potassium := (tenth <? rk)%float in
  let '(pump_on, decision_reason) :=
    _simulate_irrigation_logic params humidity ph phosphorus potassium temperature in
  {| wd_timestamp := now_iso;
     wd_umidade := round1 humidity;
     wd_ph_estimado := round1 ph;
     wd_fosforo_presente := phosphorus;
     wd_potassio_presente := potassium;
     wd_temperatura := round1 temperature;
     wd_bomba_ligada := pump_on;
     wd_decisao_logica_esp32 := decision_reason;
     wd_emergencia := emergency params humidity ph |}.
End Simulate.

End WokwiListener.

(** ** legacy/dashboard/dashboard.py *)

Module Dashboard.

(** [simular_logica_irrigacao_app(umidade, ph, p, k, cfg_logica, chuva_mm)],
    lines 636-659: the rules set [ligar_bomba] and [motivo] (both start as
    the default of line 638), then the forecast rainfall is folded in. *)
Definition simular_logica_irrigacao_app (umidade ph : float) (p k : bool)
    (cfg_logica : logica_esp32) (chuva_mm : float) : bool * fstring :=
  let '(ligar_bomba, motivo) :=
  if (umidade <? UMIDADE_CRITICA_BAIXA cfg_logica)%float then
    (true, [Lit "EMERGÊNCIA: Umidade crítica ("; Fixed1 umidade; Lit "%)"])
  else if (ph <? PH_CRITICO_MINIMO cfg_logica)%float
          || (PH_CRITICO_MAXIMO cfg_logica <? ph)%float then
    (false, [Lit "pH crítico ("; Fixed1 ph; Lit "%)"])
  else if (umidade <? UMIDADE_MINIMA_PARA_IRRIGAR cfg_logica)%float then
    if (PH_IDEAL_MINIMO cfg_logica <=? ph)%float && (ph <=? PH_IDEAL_MAXIMO cfg_logica)%float
    then
      (true,
       if p && k then
         [Lit "Umid. baixa ("; Fixed1 umidade; Lit "%), pH ideal ("; Fixed1 ph; Lit "), P&K OK"]
       else if p || k then
         [Lit "Umid. baixa ("; Fixed1 umidade; Lit "%), pH ideal ("; Fixed1 ph;
          Lit "), P ou K OK"]
       else
         [Lit "Umid. baixa ("; Fixed1 umidade; Lit "%), pH ideal ("; Fixed1 ph;
          Lit "), Nutrientes Ausentes"])
    else
      (false, [Lit "Umid. baixa ("; Fixed1 umidade; Lit "%), mas pH ("; Fixed1 ph;
               Lit ") não ideal"])
  else if (UMIDADE_ALTA_PARAR_IRRIGACAO cfg_logica <? umidade)%float then
    (false, [Lit "Umidade alta ("; Fixed1 umidade; Lit "%)"])
  else
    (false, [Lit "Condições padrão, bomba desligada."])
  in
  if ligar_bomba && (1.0 <? chuva_mm)%float then
    (false, [Lit "DECISÃO BASE: Ligar ("] ++ motivo
            ++ [Lit "). AJUSTE CLIMA: DESLIGAR (Chuva: "; Fixed1 chuva_mm; Lit "mm)."])
  else if (0 <? chuva_mm)%float then
    (ligar_bomba, motivo ++ [Lit " (Chuva: "; Fixed1 chuva_mm; Lit "mm)"])
  else
    (ligar_bomba, motivo ++ [Lit " (Sem chuva prevista)"]).

End Dashboard.

(** ** db_manager.py: the table of readings *)

Module DbManager.

(** The columns of [LeituraSensor], lines 57-68, those declared
    [nullable=False] ([id] is the primary key, handled on its own), and the
    types they are declared with. *)
Definition columns : list string :=
  [ "id"; "timestamp"; "umidade"; "ph_estimado"; "fosforo_presente";
    "potassio_presente"; "temperatura"; "bomba_ligada";
    "decisao_logica_esp32"; "emergencia" ].

Definition not_nullable : list string :=
  [ "timestamp"; "umidade"; "ph_estimado"; "fosforo_presente";
    "potassio_presente"; "bomba_ligada"; "emergencia" ].

Inductive coltype : Type :=
| TInteger
| TDateTime
| TFloat
| TBoolean
| TString.

Definition column_type (c : string) : coltype :=
  if String.eqb c "id" then TInteger
  else if String.eqb c "timestamp" then TDateTime
  else if existsb (String.eqb c) ["umidade"; "ph_estimado"; "temperatura"] then TFloat
  else if String.eqb c "decisao_logica_esp32" then TString
  else TBoolean.

Definition is_column (k : string) : bool := bool_decide (k ∈ columns).

(** The column attributes of one [LeituraSensor] object, and of one row: an
    attribute that was never set reads [None]. *)
Definition attr (r : gmap string pyval) (k : string) : pyval := default PNone (r !! k).

Definition is_none (v : pyval) : bool :=
  match v with PNone => true | _ => false end.

(** Equality of two stored values, as the [UNIQUE] index compares them. *)
Definition pyval_eqb (v w : pyval) : bool :=
  match v, w with
  | PNone, PNone => true
  | PBool a, PBool b => Bool.eqb a b
  | PInt a, PInt b => Z.eqb a b
  | PFloat a, PFloat b => PrimFloat.eqb a b
  | PStr a, PStr b => String.eqb a b
  | PDateTime a, PDateTime b => Z.eqb a b
  | _, _ => false
  end.

(** What Python, SQLAlchemy and SQLite decide on their own:
    - the names the class [LeituraSensor] and an object of it answer
      [hasattr] for besides the columns ([to_dict], [metadata], [__class__],
      ...);
    - what [setattr] does on such a name: the exception it raises (on
      [__class__], [__dict__], [__weakref__], ...), or nothing when it sets a
      plain attribute of the Python object, which never reaches the table;
    - what the bind processor of a column type and the affinity of the column
      make of a value of another Python type: the value the column then
      holds, or the exception the flush raises;
    - the date and time a [datetime] shows without its time zone, which is
      all a [DATETIME] column keeps;
    - the unused row id SQLite picks at random once the largest id is in
      use. *)
Record orm : Type := {
  class_attr : string -> bool;
  other_attr : string -> bool;
  setattr_other : string -> pyval -> option exn;
  coerce : coltype -> pyval -> exn + pyval;
  naive : Z -> Z;
  random_rowid : gmap Z (gmap string pyval) -> exn + Z
}.

(** [setattr(obj, k, v)] on the attributes that were set on an object: a
    column attribute is recorded for the next flush, whatever the value. *)
Definition setattr (o : orm) (r : gmap string pyval) (k : string) (v : pyval)
  : exn + gmap string pyval :=
  if is_column k then inr (<[k := v]> r)
  else match setattr_other o k v with
       | Some e => inl e
       | None => inr r
       end.

(** A float as a [FLOAT] column holds it: SQLite stores NaN as NULL, and a
    float without fraction as an integer, which loses the sign of zero. *)
Definition stored_real (x : float) : pyval :=
  if PrimFloat.is_nan x then PNone
  else if (x =? 0)%float then PFloat 0
  else PFloat x.

Definition int64 (z : Z) : bool := (- 2 ^ 63 <=? z)%Z && (z <? 2 ^ 63)%Z.

(** The value read back from a column of type [t] after [v] was written to
    it, or the exception of the flush.  [None] is NULL in every column; a
    value of the Python type the column is declared with is kept, up to what
    [stored_real] says of floats and up to the time zone of a [datetime]; a
    [bool] or an [int] in a [FLOAT] column becomes the float of that value;
    an [int] outside 64 bits does not fit a row id. *)
Definition adapt (o : orm) (t : coltype) (v : pyval) : exn + pyval :=
  match t, v with
  | _, PNone => inr PNone
  | TFloat, PFloat x => inr (stored_real x)
  | TFloat, PBool b => inr (PFloat (if b then 1 else 0))
  | TFloat, PInt z =>
      if (Z.abs z <? 2 ^ 63)%Z then inr (PFloat (Pandas.float_of_Z z)) else coerce o t v
  | TBoolean, PBool _ => inr v
  | TString, PStr _ => inr v
  | TDateTime, PDateTime d => inr (PDateTime (naive o d))
  | TInteger, PInt z => if int64 z then inr v else inl OverflowError
  | _, _ => coerce o t v
  end.

(** The parameters of an INSERT or UPDATE for the columns [cols] of an
    object: the first value that is refused stops the flush. *)
Fixpoint adapt_row (o : orm) (obj : gmap string pyval) (cols : list string)
  : exn + gmap string pyval :=
  match cols with
  | [] => inr ∅
  | c :: rest =>
      let* v := adapt o (column_type c) (attr obj c) in
      let* r := adapt_row o obj rest in
      inr (<[c := v]> r)
  end.

(** The constraints of the schema on a row about to be written: no NULL in
    a [nullable=False] column, and a [timestamp] no other row has. *)
Definition null_violation (r : gmap string pyval) : bool :=
  existsb (fun c => is_none (attr r c)) not_nullable.

Definition timestamp_taken (ts : pyval) (others : gmap Z (gmap string pyval)) : bool :=
  existsb (fun kr => pyval_eqb (attr (snd kr) "timestamp") ts) (map_to_list others).

(** The id SQLite gives a row inserted without one: 1 in an empty table, one
    past the largest id in the table while that is below the largest row id
    there is, and an unused id picked at random after that. *)
Definition largest_id (tbl : gmap Z (gmap string pyval)) : option Z :=
  match map_to_list tbl with
  | [] => None
  | kr :: rest => Some (fold_left Z.max (map fst rest) (fst kr))
  end.

Definition max_rowid : Z := 2 ^ 63 - 1.

Definition next_id (o : orm) (tbl : gmap Z (gmap string pyval)) : exn + Z :=
  match largest_id tbl with
  | None => inr 1%Z
  | Some m =>
      if (m <? max_rowid)%Z then inr (m + 1)%Z
      else
        let* z := random_rowid o tbl in
        match tbl !! z with
        | Some _ => inl OperationalError
        | None => inr z
        end
  end.

(** The INSERT a flush issues for a new object; [now] is what
    [datetime.utcnow] returns for the [timestamp] default, which applies to
    an attribute that is [None].  The row holds every column, unset ones
    NULL. *)
Definition flush_insert (o : orm) (now : Z) (obj : gmap string pyval)
    (tbl : gmap Z (gmap string pyval)) : exn + (Z * gmap Z (gmap string pyval)) :=
  let obj := match attr obj "timestamp" with
             | PNone => <["timestamp" := PDateTime now]> obj
             | _ => obj
             end in
  let* row := adapt_row o obj columns in
  let* i := match attr row "id" with
            | PNone => next_id o tbl
            | PInt z => match tbl !! z with
                        | Some _ => inl IntegrityError
                        | None => inr z
                        end
            | _ => inl IntegrityError
            end in
  let row := <["id" := PInt i]> row in
  if null_violation row || timestamp_taken (attr row "timestamp") tbl then inl IntegrityError
  else inr (i, <[i := row]> tbl).

(** The UPDATE a flush issues for the object loaded from row [i], on which
    the attributes [pending] were set: only these columns are written, and
    nothing is issued when there is none. *)
Definition flush_update (o : orm) (i : Z) (leitura pending : gmap string pyval)
    (tbl : gmap Z (gmap string pyval)) : exn + gmap Z (gmap string pyval) :=
  let cols := List.filter (fun c => bool_decide (is_Some (pending !! c))) columns in
  match cols with
  | [] => inr tbl
  | _ =>
      let* written := adapt_row o pending cols in
      let row := written ∪ leitura in
      let others := delete i tbl in
      let* j := match written !! "id" with
                | None => inr i
                | Some (PInt j) => match others !! j with
                                   | Some _ => inl IntegrityError
                                   | None => inr j
                                   end
                | Some _ => inl IntegrityError
                end in
      if null_violation row || timestamp_taken (attr row "timestamp") others
      then inl IntegrityError
      else inr (<[j := row]> others)
  end.

End DbManager.

(** ** services.py: CRUD on readings and the what-if wrapper *)

Module Services.
Import DbManager.

(** The loop that the declarative constructor, called on line 21, and
    [update_leitura], lines 32-34, both run over a dictionary: [setattr] on
    every name the class, or the object, has; [other] answers [hasattr] for
    the names that are no column, and [unknown] is what a name without
    attribute does: nothing, or an exception.  The dictionary is a finite
    map, visited in the order of its enumeration; Python visits it in the
    order of insertion, which only decides which of several exceptions is the
    one raised. *)
Definition setattrs (o : orm) (other : string -> bool) (unknown : option exn)
    (d : gmap string pyval) : exn + gmap string pyval :=
  map_fold (fun k v r =>
              let* p := r in
              if is_column k || other k then setattr o p k v
              else match unknown with
                   | Some e => inl e
                   | None => inr p
                   end)
           (inr ∅) d.

(** The loop of [update_leitura], lines 32-34: the attributes set on the
    loaded object. *)
Definition set_known (o : orm) (campos : gmap string pyval) : exn + gmap string pyval :=
  setattrs o (other_attr o) None campos.

(** [LeituraSensor] applied to keyword arguments: the declarative constructor
    raises [TypeError] on a keyword the class has no attribute for and sets
    the others. *)
Definition new_LeituraSensor (o : orm) (kwargs : gmap string pyval)
  : exn + gmap string pyval :=
  setattrs o (class_attr o) (Some TypeError) kwargs.

(** [add_leitura] applied to keyword arguments, lines 18-25: the outcome and
    the table after the session closed (a failed flush is rolled back). *)
Definition add_leitura (o : orm) (now : Z) (kwargs : gmap string pyval)
    (tbl : gmap Z (gmap string pyval)) : (exn + Z) * gmap Z (gmap string pyval) :=
  match (let* leitura := new_LeituraSensor o kwargs in flush_insert o now leitura tbl) with
  | inl e => (inl e, tbl)
  | inr (i, tbl') => (inr i, tbl')
  end.

(** [sess.get(LeituraSensor, leitura_id)]. *)
Definition get (tbl : gmap Z (gmap string pyval)) (leitura_id : Z)
  : option (gmap string pyval) := tbl !! leitura_id.

(** [update_leitura(leitura_id, campos)], lines 27-36. *)
Definition update_leitura (o : orm) (leitura_id : Z) (campos : gmap string pyval)
    (tbl : gmap Z (gmap string pyval)) : (exn + bool) * gmap Z (gmap string pyval) :=
  match get tbl leitura_id with
  | None => (inr false, tbl)
  | Some leitura =>
      match (let* pending := set_known o campos in
             flush_update o leitura_id leitura pending tbl) with
      | inl e => (inl e, tbl)
      | inr tbl' => (inr true, tbl')
      end
  end.

(** [delete_leitura(leitura_id)], lines 38-45. *)
Definition delete_leitura (leitura_id : Z) (tbl : gmap Z (gmap string pyval))
  : bool * gmap Z (gmap string pyval) :=
  match get tbl leitura_id with
  | None => (false, tbl)
  | Some _ => (true, delete leitura_id tbl)
  end.

(** [run_what_if_simulation(umidade, ph, temperatura, fosforo, potassio)],
    lines 59-70; [cfg] is [config_manager.get_config()['logica_esp32']]. *)
Definition run_what_if_simulation (cfg : logica_esp32)
    (umidade ph temperatura : float) (fosforo potassio : bool) : bool * fstring :=
  if (umidade <? UMIDADE_MINIMA_PARA_IRRIGAR cfg)%float then
    (true, [Lit "Ligar: Umidade ("; Repr umidade; Lit "%) abaixo do mínimo (";
            Repr (UMIDADE_MINIMA_PARA_IRRIGAR cfg); Lit "%)"])
  else if (UMIDADE_ALTA_PARAR_IRRIGACAO cfg <? umidade)%float then
    (false, [Lit "Desligar: Umidade ("; Repr umidade; Lit "%) acima do ideal (";
             Repr (UMIDADE_ALTA_PARAR_IRRIGACAO cfg); Lit "%)"])
  else
    (false, [Lit "Manter desligada: Umidade ("; Repr umidade;
             Lit "%) está dentro da faixa ideal."]).

End Services.

(** ** Sample data for the examples below *)

Module Samples.
Import Pandas MlPredictor.

(** A configuration whose critical thresholds would make every reading an
    emergency. *)
Definition all_critical_logica_esp32 : logica_esp32 := {|
  UMIDADE_CRITICA_BAIXA := 100;
  UMIDADE_MINIMA_PARA_IRRIGAR := 20;
  UMIDADE_ALTA_PARAR_IRRIGACAO := 60;
  PH_IDEAL_MINIMO := 5.5;
  PH_IDEAL_MAXIMO := 6.5;
  PH_CRITICO_MINIMO := 7;
  PH_CRITICO_MAXIMO := 7
|}.

(** Scenario 5: the series 10, 10, 10, 10, 100 as the column of a frame, once
    as floats and once as the integers [pd.Series([10, 10, 10, 10, 100])]
    holds. *)
Definition scenario5 : DataFrame := {|
  df_index := RangeIndex 5;
  df_columns := {[ "valor" := NumCol [10; 10; 10; 10; 100]%float ]}
|}.

Definition scenario5_int : DataFrame := {|
  df_index := RangeIndex 5;
  df_columns := {[ "valor" := IntCol [10; 10; 10; 10; 100]%Z ]}
|}.

(** Stand-ins for the libraries: an index with no frequency to infer, a
    resampling that returns the series as it is, and a fit that always
    succeeds. *)
Definition no_inferred_freq (i : index) : option string := None.
Definition infer_none (i : index) : exn + option string := inr None.
Definition asfreq_same (s : Series) (freq : option string) : exn + Series := inr s.
Definition fit_always (xs : list float) (order : Z * Z * Z) : string + unit := inr tt.

(** Stand-ins for what pandas and scikit-learn decide: no column parses as
    dates, no text as an integer, and the training always succeeds. *)
Definition parse_nothing (c : column) : exn + list Z := inl TypeError.
Definition no_int (s : string) : option Z := None.
Definition train_always (X : DataFrame) (y : list Z) (grid : gmap string (list pyval))
    (test_size : float) (random_state : Z) : exn + unit := inr tt.

(** A one-row frame that holds the [emergencia] column and nothing else. *)
Definition only_emergencia : DataFrame := {|
  df_index := RangeIndex 1;
  df_columns := {[ "emergencia" := BoolCol [true] ]}
|}.

(** Two readings an hour apart, both emergencies, the first without a
    temperature. *)
Definition two_emergencies : DataFrame := {|
  df_index := RangeIndex 2;
  df_columns :=
    {[ "timestamp" := TimeCol [0; 3600000000000]%Z;
       "umidade" := NumCol [10; 12]%float;
       "ph_estimado" := NumCol [6; 7]%float;
       "temperatura" := NumCol [PrimFloat.nan; 20]%float;
       "emergencia" := BoolCol [true; true] ]}
|}.

(** Some of the names [LeituraSensor] answers [hasattr] for besides its
    columns. *)
Definition orm_attr (k : string) : bool :=
  bool_decide (k ∈ ["to_dict"; "metadata"; "registry"; "__class__"]).

(** Stand-ins for the libraries: [__class__] cannot be set to a value of the
    table, a value of another type than its column is refused, times carry
    no zone, and no row id is found once the largest is in use. *)
Definition class_is_fixed (k : string) (v : pyval) : option exn :=
  if String.eqb k "__class__" then Some TypeError else None.

Definition plain_orm : DbManager.orm := {|
  DbManager.class_attr := orm_attr;
  DbManager.other_attr := orm_attr;
  DbManager.setattr_other := class_is_fixed;
  DbManager.coerce := fun _ _ => inl StatementError;
  DbManager.naive := fun d => d;
  DbManager.random_rowid := fun _ => inl OperationalError
|}.

(** The keyword arguments of one reading, and the table that holds it after
    it was added to an empty table at time 1000. *)
Definition reading : gmap string pyval :=
  {[ "umidade" := PFloat 65.5;
     "ph_estimado" := PFloat 6.75;
     "fosforo_presente" := PBool true;
     "potassio_presente" := PBool false;
     "temperatura" := PFloat 28.25;
     "bomba_ligada" := PBool true;
     "decisao_logica_esp32" := PStr "Manual";
     "emergencia" := PBool false ]}.

Definition one_reading : gmap Z (gmap string pyval) :=
  snd (Services.add_leitura plain_orm 1000 reading ∅).

Definition empty_series : Series := {| s_index := RangeIndex 0; s_values := [] |}.

Definition three_points : Series :=
  {| s_index := RangeIndex 3; s_values := [41; 42.5; 40]%float |}.

End Samples.

(** ** legacy/backend/calibration.py *)

Module Calibration.

(** [DEFAULT_PH_COEFFS], lines 13-18. *)
Definition DEFAULT_PH_COEFFS : list float := [1.5; 10.5; -5.0; 2.5]%float.

(** What [adc_to_ph] raises. *)
Inductive calib_error : Type :=
| CoeffError (msg : fstring)      (* ValueError *)
| ZeroDivisionError.

Section AdcToPh.
(** [float(v)] on each field of a line, [None] when one does not parse, and
    [x ** n] of the C library. *)
Variable parse_floats : string -> option (list float).
Variable pow : float -> Z -> float.

(** [_load_coeffs_from_file(path)], lines 24-37; [first_line] is the first
    line of the file, [None] when the file does not exist. *)
Definition _load_coeffs_from_file (first_line : option string) : option (list float) :=
  match first_line with
  | None => None
  | Some line =>
      match parse_floats line with
      | Some vals => if Nat.eqb (length vals) 4 then Some vals else None
      | None => None
      end
  end.

(** [adc_to_ph(raw, coeffs, adc_max)], lines 40-69. *)
Definition adc_to_ph (first_line : option string) (raw : float)
    (coeffs : option (list float)) (adc_max : float) : calib_error + float :=
  if (raw <? 0)%float then inr 0%float
  else if (adc_max <? raw)%float then inr 14%float
  else
    let coeffs :=
      match coeffs with
      | Some cs => cs
      | None =>
          match _load_coeffs_from_file first_line with
          | Some cs => cs
          | None => DEFAULT_PH_COEFFS
          end
      end in
    match coeffs with
    | [a; b; c; d] =>
        if (adc_max =? 0)%float then inl ZeroDivisionError
        else
          let x := WokwiListener.py_max 0
                     (WokwiListener.py_min (raw / adc_max)%float 1) in
          let ph := (a + b * x + c * pow x 2 + d * pow x 3)%float in
          inr (WokwiListener.py_max 0 (WokwiListener.py_min ph 14))
    | _ => inl (CoeffError [Lit "São necessários 4 coeficientes (a,b,c,d)"])
    end.
End AdcToPh.

End Calibration.

(** ** app.py: the single-file variant *)

Module App.

(** [CONFIG], lines 77-85. *)
Definition CONFIG : logica_esp32 := {|
  UMIDADE_CRITICA_BAIXA := 15.0;
  UMIDADE_MINIMA_PARA_IRRIGAR := 20.0;
  UMIDADE_ALTA_PARAR_IRRIGACAO := 60.0;
  PH_IDEAL_MINIMO := 5.5;
  PH_IDEAL_MAXIMO := 6.5;
  PH_CRITICO_MINIMO := 4.5;
  PH_CRITICO_MAXIMO := 7.5
|}.

(** The dictionary [simulate_sensor_data] returns. *)
Record sensor_data : Type := {
  sd_umidade : float;
  sd_ph_estimado : float;
  sd_temperatura : float;
  sd_fosforo_presente : bool;
  sd_potassio_presente : bool;
  sd_bomba_ligada : bool;
  sd_emergencia : bool
}.

(** [simulate_sensor_data()], lines 203-234, as a function of its five
    random draws. *)
Definition simulate_sensor_data (umidade ph temperatura : float) (fosforo potassio : bool)
  : sensor_data :=
  let '(bomba_ligada, emergencia) :=
    if (umidade <? UMIDADE_CRITICA_BAIXA CONFIG)%float then (true, true)
    else if (umidade <? UMIDADE_MINIMA_PARA_IRRIGAR CONFIG)%float then (true, false)
    else if (UMIDADE_ALTA_PARAR_IRRIGACAO CONFIG <? umidade)%float then (false, false)
    else (false, false) in
  let emergencia :=
    if (ph <? PH_CRITICO_MINIMO CONFIG)%float || (PH_CRITICO_MAXIMO CONFIG <? ph)%float
    then true else emergencia in
  {| sd_umidade := umidade;
     sd_ph_estimado := ph;
     sd_temperatura := temperatura;
     sd_fosforo_presente := fosforo;
     sd_potassio_presente := potassio;
     sd_bomba_ligada := bomba_ligada;
     sd_emergencia := emergencia |}.

(** [sep.join(parts)]. *)
Fixpoint join (sep : string) (parts : list string) : string :=
  match parts with
  | [] => ""
  | [p] => p
  | p :: rest => String.append p (String.append sep (join sep rest))
  end.

(** The list [justificativa] that [run_what_if_simulation] builds, lines
    238-257. *)
Definition justificativas (umidade ph temperatura : float) (fosforo potassio : bool)
  : bool * list string :=
  let '(bomba_ligada, justificativa) :=
    if (umidade <? UMIDADE_CRITICA_BAIXA CONFIG)%float then
      (true, ["Umidade crítica - irrigação emergencial"])
    else if (umidade <? UMIDADE_MINIMA_PARA_IRRIGAR CONFIG)%float then
      (true, ["Umidade baixa - irrigação necessária"])
    else if (UMIDADE_ALTA_PARAR_IRRIGACAO CONFIG <? umidade)%float then
      (false, ["Umidade alta - não irrigar"])
    else
      (false, ["Umidade adequada"]) in
  let justificativa :=
    if (ph <? PH_CRITICO_MINIMO CONFIG)%float || (PH_CRITICO_MAXIMO CONFIG <? ph)%float
    then justificativa ++ ["pH crítico - atenção necessária"] else justificativa in
  let justificativa :=
    if negb fosforo || negb potassio
    then justificativa ++ ["Deficiência nutricional detectada"] else justificativa in
  (bomba_ligada, justificativa).

(** [run_what_if_simulation(umidade, ph, temperatura, fosforo, potassio)],
    lines 236-259. *)
Definition run_what_if_simulation (umidade ph temperatura : float) (fosforo potassio : bool)
  : bool * string :=
  let '(bomba_ligada, justificativa) :=
    justificativas umidade ph temperatura fosforo potassio in
  (bomba_ligada, join "; " justificativa).

End App.

(** ** legacy/dashboard/dashboard.py: the soil assessment *)

Module DashboardSoil.

(** One entry of [recommendations]: the keys [type], [message], [action]. *)
Record recommendation : Type := {
  rec_type : string;
  rec_message : string;
  rec_action : string
}.

Definition rec_umidade_critica : recommendation :=
  {| rec_type := "critical"; rec_message := "⚠️ Umidade criticamente baixa"; rec_action := "Irrigação emergencial necessária" |}.
Definition rec_umidade_baixa : recommendation :=
  {| rec_type := "warning"; rec_message := "⚡ Umidade abaixo do ideal"; rec_action := "Considerar irrigação preventiva" |}.
Definition rec_ph_baixo : recommendation :=
  {| rec_type := "critical"; rec_message := "🧪 pH criticamente baixo"; rec_action := "Correção de acidez necessária" |}.
Definition rec_ph_alto : recommendation :=
  {| rec_type := "critical"; rec_message := "🧪 pH criticamente alto"; rec_action := "Correção de alcalinidade necessária" |}.
Definition rec_ph_nao_ideal : recommendation :=
  {| rec_type := "warning"; rec_message := "🧪 pH fora da faixa ideal"; rec_action := "Monitorar e planejar correção" |}.
Definition rec_nutrientes : recommendation :=
  {| rec_type := "warning"; rec_message := "🌱 Deficiência de nutrientes"; rec_action := "Considerar fertilização" |}.

(** [max(a, b)] on two strings: the first unless the second is greater (the
    order of strings is that of their code points, which the bytes of UTF-8
    keep). *)
Definition str_max (a b : string) : string := if String.ltb a b then b else a.

(** [evaluate_soil_conditions(humidity, ph, phosphorus, potassium, params)],
    lines 949-1009. *)
Definition evaluate_soil_conditions (humidity ph : float) (phosphorus potassium : bool)
    (params : logica_esp32) : string * Z * list recommendation :=
  let '(risk_level, efficiency_impact, recommendations) :=
    if (humidity <? UMIDADE_CRITICA_BAIXA params)%float then
      ("alto", (0 - 30)%Z, [rec_umidade_critica])
    else if (humidity <? UMIDADE_MINIMA_PARA_IRRIGAR params)%float then
      (str_max "baixo" "médio", (0 - 15)%Z, [rec_umidade_baixa])
    else ("baixo", 0%Z, []) in
  let '(risk_level, efficiency_impact, recommendations) :=
    if (ph <? PH_CRITICO_MINIMO params)%float then
      ("alto", (efficiency_impact - 20)%Z, recommendations ++ [rec_ph_baixo])
    else if (PH_CRITICO_MAXIMO params <? ph)%float then
      ("alto", (efficiency_impact - 20)%Z, recommendations ++ [rec_ph_alto])
    else if negb ((PH_IDEAL_MINIMO params <=? ph)%float && (ph <=? PH_IDEAL_MAXIMO params)%float)
    then
      (str_max risk_level "médio", (efficiency_impact - 10)%Z,
       recommendations ++ [rec_ph_nao_ideal])
    else (risk_level, efficiency_impact, recommendations) in
  if negb (phosphorus && potassium) then
    (str_max risk_level "médio", (efficiency_impact - 15)%Z,
     recommendations ++ [rec_nutrientes])
  else (risk_level, efficiency_impact, recommendations).

End DashboardSoil.

(** ** db_manager.py: reading the latest rows *)

Module DbQueries.
Import DbManager.

Section Order.
(** The order of the database on the values of the [timestamp] column. *)
Variable ts_leb : pyval -> pyval -> bool.

(** [r1] may come before [r2] in [ORDER BY timestamp DESC]. *)
Definition not_older (r1 r2 : gmap string pyval) : Prop :=
  ts_leb (attr r2 "timestamp") (attr r1 "timestamp") = true.

#[local] Instance not_older_dec : RelDecision not_older :=
  fun r1 r2 => decide (ts_leb (attr r2 "timestamp") (attr r1 "timestamp") = true).

End Order.


(** What the constraints of the schema mean for a whole table: every row
    carries its key as [id], has no NULL in a [nullable=False] column, and
    no two rows share a timestamp. *)
Definition consistent (tbl : gmap Z (gmap string pyval)) : Prop :=
  (forall i r, tbl !! i = Some r -> attr r "id" = PInt i /\ null_violation r = false)
  /\ (forall i j ri rj, tbl !! i = Some ri -> tbl !! j = Some rj -> i <> j ->
        pyval_eqb (attr ri "timestamp") (attr rj "timestamp") = false).

End DbQueries.

(** ** wokwi_listener.py: persisting a record *)

Module ListenerStore.
Import DbManager Services WokwiListener.

(** [s.replace('Z', '+00:00')]. *)
Fixpoint replace_Z (s : string) : string :=
  match s with
  | EmptyString => EmptyString
  | String c rest =>
      if Ascii.eqb c "Z"%char then String.append "+00:00" (replace_Z rest)
      else String c (replace_Z rest)
  end.

Section Persist.
Variable o : orm.
(** [datetime.fromisoformat], [None] when it raises, and Python's formatting
    of the values an f-string holds. *)
Variable fromisoformat : string -> option Z.
Variable repr : float -> string.
Variable fixed1 : float -> string.
Variable dec : Z -> string.

(** The dictionary [simulate_wokwi_data] returns, lines 111-121. *)
Definition as_dict (d : wokwi_data) : gmap string pyval :=
  {[ "timestamp" := PStr (wd_timestamp d);
     "umidade" := PFloat (wd_umidade d);
     "ph_estimado" := PFloat (wd_ph_estimado d);
     "fosforo_presente" := PBool (wd_fosforo_presente d);
     "potassio_presente" := PBool (wd_potassio_presente d);
     "temperatura" := PFloat (wd_temperatura d);
     "bomba_ligada" := PBool (wd_bomba_ligada d);
     "decisao_logica_esp32" := PStr (render repr fixed1 dec (wd_decisao_logica_esp32 d));
     "emergencia" := PBool (wd_emergencia d) ]}.

(** [persist_data(data)], lines 159-176: every exception is caught and
    reported as [False]; [now] is the clock of the flush.  The parsed
    timestamp is also written back into the caller's dictionary, which
    [start], the only caller, does not read again. *)
Definition persist_data (now : Z) (data : gmap string pyval)
    (tbl : gmap Z (gmap string pyval)) : bool * gmap Z (gmap string pyval) :=
  match data !! "timestamp" with
  | None => (false, tbl)
  | Some ts =>
      let converted :=
        match ts with
        | PStr s =>
            match fromisoformat (replace_Z s) with
            | Some t => Some (<["timestamp" := PDateTime t]> data)
            | None => None
            end
        | _ => Some data
        end in
      match converted with
      | None => (false, tbl)
      | Some data =>
          match add_leitura o now data tbl with
          | (inr _, tbl') => (true, tbl')
          | (inl _, _) => (false, tbl)
          end
      end
  end.
End Persist.

End ListenerStore.

(** ** Checks on frames used in the statements below *)

Module FrameChecks.
Import Pandas.

(** A column without missing values: no NaN among floats, neither [None]
    nor NaN among objects. *)
Definition no_missing (c : column) : bool :=
  match c with
  | NumCol xs => forallb (fun x => negb (PrimFloat.is_nan x)) xs
  | ObjCol vs => forallb (fun v => negb (isna v)) vs
  | IntCol _ | BoolCol _ | TimeCol _ => true
  end.

End FrameChecks.

(** ** More sample data *)

Module Fixtures.
Import Pandas MlPredictor.

(** Stand-ins for the calibration: no coefficient file to parse, and powers
    by repeated products. *)
Definition no_floats (line : string) : option (list float) := None.

Definition repeated_product (x : float) (n : Z) : float :=
  Z.iter n (fun acc => (acc * x)%float) 1%float.

(** The pH the default curve gives a reading in the middle of the range. *)
Definition half_scale_ph : float :=
  match Calibration.adc_to_ph no_floats repeated_product None 2048 None 4095 with
  | inr ph => ph
  | inl _ => 0%float
  end.

(** Two readings an hour apart, the first an emergency, the second not. *)
Definition two_classes : DataFrame := {|
  df_index := RangeIndex 2;
  df_columns :=
    {[ "timestamp" := TimeCol [0; 3600000000000]%Z;
       "umidade" := NumCol [10; 42]%float;
       "ph_estimado" := NumCol [6; 7]%float;
       "temperatura" := NumCol [PrimFloat.nan; 20]%float;
       "emergencia" := BoolCol [true; false] ]}
|}.

(** What the feature builder makes of the two emergencies of [Samples]. *)
Definition two_emergencies_features : DataFrame * list Z :=
  match build_feature_matrix Samples.parse_nothing Samples.no_int Samples.two_emergencies with
  | inr Xy => Xy
  | inl _ => (Samples.two_emergencies, [])
  end.

(** Twenty humidity readings an hour apart, and the same readings on a
    plain range index. *)
Definition twenty_hours : list Z :=
  map (fun k => (Z.of_nat k * ns_per_hour)%Z) (seq 0 20).

Definition twenty_points : Series :=
  {| s_index := DatetimeIndex twenty_hours; s_values := repeat 40%float 20 |}.

Definition twenty_unindexed : Series :=
  {| s_index := RangeIndex 20; s_values := repeat 40%float 20 |}.

Definition hourly (i : index) : option string := Some "h".

(** A humidity column with a missing reading. *)
Definition with_gap : DataFrame := {|
  df_index := RangeIndex 3;
  df_columns := {[ "umidade" := NumCol [10; PrimFloat.nan; 100]%float ]}
|}.




(** The reading of [Samples] with a temperature that is not a number, with a
    humidity that is not a number, and with an integer humidity. *)
Definition reading_nan_temperature : gmap string pyval :=
  <["temperatura" := PFloat PrimFloat.nan]> Samples.reading.

Definition reading_nan_humidity : gmap string pyval :=
  <["umidade" := PFloat PrimFloat.nan]> Samples.reading.

Definition reading_int_humidity : gmap string pyval :=
  <["umidade" := PInt 65]> Samples.reading.

Definition one_reading_at_30 : gmap Z (gmap string pyval) :=
  snd (Services.update_leitura Samples.plain_orm 1 {[ "umidade" := PFloat 30 ]}
         Samples.one_reading).

End Fixtures.

(** * Properties *)

(** A closed equation between computed values is settled by evaluating both
    sides. *)
Ltac by_evaluation :=
  lazymatch goal with
  | |- @eq ?T ?l ?r => exact (@eq_refl T r <: l = r)
  end.

(** ** The order of binary64 values *)

Section FloatOrder.

(** Comparing the other way round flips the outcome, NaN included. *)
Lemma SFcompare_antisym (a b : spec_float) :
  SFcompare b a = option_map CompOpp (SFcompare a b).
Proof.
  destruct a as [sa|sa| |sa ma ea], b as [sb|sb| |sb mb eb]; simpl;
    try destruct sa; try destruct sb; simpl; try reflexivity;
    rewrite (Z.compare_antisym ea eb); destruct (ea ?= eb)%Z; simpl; try reflexivity;
    change (PosDef.Pos.compare_cont Eq) with Pos.compare;
    rewrite (Pos.compare_antisym ma mb); destruct (ma ?= mb)%positive; reflexivity.
Qed.

Lemma SFleb_trans (a b c : spec_float) :
  SFleb a b = true -> SFleb b c = true -> SFleb a c = true.
Proof.
  unfold SFleb.
  destruct a as [sa|sa| |sa ma ea], b as [sb|sb| |sb mb eb], c as [sc|sc| |sc mc ec];
    simpl; try destruct sa; try destruct sb; try destruct sc; simpl; try congruence;
    change (PosDef.Pos.compare_cont Eq) with Pos.compare;
    destruct (Z.compare_spec ea eb); destruct (Z.compare_spec eb ec);
    destruct (Z.compare_spec ea ec); simpl; try congruence; try lia; subst;
    destruct (Pos.compare_spec ma mb); destruct (Pos.compare_spec mb mc);
    destruct (Pos.compare_spec ma mc); simpl; try congruence; try lia.
Qed.

(** [x <= y] rules out [y < x]. *)
Lemma leb_not_gt (x y : float) : (x <=? y)%float = true -> (y <? x)%float = false.
Proof.
  rewrite leb_spec, ltb_spec. unfold SFleb, SFltb.
  rewrite (SFcompare_antisym (Prim2SF x) (Prim2SF y)).
  destruct (SFcompare (Prim2SF x) (Prim2SF y)) as [[]|]; simpl; congruence.
Qed.

Lemma ltb_leb (x y : float) : (x <? y)%float = true -> (x <=? y)%float = true.
Proof.
  rewrite leb_spec, ltb_spec. unfold SFleb, SFltb.
  destruct (SFcompare (Prim2SF x) (Prim2SF y)) as [[]|]; congruence.
Qed.

Lemma leb_trans (x y z : float) :
  (x <=? y)%float = true -> (y <=? z)%float = true -> (x <=? z)%float = true.
Proof. rewrite !leb_spec. apply SFleb_trans. Qed.

(** Below a bound that lies below [y] means not above [y]. *)
Lemma leb_leb_not_gt (x y z : float) :
  (x <=? y)%float = true -> (y <=? z)%float = true -> (z <? x)%float = false.
Proof. intros Hxy Hyz. apply leb_not_gt. exact (leb_trans x y z Hxy Hyz). Qed.

End FloatOrder.

(** ** The decision engines *)

Section Engines.
Import DataAnalysis WokwiListener Dashboard.

Variable params : logica_esp32.

(** X1.  The listener blocks irrigation under unsafe pH once the humidity is
    not critical, and flags the emergency, for every threshold set. *)
Lemma listener_blocks_on_critical_ph (humidity ph temperature : float)
    (phosphorus potassium : bool) :
  (ph <? PH_CRITICO_MINIMO params)%float = true
    \/ (PH_CRITICO_MAXIMO params <? ph)%float = true ->
  (UMIDADE_CRITICA_BAIXA params <=? humidity)%float = true ->
  fst (_simulate_irrigation_logic params humidity ph phosphorus potassium temperature)
    = false
  /\ emergency params humidity ph = true.
Proof.
  intros Hph Hh. apply leb_not_gt in Hh.
  unfold _simulate_irrigation_logic, emergency. rewrite Hh.
  destruct Hph as [-> | ->]; simpl.
  - split; reflexivity.
  - rewrite orb_true_r. split; reflexivity.
Qed.

(** The legacy dashboard takes the same pH branch when no rain is forecast. *)
Lemma dashboard_blocks_on_critical_ph (umidade ph chuva_mm : float) (p k : bool) :
  (ph <? PH_CRITICO_MINIMO params)%float = true
    \/ (PH_CRITICO_MAXIMO params <? ph)%float = true ->
  (UMIDADE_CRITICA_BAIXA params <=? umidade)%float = true ->
  fst (simular_logica_irrigacao_app umidade ph p k params chuva_mm) = false.
Proof.
  intros Hph Hh. apply leb_not_gt in Hh.
  unfold simular_logica_irrigacao_app. rewrite Hh.
  assert (Hor : ((ph <? PH_CRITICO_MINIMO params)%float
                 || (PH_CRITICO_MAXIMO params <? ph)%float) = true)
    by (destruct Hph as [-> | ->]; [reflexivity | apply orb_true_r]).
  rewrite Hor. simpl. destruct (0 <? chuva_mm)%float; reflexivity.
Qed.

(** The what-if page's engine, in contrast, switches the pump on for every
    pH outside the strict critical range, whatever the humidity. *)
Lemma data_analysis_forces_pump_on_critical_ph (umidade ph : float) :
  (ph <? PH_CRITICO_MINIMO params)%float = true
    \/ (PH_CRITICO_MAXIMO params <? ph)%float = true ->
  decisao (simular_logica_irrigacao umidade ph params) = "Ligar bomba (EMERGÊNCIA)"
  /\ emergencia (simular_logica_irrigacao umidade ph params) = true.
Proof.
  intros Hph. unfold simular_logica_irrigacao.
  assert (Hin : ((PH_CRITICO_MINIMO params <? ph)%float
                 && (ph <? PH_CRITICO_MAXIMO params)%float) = false).
  { destruct Hph as [H | H].
    - apply ltb_leb, leb_not_gt in H. rewrite H. reflexivity.
    - apply ltb_leb, leb_not_gt in H. rewrite H. apply andb_false_r. }
  rewrite Hin. rewrite orb_true_r. split; reflexivity.
Qed.

End Engines.

Lemma listener_blocks_on_critical_ph_witness :
  fst (WokwiListener._simulate_irrigation_logic default_logica_esp32 40 8 true true 25) = false
  /\ WokwiListener.emergency default_logica_esp32 40 8 = true.
Proof.
  apply (listener_blocks_on_critical_ph default_logica_esp32 40 8 25 true true).
  - right. vm_compute. reflexivity.
  - vm_compute. reflexivity.
Defined.

Section NormalConditions.
Import DataAnalysis WokwiListener.

Variable params : logica_esp32.
Hypothesis thresholds_ordered :
  (UMIDADE_CRITICA_BAIXA params <=? UMIDADE_MINIMA_PARA_IRRIGAR params)%float = true.

(** X2.  Between the irrigation threshold and the stop threshold, with the
    pH within the closed critical bounds, the listener keeps the pump off,
    reports normal conditions and raises no emergency, whatever the nutrient
    flags, for every threshold set whose critical humidity does not exceed
    the irrigation threshold. *)
Lemma listener_normal_conditions (humidity ph temperature : float)
    (phosphorus potassium : bool) :
  (UMIDADE_MINIMA_PARA_IRRIGAR params <=? humidity)%float = true ->
  (humidity <=? UMIDADE_ALTA_PARAR_IRRIGACAO params)%float = true ->
  (PH_CRITICO_MINIMO params <=? ph)%float = true ->
  (ph <=? PH_CRITICO_MAXIMO params)%float = true ->
  _simulate_irrigation_logic params humidity ph phosphorus potassium temperature
    = (false, [Lit "Condições normais - Bomba desligada (Umidade: "; Fixed1 humidity;
               Lit "%)"])
  /\ emergency params humidity ph = false.
Proof using thresholds_ordered.
  intros Hlo Hhi Hpl Hph.
  pose proof (leb_leb_not_gt _ _ _ thresholds_ordered Hlo) as Hcrit.
  apply leb_not_gt in Hlo, Hhi, Hpl, Hph.
  unfold _simulate_irrigation_logic, emergency.
  rewrite Hcrit, Hpl, Hph, Hlo, Hhi. split; reflexivity.
Qed.

(** The what-if page's engine agrees only strictly inside the critical pH
    bounds. *)
Lemma data_analysis_normal_conditions (umidade ph : float) :
  (UMIDADE_MINIMA_PARA_IRRIGAR params <=? umidade)%float = true ->
  (umidade <=? UMIDADE_ALTA_PARAR_IRRIGACAO params)%float = true ->
  (PH_CRITICO_MINIMO params <? ph)%float = true ->
  (ph <? PH_CRITICO_MAXIMO params)%float = true ->
  simular_logica_irrigacao umidade ph params
    = {| decisao := "Manter bomba desligada";
         justificativa := [Lit "Condições normais."];
         emergencia := false |}.
Proof using thresholds_ordered.
  intros Hlo Hhi Hpl Hph.
  pose proof (leb_leb_not_gt _ _ _ thresholds_ordered Hlo) as Hcrit.
  apply leb_not_gt in Hlo, Hhi.
  unfold simular_logica_irrigacao.
  rewrite Hcrit, Hpl, Hph, Hlo, Hhi. reflexivity.
Qed.

End NormalConditions.

Lemma listener_normal_conditions_witness :
  WokwiListener._simulate_irrigation_logic default_logica_esp32 20 4.5 false true 25
  = (false, [Lit "Condições normais - Bomba desligada (Umidade: "; Fixed1 20; Lit "%)"])
  /\ WokwiListener.emergency default_logica_esp32 20 4.5 = false.
Proof.
  apply (listener_normal_conditions default_logica_esp32); vm_compute; reflexivity.
Defined.

(** C1 (the code departs from the claim).  At humidity 40 and pH 8.0, an
    unsafe pH with the humidity above the critical threshold, the engine of
    data_analysis.py decides "Ligar bomba (EMERGÊNCIA)": it switches the pump
    on where the claim, the listener and the dashboard keep it off. *)
Theorem data_analysis_critical_ph_turns_pump_on :
  DataAnalysis.simular_logica_irrigacao 40 8 default_logica_esp32
  = {| DataAnalysis.decisao := "Ligar bomba (EMERGÊNCIA)";
       DataAnalysis.justificativa :=
         [Lit "EMERGÊNCIA: pH ("; Repr 8; Lit ") fora da faixa crítica."];
       DataAnalysis.emergencia := true |}.
Proof. vm_compute. reflexivity. Qed.

(** C2.  Below the critical humidity both engines irrigate and flag the
    emergency, for every pH, every nutrient flag and every threshold set:
    data_analysis.py decides "Ligar bomba (EMERGÊNCIA)" with [emergencia]
    true, the listener returns [pump_on = True] and computes [emergency] true. *)
Theorem critical_humidity_forces_emergency_irrigation
    (params : logica_esp32) (humidity ph temperature : float)
    (phosphorus potassium : bool) :
  (humidity <? UMIDADE_CRITICA_BAIXA params)%float = true ->
  DataAnalysis.decisao (DataAnalysis.simular_logica_irrigacao humidity ph params)
    = "Ligar bomba (EMERGÊNCIA)"
  /\ DataAnalysis.emergencia (DataAnalysis.simular_logica_irrigacao humidity ph params) = true
  /\ fst (WokwiListener._simulate_irrigation_logic params humidity ph phosphorus potassium
            temperature) = true
  /\ WokwiListener.emergency params humidity ph = true.
Proof.
  intros Hcrit.
  unfold DataAnalysis.simular_logica_irrigacao, WokwiListener._simulate_irrigation_logic,
    WokwiListener.emergency.
  rewrite Hcrit. simpl. repeat split; reflexivity.
Qed.

Lemma critical_humidity_forces_emergency_irrigation_witness :
  (10 <? UMIDADE_CRITICA_BAIXA default_logica_esp32)%float = true
  /\ DataAnalysis.decisao (DataAnalysis.simular_logica_irrigacao 10 9 default_logica_esp32)
     = "Ligar bomba (EMERGÊNCIA)"
  /\ fst (WokwiListener._simulate_irrigation_logic default_logica_esp32 10 9 false false 25)
     = true.
Proof.
  assert (H : (10 <? UMIDADE_CRITICA_BAIXA default_logica_esp32)%float = true)
    by (vm_compute; reflexivity).
  destruct (critical_humidity_forces_emergency_irrigation
              default_logica_esp32 10 9 25 false false H) as (Hd & _ & Hp & _).
  exact (conj H (conj Hd Hp)).
Defined.

(** C3 (counterexample).  Humidity 10 is critical, yet with 2 mm of forecast
    rain the rainfall-extended function returns [False]: the override does
    suppress the emergency irrigation of rule 1. *)
Lemma rain_override_suppresses_emergency :
  Dashboard.simular_logica_irrigacao_app 10 6 true true default_logica_esp32 2
  = (false,
     [Lit "DECISÃO BASE: Ligar ("; Lit "EMERGÊNCIA: Umidade crítica ("; Fixed1 10; Lit "%)";
      Lit "). AJUSTE CLIMA: DESLIGAR (Chuva: "; Fixed1 2; Lit "mm)."]).
Proof. vm_compute. reflexivity. Qed.

(** C3 (amended).  In the rainfall-extended decision function, when the
    humidity is below the critical threshold the pump is on exactly when the
    forecast rainfall does not exceed 1.0 mm: the rain override cancels the
    emergency irrigation of rule 1 like any other decision to irrigate. *)
Theorem emergency_irrigation_unless_rain
    (cfg_logica : logica_esp32) (umidade ph chuva_mm : float) (p k : bool) :
  (umidade <? UMIDADE_CRITICA_BAIXA cfg_logica)%float = true ->
  fst (Dashboard.simular_logica_irrigacao_app umidade ph p k cfg_logica chuva_mm)
  = negb (1 <? chuva_mm)%float.
Proof.
  intros Hcrit. unfold Dashboard.simular_logica_irrigacao_app. rewrite Hcrit. simpl.
  destruct (1 <? chuva_mm)%float; simpl; [reflexivity|].
  destruct (0 <? chuva_mm)%float; reflexivity.
Qed.

Lemma emergency_irrigation_unless_rain_witness :
  fst (Dashboard.simular_logica_irrigacao_app 10 6 true true default_logica_esp32 0.5) = true.
Proof.
  exact (emergency_irrigation_unless_rain default_logica_esp32 10 6 0.5 true true
           (eq_refl : (10 <? UMIDADE_CRITICA_BAIXA default_logica_esp32)%float = true)).
Defined.

(** C4 (the code departs from the claim).  At humidity 40 and pH 4.5, the
    lower safe bound itself, the engine of data_analysis.py reports an
    emergency and switches the pump on: its test [min < ph < max] is strict,
    where the listener and the dashboard treat the bounds as safe. *)
Theorem data_analysis_emergency_at_safe_ph_bound :
  DataAnalysis.simular_logica_irrigacao 40 4.5 default_logica_esp32
  = {| DataAnalysis.decisao := "Ligar bomba (EMERGÊNCIA)";
       DataAnalysis.justificativa :=
         [Lit "EMERGÊNCIA: pH ("; Repr 4.5; Lit ") fora da faixa crítica."];
       DataAnalysis.emergencia := true |}.
Proof. vm_compute. reflexivity. Qed.

(** C9.  The what-if wrapper of services.py switches the pump on exactly when
    the humidity is below [UMIDADE_MINIMA_PARA_IRRIGAR]; its whole result is
    the same for any two calls that differ only in pH, temperature,
    phosphorus or potassium, and for any two configurations that differ only
    in the thresholds it never reads, the critical ones among them. *)
Theorem what_if_reads_humidity_only
    (cfg cfg' : logica_esp32) (umidade ph ph' temperatura temperatura' : float)
    (fosforo fosforo' potassio potassio' : bool) :
  UMIDADE_MINIMA_PARA_IRRIGAR cfg' = UMIDADE_MINIMA_PARA_IRRIGAR cfg ->
  UMIDADE_ALTA_PARAR_IRRIGACAO cfg' = UMIDADE_ALTA_PARAR_IRRIGACAO cfg ->
  fst (Services.run_what_if_simulation cfg umidade ph temperatura fosforo potassio)
    = (umidade <? UMIDADE_MINIMA_PARA_IRRIGAR cfg)%float
  /\ Services.run_what_if_simulation cfg' umidade ph' temperatura' fosforo' potassio'
     = Services.run_what_if_simulation cfg umidade ph temperatura fosforo potassio.
Proof.
  intros Hmin Hhigh. unfold Services.run_what_if_simulation. rewrite Hmin, Hhigh. split.
  - destruct (umidade <? UMIDADE_MINIMA_PARA_IRRIGAR cfg)%float; [reflexivity|].
    destruct (UMIDADE_ALTA_PARAR_IRRIGACAO cfg <? umidade)%float; reflexivity.
  - reflexivity.
Qed.

Lemma what_if_reads_humidity_only_witness :
  fst (Services.run_what_if_simulation default_logica_esp32 10 6 25 true true) = true
  /\ Services.run_what_if_simulation Samples.all_critical_logica_esp32 10 9 40 false false
     = Services.run_what_if_simulation default_logica_esp32 10 6 25 true true.
Proof.
  exact (what_if_reads_humidity_only default_logica_esp32 Samples.all_critical_logica_esp32
           10 6 9 25 40 true false true false eq_refl eq_refl).
Defined.

(** ** Anomaly detection *)

(** C5 (counterexample).  On the series 10, 10, 10, 10, 100 with threshold
    3.0 the last element is not flagged: no row is. *)
Lemma scenario5_flags_nothing_at_3 :
  DataAnalysis.anomalia (DataAnalysis.detect_anomalies Samples.scenario5 "valor" 3)
  = Some [false; false; false; false; false].
Proof. vm_compute. reflexivity. Qed.

(** C5 (amended).  On the series 10, 10, 10, 10, 100 the population z-scores
    are -0.5 four times and exactly 2.0 for the last element (mean 28,
    deviation 36), so with z-threshold 3.0 anomaly detection flags no element;
    with z-threshold 1.5 it flags exactly the last one.  The same holds when
    the column holds the values as integers. *)
Theorem scenario5_z_scores_and_flags :
  DataAnalysis.z_scores [10; 10; 10; 10; 100]%float = [-0.5; -0.5; -0.5; -0.5; 2]%float
  /\ DataAnalysis.anomalia (DataAnalysis.detect_anomalies Samples.scenario5 "valor" 3)
     = Some [false; false; false; false; false]
  /\ DataAnalysis.anomalia (DataAnalysis.detect_anomalies Samples.scenario5 "valor" 1.5)
     = Some [false; false; false; false; true]
  /\ DataAnalysis.anomalia (DataAnalysis.detect_anomalies Samples.scenario5_int "valor" 3)
     = Some [false; false; false; false; false]
  /\ DataAnalysis.anomalia (DataAnalysis.detect_anomalies Samples.scenario5_int "valor" 1.5)
     = Some [false; false; false; false; true].
Proof. repeat split; vm_compute; reflexivity. Qed.

(** ** The forecaster *)

Section ShortSeries.
Import Pandas MlPredictor.

Variable inferred_freq : index -> option string.
Variable infer_freq : index -> exn + option string.
Variable asfreq_ffill : Series -> option string -> exn + Series.
Variable Model : Type.
Variable arima_fit : list float -> Z * Z * Z -> string + Model.

(** The message of line 131 names the length it was given. *)
Lemma short_message_names_length (n : nat) :
  names_int (Z.of_nat n)
    [Lit "Série temporal muito curta ("; Dec (Z.of_nat n);
     Lit " pontos). São necessários pelo menos 20 pontos para o forecast."] = true.
Proof. unfold names_int. simpl. rewrite Z.eqb_refl. reflexivity. Qed.

(** From twenty points on, on a datetime index with a frequency, the fit is
    attempted, whatever comes of it. *)
Lemma long_series_reaches_fit (s : Series) (order : Z * Z * Z) (ts : list Z) :
  20 <= length (s_values s) ->
  s_index s = DatetimeIndex ts ->
  inferred_freq (s_index s) <> None ->
  fst (train_arima_model inferred_freq infer_freq asfreq_ffill Model arima_fit
         (PdSeries s) order) = [ArimaFit (s_values s) order].
Proof.
  intros Hlen Hidx Hfreq. unfold train_arima_model.
  destruct (Nat.eqb_spec (length (s_values s)) 0) as [H0 | _]; [lia|].
  destruct (Nat.ltb_spec (length (s_values s)) 20) as [Hlt | _]; [lia|].
  rewrite Hidx in *.
  destruct (inferred_freq (DatetimeIndex ts)); [reflexivity | congruence].
Qed.

End ShortSeries.

(** C6 (counterexample).  The empty series has fewer than 20 points, yet the
    error it raises is the one of the guard of line 127, whose message names
    no length. *)
Lemma empty_series_error_names_no_length :
  MlPredictor.train_arima_model Samples.no_inferred_freq Samples.infer_none
    Samples.asfreq_same unit Samples.fit_always
    (MlPredictor.PdSeries Samples.empty_series) (5, 1, 0)%Z
  = ([], inl (ValueError [Lit "A entrada deve ser uma pandas Series não vazia."]))
  /\ names_int 0 [Lit "A entrada deve ser uma pandas Series não vazia."] = false.
Proof. split; reflexivity. Qed.

(** C6 (amended).  For every humidity series with fewer than 20 points the
    forecaster raises [ValueError] before any library call, so without
    attempting a fit: a non-empty series gets the message that names its
    length, the empty series the message of the non-empty guard. *)
Theorem short_series_fails_before_fit
    (inferred_freq : Pandas.index -> option string)
    (infer_freq : Pandas.index -> exn + option string)
    (asfreq_ffill : MlPredictor.Series -> option string -> exn + MlPredictor.Series)
    (Model : Type) (arima_fit : list float -> Z * Z * Z -> string + Model)
    (s : MlPredictor.Series) (order : Z * Z * Z) :
  length (MlPredictor.s_values s) < 20 ->
  MlPredictor.train_arima_model inferred_freq infer_freq asfreq_ffill Model arima_fit
    (MlPredictor.PdSeries s) order
  = ([],
     inl (ValueError
            (if Nat.eqb (length (MlPredictor.s_values s)) 0
             then [Lit "A entrada deve ser uma pandas Series não vazia."]
             else [Lit "Série temporal muito curta (";
                   Dec (Z.of_nat (length (MlPredictor.s_values s)));
                   Lit " pontos). São necessários pelo menos 20 pontos para o forecast."]))).
Proof.
  intros Hlen. unfold MlPredictor.train_arima_model.
  destruct (Nat.eqb (length (MlPredictor.s_values s)) 0); [reflexivity|].
  destruct (Nat.ltb_spec (length (MlPredictor.s_values s)) 20) as [_ | Hge]; [reflexivity | lia].
Qed.

Lemma short_series_fails_before_fit_witness :
  MlPredictor.train_arima_model Samples.no_inferred_freq Samples.infer_none
    Samples.asfreq_same unit Samples.fit_always
    (MlPredictor.PdSeries Samples.three_points) (5, 1, 0)%Z
  = ([],
     inl (ValueError
            [Lit "Série temporal muito curta ("; Dec 3;
             Lit " pontos). São necessários pelo menos 20 pontos para o forecast."])).
Proof.
  exact (short_series_fails_before_fit Samples.no_inferred_freq Samples.infer_none
           Samples.asfreq_same unit Samples.fit_always Samples.three_points (5, 1, 0)%Z
           (ltac:(vm_compute; lia) : length (MlPredictor.s_values Samples.three_points) < 20)).
Defined.

(** ** The risk classifier *)

Section RiskModel.
Import Pandas MlPredictor.

Variable parse_dates : column -> exn + list Z.
Variable int_of_string : string -> option Z.
Variable Report : Type.
Variable sk_train :
  DataFrame -> list Z -> gmap string (list pyval) -> float -> Z -> exn + Report.

Lemma getitem_assign_ne (df : DataFrame) (col col' : string) (c : column) :
  col' <> col -> getitem (assign col' c df) col = getitem df col.
Proof.
  intros Hne. unfold getitem, assign. cbn [df_columns].
  rewrite lookup_insert_ne by exact Hne. reflexivity.
Qed.

Lemma getitem_assign_eq (df : DataFrame) (col : string) (c : column) :
  getitem (assign col c df) col = inr c.
Proof. unfold getitem, assign. cbn [df_columns]. rewrite lookup_insert_eq. reflexivity. Qed.

Lemma lookup_getitem (df : DataFrame) (col : string) (c : column) :
  df_columns df !! col = Some c -> getitem df col = inr c.
Proof. unfold getitem. intros ->. reflexivity. Qed.

Lemma has_column_getitem (df : DataFrame) (col : string) :
  has_column col df = true <-> exists c, getitem df col = inr c.
Proof.
  unfold has_column, getitem. destruct (df_columns df !! col); split; eauto; try congruence.
  intros [c Hc]. congruence.
Qed.

(** Filling the missing feature columns leaves the present ones alone and
    leaves none missing. *)
Lemma fill_missing_keeps (cols : list string) (df : DataFrame) (col : string) (c : column) :
  getitem df col = inr c -> getitem (fill_missing df cols) col = inr c.
Proof.
  revert df. induction cols as [|k cols IH]; intros df Hc; [exact Hc|].
  cbn [fill_missing fold_left]. apply IH. destruct (has_column k df) eqn:Hk; [exact Hc|].
  destruct (decide (k = col)) as [->|Hne].
  - assert (has_column col df = true) by (apply has_column_getitem; eauto). congruence.
  - rewrite getitem_assign_ne by exact Hne. exact Hc.
Qed.

Lemma fill_missing_covers (cols : list string) (df : DataFrame) (col : string) :
  col ∈ cols -> exists c, getitem (fill_missing df cols) col = inr c.
Proof.
  revert df. induction cols as [|k cols IH]; intros df Hin; [inversion Hin|].
  cbn [fill_missing fold_left]. apply elem_of_cons in Hin as [-> | Hin]; [|apply IH, Hin].
  destruct (has_column k df) eqn:Hk.
  - apply has_column_getitem in Hk as [c Hc]. exists c. apply fill_missing_keeps, Hc.
  - eexists. apply fill_missing_keeps, getitem_assign_eq.
Qed.

Lemma mapM_total {A B : Type} (f : A -> exn + B) (l : list A) :
  (forall a, a ∈ l -> exists b, f a = inr b) -> exists bs, mapM f l = inr bs.
Proof.
  induction l as [|a l IH]; intros Hall; cbn [mapM]; [eauto|].
  destruct (Hall a) as [b Hb]; [left|]. rewrite Hb. cbn [bind].
  destruct IH as [bs Hbs]; [intros; apply Hall; right; assumption|].
  rewrite Hbs. cbn [bind]. eauto.
Qed.

(** A label vector with one class has fewer than two distinct values. *)
Lemma remove_dups_one_class (ys : list Z) :
  (forall a b, a ∈ ys -> b ∈ ys -> a = b) -> length (remove_dups ys) < 2.
Proof.
  induction ys as [|y ys IH]; intros Hall; cbn [remove_dups length]; [lia|].
  destruct (decide_rel elem_of y ys) as [Hin | Hnin].
  - apply IH. intros a b Ha Hb. apply Hall; right; assumption.
  - destruct ys as [|z ys]; [cbn; lia|].
    exfalso. apply Hnin. rewrite (Hall y z); [left | left | right; left].
Qed.

Lemma moving_average_ok (df : DataFrame) (col : string) (window : nat) (c : column)
    (xs : list float) :
  getitem df col = inr c -> to_numeric c = inr xs ->
  add_moving_average df col window
  = inr (assign (ma_name col window) (NumCol (rolling_mean window xs)) df).
Proof.
  intros Hc Hxs. unfold add_moving_average. rewrite Hc. cbn [bind]. rewrite Hxs. reflexivity.
Qed.

(** C7 (amended).  For every non-empty training set that holds, besides a
    boolean emergency column in which only one class is present, what the
    feature builder reads (the timestamps, as a datetime column or as the
    index, and the numeric columns umidade, temperatura and ph_estimado), the
    risk classifier training returns the typed "not enough data" result
    (modelo None, acuracia 0, the explanatory message) and raises nothing:
    the feature builder goes through and the training stops at the class
    check. *)
Theorem one_class_gives_not_enough_data (df : DataFrame)
    (param_grid : option (gmap string (list pyval)))
    (test_size : float) (random_state : Z) (es : list bool) :
  len df <> 0 ->
  has_timestamps df ->
  numeric_column df "umidade" ->
  numeric_column df "temperatura" ->
  numeric_column df "ph_estimado" ->
  df_columns df !! "emergencia" = Some (BoolCol es) ->
  (forall a b, a ∈ es -> b ∈ es -> a = b) ->
  train_risk_model parse_dates int_of_string Report sk_train df param_grid test_size
    random_state
  = inr (Insufficient
           "Não há dados suficientes de ambas as classes (emergência e não emergência) para treinar o modelo.").
Proof.
  intros Hlen Hts (cu & xu & Hu & Hxu) (ct & xt & Ht & Hxt) (cp & xp & Hp & Hxp) He Hone.
  unfold train_risk_model.
  assert (Hempty : empty df = false).
  { unfold empty. apply orb_false_iff. split; apply Nat.eqb_neq; [exact Hlen|].
    intros Hsz. apply map_size_empty_iff in Hsz. rewrite Hsz in He.
    rewrite lookup_empty in He. discriminate. }
  assert (Hhas : has_column "emergencia" df = true)
    by (unfold has_column; rewrite He; reflexivity).
  rewrite Hempty, Hhas. cbn [orb negb].
  set (df0 := match df_index df with
              | DatetimeIndex ts =>
                  if negb (has_column "timestamp" df)
                  then assign "timestamp" (TimeCol ts) df else df
              | RangeIndex _ => df
              end).
  assert (Hkeep0 : forall col, col <> "timestamp" -> getitem df0 col = getitem df col).
  { intros col Hne. unfold df0. destruct (df_index df); [reflexivity|].
    destruct (negb (has_column "timestamp" df)); [|reflexivity].
    apply getitem_assign_ne. congruence. }
  assert (Hts0 : exists ts, getitem df0 "timestamp" = inr (TimeCol ts)).
  { unfold df0. destruct Hts as [[ts Hc] | [Hnone [ts Hidx]]].
    - exists ts.
      assert (has_column "timestamp" df = true) as Hh
        by (unfold has_column; rewrite Hc; reflexivity).
      destruct (df_index df); [|rewrite Hh; cbn [negb]]; apply lookup_getitem, Hc.
    - exists ts. rewrite Hidx. unfold has_column. rewrite Hnone. cbn [negb].
      apply getitem_assign_eq. }
  destruct Hts0 as [ts Hts0].
  unfold build_feature_matrix. fold df0.
  unfold add_time_based_features. rewrite Hts0. cbn [bind to_datetime].
  set (df1 := assign "dia_semana" _ _).
  assert (Hkeep1 : forall col, col <> "timestamp" -> col <> "hora_dia" ->
                               col <> "dia_semana" -> getitem df1 col = getitem df col).
  { intros col H1 H2 H3. unfold df1. rewrite !getitem_assign_ne by congruence.
    apply Hkeep0, H1. }
  rewrite (moving_average_ok df1 "umidade" 3 cu xu);
    [|rewrite Hkeep1 by discriminate; apply lookup_getitem, Hu|exact Hxu].
  cbn [bind].
  set (df2 := assign (ma_name "umidade" 3) _ df1).
  rewrite (moving_average_ok df2 "temperatura" 3 ct xt);
    [|unfold df2; rewrite getitem_assign_ne by (cbv; discriminate);
      rewrite Hkeep1 by discriminate; apply lookup_getitem, Ht|exact Hxt].
  cbn [bind].
  set (df3 := assign (ma_name "temperatura" 3) _ df2).
  rewrite (moving_average_ok df3 "ph_estimado" 3 cp xp);
    [|unfold df3, df2; rewrite !getitem_assign_ne by (cbv; discriminate);
      rewrite Hkeep1 by discriminate; apply lookup_getitem, Hp|exact Hxp].
  cbn [bind].
  set (df4 := assign (ma_name "ph_estimado" 3) _ df3).
  destruct (mapM_total
              (fun col => let* c := getitem (fill_missing df4 feature_cols) col in
                          inr (col, fillna_ffill_zero c)) feature_cols) as [cols Hcols].
  { intros col Hin. destruct (fill_missing_covers feature_cols df4 col Hin) as [c Hc].
    rewrite Hc. cbn [bind]. eauto. }
  rewrite Hcols. cbn [bind].
  rewrite (fill_missing_keeps feature_cols df4 "emergencia" (BoolCol es)).
  2:{ unfold df4, df3, df2. rewrite !getitem_assign_ne by (cbv; discriminate).
      rewrite Hkeep1 by discriminate. apply lookup_getitem, He. }
  cbn [bind astype_int].
  destruct (Nat.ltb_spec
              (length (remove_dups (map (fun b : bool => if b then 1%Z else 0%Z) es))) 2)
    as [_ | Hge]; [reflexivity|].
  assert (Hlt : length (remove_dups (map (fun b : bool => if b then 1%Z else 0%Z) es)) < 2).
  { apply remove_dups_one_class. intros a b Ha Hb.
    apply list_elem_of_fmap in Ha as (a' & -> & Ha'), Hb as (b' & -> & Hb').
    rewrite (Hone a' b' Ha' Hb'). reflexivity. }
  lia.
Qed.

End RiskModel.

(** C7 (counterexample).  A one-row frame that holds the [emergencia] column,
    all of one class, and no other column: the training raises
    [KeyError('timestamp')] from the feature builder, before the class check. *)
Lemma emergencia_alone_raises_key_error :
  MlPredictor.train_risk_model Samples.parse_nothing Samples.no_int unit Samples.train_always
    Samples.only_emergencia None MlPredictor.default_test_size MlPredictor.default_random_state
  = inl (KeyError "timestamp").
Proof. vm_compute. reflexivity. Qed.

Lemma one_class_gives_not_enough_data_witness :
  MlPredictor.train_risk_model Samples.parse_nothing Samples.no_int unit Samples.train_always
    Samples.two_emergencies None MlPredictor.default_test_size MlPredictor.default_random_state
  = inr (MlPredictor.Insufficient
           "Não há dados suficientes de ambas as classes (emergência e não emergência) para treinar o modelo.").
Proof.
  apply (one_class_gives_not_enough_data Samples.parse_nothing Samples.no_int unit
           Samples.train_always Samples.two_emergencies None MlPredictor.default_test_size
           MlPredictor.default_random_state [true; true]).
  - vm_compute. discriminate.
  - left. eexists. vm_compute. reflexivity.
  - eexists. eexists. split; vm_compute; reflexivity.
  - eexists. eexists. split; vm_compute; reflexivity.
  - eexists. eexists. split; vm_compute; reflexivity.
  - vm_compute. reflexivity.
  - intros a b Ha Hb.
    apply elem_of_cons in Ha as [-> | Ha]; [|apply list_elem_of_singleton in Ha as ->];
      (apply elem_of_cons in Hb as [-> | Hb]; [|apply list_elem_of_singleton in Hb as ->]);
      reflexivity.
Defined.

(** ** The reading store *)

Section Store.
Import DbManager Services.

Variable o : orm.

(** What the loop over a dictionary leaves: the columns it names, set to
    its values, when no name raised; an exception only from a name that is
    no column. *)
Lemma setattrs_outcome (other : string -> bool) (unknown : option exn)
    (d : gmap string pyval) :
  match setattrs o other unknown d with
  | inr p =>
      (forall k, p !! k = if is_column k then d !! k else None)
      /\ (forall k v, d !! k = Some v -> is_column k = false ->
            if other k then setattr_other o k v = None else unknown = None)
  | inl e =>
      exists k v, d !! k = Some v /\ is_column k = false
                  /\ if other k then setattr_other o k v = Some e else unknown = Some e
  end.
Proof.
  unfold setattrs.
  apply (map_fold_weak_ind
           (fun (r : exn + gmap string pyval) (m : gmap string pyval) =>
              match r with
              | inr p =>
                  (forall k, p !! k = if is_column k then m !! k else None)
                  /\ (forall k v, m !! k = Some v -> is_column k = false ->
                        if other k then setattr_other o k v = None else unknown = None)
              | inl e =>
                  exists k v, m !! k = Some v /\ is_column k = false
                              /\ if other k then setattr_other o k v = Some e
                                 else unknown = Some e
              end)).
  - split.
    + intros k. rewrite lookup_empty. destruct (is_column k); reflexivity.
    + intros k v Hk. rewrite lookup_empty in Hk. discriminate.
  - intros i x m r Hnone IH. destruct r as [e | p]; cbn [bind].
    + destruct IH as (k & v & Hk & Hrest). exists k, v. split; [|exact Hrest].
      rewrite lookup_insert_ne; [exact Hk|]. intros ->. congruence.
    + destruct IH as [Hp Hok].
      assert (Hp' : is_column i = false ->
                    forall k, p !! k = if is_column k then <[i := x]> m !! k else None).
      { intros Hi k. destruct (decide (i = k)) as [<- | Hne].
        - rewrite Hp, Hi. reflexivity.
        - rewrite lookup_insert_ne by exact Hne. apply Hp. }
      assert (Hok' : (if other i then setattr_other o i x = None else unknown = None) ->
                     forall k v, <[i := x]> m !! k = Some v -> is_column k = false ->
                       if other k then setattr_other o k v = None else unknown = None).
      { intros Hi k v Hk Hcol. destruct (decide (i = k)) as [<- | Hne].
        - rewrite lookup_insert_eq in Hk. injection Hk as <-. exact Hi.
        - rewrite lookup_insert_ne in Hk by exact Hne. exact (Hok k v Hk Hcol). }
      unfold setattr. destruct (is_column i) eqn:Hi; cbn [orb].
      * split.
        -- intros k. destruct (decide (i = k)) as [<- | Hne].
           ++ rewrite !lookup_insert_eq, Hi. reflexivity.
           ++ rewrite !lookup_insert_ne by exact Hne. apply Hp.
        -- intros k v Hk Hcol. destruct (decide (i = k)) as [<- | Hne]; [congruence|].
           rewrite lookup_insert_ne in Hk by exact Hne. exact (Hok k v Hk Hcol).
      * destruct (other i) eqn:Hother.
        -- destruct (setattr_other o i x) as [e|] eqn:Hset.
           ++ exists i, x. split; [apply lookup_insert_eq|]. split; [exact Hi|].
              rewrite Hother. exact Hset.
           ++ split; [apply Hp'; reflexivity | apply Hok'; reflexivity].
        -- destruct unknown as [e|] eqn:Hun.
           ++ exists i, x. split; [apply lookup_insert_eq|]. split; [exact Hi|].
              rewrite Hother. reflexivity.
           ++ split; [apply Hp'; reflexivity | apply Hok'; reflexivity].
Qed.

(** The parameters of a statement: a value for each column it names. *)
Lemma adapt_row_outcome (obj : gmap string pyval) (cols : list string) :
  match adapt_row o obj cols with
  | inr r =>
      forall k, (k ∈ cols -> exists v, adapt o (column_type k) (attr obj k) = inr v
                                       /\ r !! k = Some v)
                /\ (k ∉ cols -> r !! k = None)
  | inl e => exists k, k ∈ cols /\ adapt o (column_type k) (attr obj k) = inl e
  end.
Proof.
  induction cols as [|c cols IH]; cbn [adapt_row].
  - intros k. split; [intros H; inversion H | intros _; apply lookup_empty].
  - destruct (adapt o (column_type c) (attr obj c)) as [e | v] eqn:Hc; cbn [bind].
    { exists c. split; [left | exact Hc]. }
    destruct (adapt_row o obj cols) as [e | r]; cbn [bind].
    { destruct IH as (k & Hk & He). exists k. split; [right; exact Hk | exact He]. }
    intros k. destruct (decide (c = k)) as [<- | Hne].
    + split.
      * intros _. exists v. split; [exact Hc | apply lookup_insert_eq].
      * intros Hnin. exfalso. apply Hnin. left.
    + rewrite lookup_insert_ne by exact Hne. destruct (IH k) as [Hin Hnin]. split.
      * intros Hk. apply elem_of_cons in Hk as [-> | Hk]; [contradiction | exact (Hin Hk)].
      * intros Hk. apply Hnin. intros Hk'. apply Hk. right. exact Hk'.
Qed.

Lemma adapt_row_attr (obj r : gmap string pyval) (cols : list string) (k : string) :
  adapt_row o obj cols = inr r -> k ∈ cols ->
  adapt o (column_type k) (attr obj k) = inr (attr r k).
Proof.
  intros Hr Hk. pose proof (adapt_row_outcome obj cols) as H. rewrite Hr in H.
  destruct (H k) as [Hin _]. destruct (Hin Hk) as (v & Hv & Hrk).
  unfold attr at 2. rewrite Hrk. exact Hv.
Qed.

(** The largest id bounds every id in use. *)
Lemma fold_max_ge (l : list Z) (a : Z) :
  (a <= fold_left Z.max l a)%Z /\ (forall z, z ∈ l -> z <= fold_left Z.max l a)%Z.
Proof.
  revert a. induction l as [|x l IH]; intros a; cbn [fold_left].
  - split; [lia|]. intros z Hz. inversion Hz.
  - destruct (IH (Z.max a x)) as [H1 H2]. split; [lia|].
    intros z Hz. apply elem_of_cons in Hz as [-> | Hz]; [lia | apply H2, Hz].
Qed.

Lemma largest_id_bounds (tbl : gmap Z (gmap string pyval)) :
  match largest_id tbl with
  | Some m => forall i r, tbl !! i = Some r -> (i <= m)%Z
  | None => tbl = ∅
  end.
Proof.
  unfold largest_id. destruct (map_to_list tbl) as [|kr rest] eqn:Hl.
  - apply map_to_list_empty_iff, Hl.
  - intros i r Hr. apply elem_of_map_to_list in Hr. rewrite Hl in Hr.
    destruct (fold_max_ge (map fst rest) (fst kr)) as [H1 H2].
    apply elem_of_cons in Hr as [Hr | Hr].
    + apply (f_equal fst) in Hr. cbn [fst] in Hr. lia.
    + apply H2. apply list_elem_of_fmap. exists (i, r). split; [reflexivity | exact Hr].
Qed.

(** The id given to a row inserted without one is not in use. *)
Lemma next_id_fresh (tbl : gmap Z (gmap string pyval)) (i : Z) :
  next_id o tbl = inr i -> tbl !! i = None.
Proof.
  unfold next_id. pose proof (largest_id_bounds tbl) as Hb.
  destruct (largest_id tbl) as [m|].
  - destruct (m <? max_rowid)%Z.
    + intros [= <-]. destruct (tbl !! (m + 1)%Z) as [r|] eqn:Hr; [|reflexivity].
      apply Hb in Hr. lia.
    + destruct (random_rowid o tbl) as [e | z]; cbn [bind]; [discriminate|].
      destruct (tbl !! z) eqn:Hz; [discriminate|]. intros [= <-]. exact Hz.
  - intros _. rewrite Hb. apply lookup_empty.
Qed.

Lemma null_violation_false (r : gmap string pyval) :
  (forall c, c ∈ not_nullable -> attr r c <> PNone) -> null_violation r = false.
Proof.
  intros Hall. unfold null_violation.
  induction not_nullable as [|c l IH]; [reflexivity|].
  cbn [existsb]. rewrite IH by (intros c' Hc'; apply Hall; right; exact Hc').
  specialize (Hall c (list_elem_of_here _ _)). destruct (attr r c); [congruence | reflexivity..].
Qed.

Lemma null_violation_attr (r : gmap string pyval) (c : string) :
  null_violation r = false -> c ∈ not_nullable -> attr r c <> PNone.
Proof.
  unfold null_violation. intros Hnull Hc Hnone.
  assert (existsb (fun c => is_none (attr r c)) not_nullable = true) as Hex; [|congruence].
  apply existsb_exists. exists c. split; [apply list_elem_of_In, Hc|].
  rewrite Hnone. reflexivity.
Qed.

Lemma not_nullable_columns (c : string) : c ∈ not_nullable -> is_column c = true.
Proof.
  intros Hc. apply bool_decide_eq_true_2. unfold not_nullable in Hc. unfold columns.
  repeat (apply elem_of_cons in Hc as [-> | Hc]; [set_solver|]). inversion Hc.
Qed.

Lemma is_column_elem (c : string) : is_column c = true -> c ∈ columns.
Proof. apply bool_decide_eq_true_1. Qed.

(** What a successful INSERT did. *)
Lemma flush_insert_inserted (now : Z) (obj : gmap string pyval)
    (tbl tbl' : gmap Z (gmap string pyval)) (i : Z) :
  flush_insert o now obj tbl = inr (i, tbl') ->
  exists row,
    tbl' = <[i := row]> tbl /\ tbl !! i = None
    /\ attr row "id" = PInt i /\ null_violation row = false
    /\ timestamp_taken (attr row "timestamp") tbl = false
    /\ adapt o TDateTime (match attr obj "timestamp" with
                          | PNone => PDateTime now
                          | v => v
                          end) = inr (attr row "timestamp")
    /\ (forall c, is_column c = true -> c <> "id" -> c <> "timestamp" ->
                  adapt o (column_type c) (attr obj c) = inr (attr row c))
    /\ (adapt o TInteger (attr obj "id") = inr (PInt i)
        \/ (adapt o TInteger (attr obj "id") = inr PNone /\ next_id o tbl = inr i)).
Proof.
  unfold flush_insert.
  set (obj' := match attr obj "timestamp" with
               | PNone => <["timestamp" := PDateTime now]> obj
               | _ => obj
               end).
  assert (Hts : attr obj' "timestamp"
                = match attr obj "timestamp" with PNone => PDateTime now | v => v end).
  { unfold obj'. destruct (attr obj "timestamp") eqn:Hts; try exact Hts.
    unfold attr. rewrite lookup_insert_eq. reflexivity. }
  assert (Hother : forall c, c <> "timestamp" -> attr obj' c = attr obj c).
  { intros c Hc. unfold obj'. destruct (attr obj "timestamp"); try reflexivity.
    unfold attr. rewrite lookup_insert_ne by congruence. reflexivity. }
  destruct (adapt_row o obj' columns) as [e | row0] eqn:Hrow; cbn [bind]; [discriminate|].
  assert (Hcol : forall c, is_column c = true ->
                           adapt o (column_type c) (attr obj' c) = inr (attr row0 c)).
  { intros c Hc. apply (adapt_row_attr obj' row0 columns c Hrow), is_column_elem, Hc. }
  assert (Hins : forall i0 : Z, tbl !! i0 = None ->
             (if null_violation (<["id" := PInt i0]> row0)
                 || timestamp_taken (attr (<["id" := PInt i0]> row0) "timestamp") tbl
              then inl IntegrityError
              else inr (i0, <[i0 := <["id" := PInt i0]> row0]> tbl)) = inr (i, tbl') ->
             i0 = i /\
             exists row,
               tbl' = <[i := row]> tbl /\ tbl !! i = None
               /\ attr row "id" = PInt i /\ null_violation row = false
               /\ timestamp_taken (attr row "timestamp") tbl = false
               /\ adapt o TDateTime (match attr obj "timestamp" with
                                     | PNone => PDateTime now
                                     | v => v
                                     end) = inr (attr row "timestamp")
               /\ (forall c, is_column c = true -> c <> "id" -> c <> "timestamp" ->
                             adapt o (column_type c) (attr obj c) = inr (attr row c))).
  { intros i0 Hfree.
    destruct (null_violation _) eqn:Hnull; cbn [orb]; [discriminate|].
    destruct (timestamp_taken _ tbl) eqn:Htaken; [discriminate|].
    intros Heq. apply (inj inr) in Heq. apply pair_equal_spec in Heq as [-> <-].
    split; [reflexivity|].
    eexists. split; [reflexivity|]. split; [exact Hfree|].
    split; [unfold attr; rewrite lookup_insert_eq; reflexivity|].
    split; [exact Hnull|]. split; [exact Htaken|]. split.
    - unfold attr at 2. rewrite lookup_insert_ne by discriminate.
      fold (attr row0 "timestamp"). rewrite <- Hts. apply (Hcol "timestamp"). reflexivity.
    - intros c Hc Hid Htsc. unfold attr at 2. rewrite lookup_insert_ne by congruence.
      fold (attr row0 c). rewrite <- (Hother c Htsc). apply Hcol, Hc. }
  pose proof (Hcol "id" eq_refl) as Hid. rewrite (Hother "id") in Hid by discriminate.
  destruct (attr row0 "id") as [| | z | | |] eqn:Hrid; cbn [bind]; try discriminate.
  - destruct (next_id o tbl) as [e | i0] eqn:Hnext; cbn [bind]; [discriminate|].
    intros Hres. apply Hins in Hres as [-> (row & Hrest)]; [|apply next_id_fresh, Hnext].
    exists row. repeat (split; [apply Hrest|]). right. split; [exact Hid | reflexivity].
  - destruct (tbl !! z) eqn:Hz; cbn [bind]; [discriminate|].
    intros Hres. apply Hins in Hres as [-> (row & Hrest)]; [|exact Hz].
    exists row. repeat (split; [apply Hrest|]). left. exact Hid.
Qed.

(** The object the constructor builds holds the keywords that are columns. *)
Lemma constructed_attr (kwargs obj : gmap string pyval) (k : string) :
  new_LeituraSensor o kwargs = inr obj -> is_column k = true -> attr obj k = attr kwargs k.
Proof.
  intros Hobj Hk. pose proof (setattrs_outcome (class_attr o) (Some TypeError) kwargs) as H.
  unfold new_LeituraSensor in Hobj. rewrite Hobj in H. destruct H as [H _].
  unfold attr. rewrite H, Hk. reflexivity.
Qed.

Lemma pending_lookup (campos pending : gmap string pyval) (k : string) :
  set_known o campos = inr pending ->
  pending !! k = if is_column k then campos !! k else None.
Proof.
  intros Hp. pose proof (setattrs_outcome (other_attr o) None campos) as H.
  unfold set_known in Hp. rewrite Hp in H. destruct H as [H _]. apply H.
Qed.

(** An integer that fits a row id is kept as the id. *)
Lemma adapt_id (z : Z) (v : pyval) :
  adapt o TInteger (PInt z) = inr v -> v = PInt z.
Proof. cbn [adapt]. destruct (int64 z); [intros [= <-]; reflexivity | discriminate]. Qed.

(** What a successful [add_leitura] did to the table. *)
Lemma add_leitura_inserted (now : Z) (kwargs : gmap string pyval)
    (tbl tbl' : gmap Z (gmap string pyval)) (i : Z) :
  add_leitura o now kwargs tbl = (inr i, tbl') ->
  exists row,
    tbl' = <[i := row]> tbl /\ tbl !! i = None
    /\ attr row "id" = PInt i /\ null_violation row = false
    /\ timestamp_taken (attr row "timestamp") tbl = false
    /\ adapt o TDateTime (match attr kwargs "timestamp" with
                          | PNone => PDateTime now
                          | v => v
                          end) = inr (attr row "timestamp")
    /\ (forall c, is_column c = true -> c <> "id" -> c <> "timestamp" ->
                  adapt o (column_type c) (attr kwargs c) = inr (attr row c))
    /\ (adapt o TInteger (attr kwargs "id") = inr (PInt i)
        \/ (adapt o TInteger (attr kwargs "id") = inr PNone /\ next_id o tbl = inr i)).
Proof.
  unfold add_leitura.
  destruct (new_LeituraSensor o kwargs) as [e | obj] eqn:Hobj; cbn [bind].
  { intros Heq. apply pair_equal_spec in Heq as [Heq _]. discriminate. }
  destruct (flush_insert o now obj tbl) as [e | [i0 t0]] eqn:Hflush.
  { intros Heq. apply pair_equal_spec in Heq as [Heq _]. discriminate. }
  intros Heq. apply pair_equal_spec in Heq as [Hi Ht]. apply (inj inr) in Hi. subst i0 t0.
  apply flush_insert_inserted in Hflush as (row & H1 & H2 & H3 & H4 & H5 & H6 & H7 & H8).
  exists row. rewrite (constructed_attr kwargs obj "timestamp" Hobj eq_refl) in H6.
  rewrite (constructed_attr kwargs obj "id" Hobj eq_refl) in H8.
  repeat (split; [assumption|]). split; [|exact H8].
  intros c Hc Hid Hts. rewrite <- (constructed_attr kwargs obj c Hobj Hc). apply H7; assumption.
Qed.
End Store.

Section StoreOutcomes.
Import DbManager Services.

Variable o : orm.

Lemma written_columns (pending : gmap string pyval) (c : string) :
  c ∈ List.filter (fun c => bool_decide (is_Some (pending !! c))) columns
  <-> is_column c = true /\ is_Some (pending !! c).
Proof.
  rewrite list_elem_of_In, filter_In, <- list_elem_of_In. unfold is_column.
  rewrite !bool_decide_eq_true. reflexivity.
Qed.

(** A row that was written over a loaded one: the written columns first. *)
Lemma attr_union (written leitura : gmap string pyval) (c : string) :
  attr (written ∪ leitura) c
  = match written !! c with Some w => w | None => attr leitura c end.
Proof.
  unfold attr. rewrite lookup_union.
  destruct (written !! c), (leitura !! c); reflexivity.
Qed.

(** What a successful UPDATE did. *)
Lemma flush_update_updated (i : Z) (leitura pending : gmap string pyval)
    (tbl tbl' : gmap Z (gmap string pyval)) :
  flush_update o i leitura pending tbl = inr tbl' ->
  let cols := List.filter (fun c => bool_decide (is_Some (pending !! c))) columns in
  (cols = [] /\ tbl' = tbl)
  \/ exists j written,
       cols <> [] /\ adapt_row o pending cols = inr written
       /\ tbl' = <[j := written ∪ leitura]> (delete i tbl)
       /\ delete i tbl !! j = None
       /\ ((written !! "id" = None /\ j = i) \/ written !! "id" = Some (PInt j))
       /\ null_violation (written ∪ leitura) = false
       /\ timestamp_taken (attr (written ∪ leitura) "timestamp") (delete i tbl) = false.
Proof.
  unfold flush_update. cbv zeta.
  destruct (List.filter _ columns) as [|c cols] eqn:Hcols.
  { intros [= <-]. left. split; reflexivity. }
  destruct (adapt_row o pending (c :: cols)) as [e | written]; cbn [bind]; [discriminate|].
  intros Hres. right.
  assert (Hfin : forall j, delete i tbl !! j = None ->
            (if null_violation (written ∪ leitura)
                || timestamp_taken (attr (written ∪ leitura) "timestamp") (delete i tbl)
             then inl IntegrityError
             else inr (<[j := written ∪ leitura]> (delete i tbl))) = inr tbl' ->
            tbl' = <[j := written ∪ leitura]> (delete i tbl)
            /\ delete i tbl !! j = None
            /\ null_violation (written ∪ leitura) = false
            /\ timestamp_taken (attr (written ∪ leitura) "timestamp") (delete i tbl) = false).
  { intros j Hfree. destruct (null_violation _); cbn [orb]; [discriminate|].
    destruct (timestamp_taken _ _); [discriminate|]. intros [= <-]. repeat split. exact Hfree. }
  destruct (written !! "id") as [[| | j | | |]|] eqn:Hid; cbn [bind] in Hres; try discriminate.
  - destruct (delete i tbl !! j) eqn:Hfree; cbn [bind] in Hres; [discriminate|].
    apply Hfin in Hres as (H1 & H2 & H3 & H4); [|exact Hfree].
    exists j, written. split; [discriminate|]. split; [reflexivity|].
    split; [exact H1|]. split; [exact H2|]. split; [right; exact Hid|]. split; assumption.
  - apply Hfin in Hres as (H1 & H2 & H3 & H4); [|apply lookup_delete_eq].
    exists i, written. split; [discriminate|]. split; [reflexivity|].
    split; [exact H1|]. split; [exact H2|]. split; [left; split; [exact Hid | reflexivity]|]. split; assumption.
Qed.

(** Checking a closed dictionary key by key. *)
Lemma keys_checked (P : string -> pyval -> bool) (d : gmap string pyval) :
  forallb (fun kv => P (fst kv) (snd kv)) (map_to_list d) = true ->
  forall k v, d !! k = Some v -> P k v = true.
Proof.
  intros Hall k v Hkv. rewrite forallb_forall in Hall.
  apply (Hall (k, v)), list_elem_of_In, elem_of_map_to_list, Hkv.
Qed.

Lemma columns_checked (P : string -> bool) :
  forallb P columns = true -> forall c, is_column c = true -> P c = true.
Proof.
  intros Hall c Hc. rewrite forallb_forall in Hall.
  apply Hall, list_elem_of_In, is_column_elem, Hc.
Qed.

(** When [add_leitura] accepts a reading that leaves the id to the store. *)
Lemma add_leitura_accepted (now : Z) (kwargs : gmap string pyval)
    (tbl : gmap Z (gmap string pyval)) (ts : pyval) (i : Z) :
  (forall k v, kwargs !! k = Some v -> is_column k = false ->
               class_attr o k = true /\ setattr_other o k v = None) ->
  attr kwargs "id" = PNone ->
  adapt o TDateTime (match attr kwargs "timestamp" with
                     | PNone => PDateTime now
                     | v => v
                     end) = inr ts ->
  ts <> PNone ->
  (forall c, is_column c = true -> c <> "id" -> c <> "timestamp" ->
             exists w, adapt o (column_type c) (attr kwargs c) = inr w
                       /\ (c ∈ not_nullable -> w <> PNone)) ->
  timestamp_taken ts tbl = false ->
  next_id o tbl = inr i ->
  fst (add_leitura o now kwargs tbl) = inr i.
Proof.
  intros Hattr Hid Hts Hsome Hvals Hfree Hnext.
  unfold add_leitura.
  pose proof (setattrs_outcome o (class_attr o) (Some TypeError) kwargs) as Hobj.
  fold (new_LeituraSensor o kwargs) in Hobj.
  destruct (new_LeituraSensor o kwargs) as [e | obj] eqn:Hnew; cbn [bind].
  { exfalso. destruct Hobj as (k & v & Hk & Hcol & Hraise).
    destruct (Hattr k v Hk Hcol) as [Hclass Hset]. rewrite Hclass, Hset in Hraise.
    discriminate. }
  assert (Hkw : forall c, is_column c = true -> attr obj c = attr kwargs c)
    by (intros c Hc; apply (constructed_attr o kwargs obj c Hnew Hc)).
  unfold flush_insert.
  set (obj' := match attr obj "timestamp" with
               | PNone => <["timestamp" := PDateTime now]> obj
               | _ => obj
               end).
  assert (Hts' : attr obj' "timestamp"
                 = match attr kwargs "timestamp" with PNone => PDateTime now | v => v end).
  { unfold obj'. rewrite (Hkw "timestamp" eq_refl).
    destruct (attr kwargs "timestamp") eqn:Hk;
      try (rewrite (Hkw "timestamp" eq_refl); exact Hk).
    unfold attr. rewrite lookup_insert_eq. reflexivity. }
  assert (Hobj' : forall c, c <> "timestamp" -> attr obj' c = attr obj c).
  { intros c Hc. unfold obj'. destruct (attr obj "timestamp"); try reflexivity.
    unfold attr. rewrite lookup_insert_ne by congruence. reflexivity. }
  pose proof (adapt_row_outcome o obj' columns) as Hrow.
  destruct (adapt_row o obj' columns) as [e | row0]; cbn [bind].
  { exfalso. destruct Hrow as (c & Hc & He).
    assert (Hcol : is_column c = true) by (apply bool_decide_eq_true_2, Hc).
    destruct (decide (c = "timestamp")) as [-> | Hnts].
    - rewrite Hts' in He. change (column_type "timestamp") with TDateTime in He. congruence.
    - rewrite (Hobj' c Hnts), (Hkw c Hcol) in He.
      destruct (decide (c = "id")) as [-> | Hnid]; [rewrite Hid in He; discriminate He|].
      destruct (Hvals c Hcol Hnid Hnts) as (w & Hw & _). congruence. }
  assert (Hval : forall c, is_column c = true ->
                           adapt o (column_type c) (attr obj' c) = inr (attr row0 c)).
  { intros c Hc. destruct (Hrow c) as [Hin _].
    destruct (Hin (is_column_elem c Hc)) as (v & Hv & Hr). unfold attr at 2.
    rewrite Hr. exact Hv. }
  pose proof (Hval "id" eq_refl) as Hrid.
  rewrite (Hobj' "id") in Hrid by discriminate. rewrite (Hkw "id" eq_refl), Hid in Hrid.
  apply (inj inr) in Hrid. rewrite <- Hrid. cbn [bind]. rewrite Hnext. cbn [bind].
  pose proof (Hval "timestamp" eq_refl) as Hrts.
  rewrite Hts' in Hrts. change (column_type "timestamp") with TDateTime in Hrts.
  rewrite Hts in Hrts. apply (inj inr) in Hrts.
  assert (Htsrow : attr (<["id" := PInt i]> row0) "timestamp" = ts).
  { unfold attr. rewrite lookup_insert_ne by discriminate.
    fold (attr row0 "timestamp"). symmetry. exact Hrts. }
  rewrite Htsrow, Hfree, orb_false_r.
  rewrite null_violation_false; [reflexivity|].
  intros c Hc. pose proof (not_nullable_columns c Hc) as Hcol.
  destruct (decide (c = "id")) as [-> | Hnid].
  { unfold attr. rewrite lookup_insert_eq. discriminate. }
  destruct (decide (c = "timestamp")) as [-> | Hnts]; [rewrite Htsrow; exact Hsome|].
  unfold attr. rewrite lookup_insert_ne by congruence. fold (attr row0 c).
  destruct (Hvals c Hcol Hnid Hnts) as (w & Hw & Hnn).
  pose proof (Hval c Hcol) as Hv. rewrite (Hobj' c Hnts), (Hkw c Hcol), Hw in Hv.
  apply (inj inr) in Hv. rewrite <- Hv. apply Hnn, Hc.
Qed.

(** X3.  A reading is accepted, and given the id after the largest one in
    the table, which no row was using, when its keywords are columns or names
    the class has and that can be set, it leaves the id and the timestamp to
    the store, every other column accepts its value and no non-nullable
    column is left with NULL by it (as by a missing value, [None] or NaN),
    no row holds the time of the flush, and the largest id in the table is
    below the largest row id there is. *)
Lemma add_leitura_accepts (now : Z) (kwargs : gmap string pyval)
    (tbl : gmap Z (gmap string pyval)) :
  (forall k v, kwargs !! k = Some v -> is_column k = false ->
               class_attr o k = true /\ setattr_other o k v = None) ->
  attr kwargs "id" = PNone ->
  attr kwargs "timestamp" = PNone ->
  (forall c, is_column c = true -> c <> "id" -> c <> "timestamp" ->
             exists w, adapt o (column_type c) (attr kwargs c) = inr w
                       /\ (c ∈ not_nullable -> w <> PNone)) ->
  timestamp_taken (PDateTime (naive o now)) tbl = false ->
  (forall m, largest_id tbl = Some m -> (m < max_rowid)%Z) ->
  let i := match largest_id tbl with Some m => (m + 1)%Z | None => 1%Z end in
  fst (add_leitura o now kwargs tbl) = inr i /\ tbl !! i = None.
Proof.
  intros Hattr Hid Hts Hvals Hfree Hmax. cbv zeta.
  assert (Hnext : next_id o tbl
                  = inr (match largest_id tbl with Some m => (m + 1)%Z | None => 1%Z end)).
  { unfold next_id. destruct (largest_id tbl) as [m|]; [|reflexivity].
    specialize (Hmax m eq_refl). apply Z.ltb_lt in Hmax. rewrite Hmax. reflexivity. }
  split; [|apply next_id_fresh with (o := o), Hnext].
  apply (add_leitura_accepted now kwargs tbl (PDateTime (naive o now))); try assumption.
  - rewrite Hts. reflexivity.
  - discriminate.
Qed.
End StoreOutcomes.

Lemma add_leitura_accepts_witness :
  let i := match DbManager.largest_id Samples.one_reading with
           | Some m => (m + 1)%Z
           | None => 1%Z
           end in
  fst (Services.add_leitura Samples.plain_orm 2000 Samples.reading Samples.one_reading) = inr i
  /\ Samples.one_reading !! i = None.
Proof.
  apply (add_leitura_accepts Samples.plain_orm 2000 Samples.reading Samples.one_reading).
  - intros k v Hk Hcol.
    pose proof (keys_checked (fun k _ => DbManager.is_column k) Samples.reading
                  ltac:(by_evaluation) k v Hk) as Hc.
    cbv beta in Hc. congruence.
  - by_evaluation.
  - by_evaluation.
  - intros c Hc Hid Hts.
    exists (match DbManager.adapt Samples.plain_orm (DbManager.column_type c)
                    (DbManager.attr Samples.reading c) with
            | inr w => w
            | inl _ => PNone
            end).
    pose proof (columns_checked
                  (fun c => String.eqb c "id" || String.eqb c "timestamp"
                            || match DbManager.adapt Samples.plain_orm (DbManager.column_type c)
                                       (DbManager.attr Samples.reading c) with
                               | inr w => negb (DbManager.is_none w)
                               | inl _ => false
                               end)
                  ltac:(by_evaluation) c Hc) as Hchk.
    cbv beta in Hchk.
    apply String.eqb_neq in Hid, Hts. rewrite Hid, Hts in Hchk. cbn [orb] in Hchk.
    destruct (DbManager.adapt _ _ _) as [e | w]; [discriminate|].
    split; [reflexivity|]. intros _ ->. discriminate.
  - by_evaluation.
  - intros m Hm. apply (inj Some) in Hm. rewrite <- Hm. reflexivity.
Defined.

(** C8 (counterexample).  The reading of [Samples] with a temperature that is
    not a number is accepted under id 1, and the row read back under that id
    holds no temperature: SQLite stores NaN as NULL. *)
Lemma nan_temperature_reads_back_none :
  (fst (Services.add_leitura Samples.plain_orm 1000 Fixtures.reading_nan_temperature ∅),
   DbManager.attr Fixtures.reading_nan_temperature "temperatura",
   option_map (fun row => DbManager.attr row "temperatura")
     (Services.get
        (snd (Services.add_leitura Samples.plain_orm 1000 Fixtures.reading_nan_temperature ∅))
        1))
  = (inr 1%Z, PFloat PrimFloat.nan, Some PNone).
Proof. by_evaluation. Qed.

(** C8 (amended).  Whenever [add_leitura] returns an id, the row read back
    under that id holds every field as its column stores the value that was
    supplied: [None] for a field that was not supplied, the value itself for
    a [bool] in a Boolean column and for a [str] in the String column, and
    for a [float] in a Float column the same number, except that NaN reads
    back as [None] and a zero as 0.0; a number that is no float reads back
    from a Float column as the float of that value, and a value of another
    type as the database converts it.  Only the id, which is the supplied one
    or else the one the store assigns, and the timestamp, which defaults to
    the time of the flush and is stored without a time zone, are the store's
    to set.  The other rows are untouched. *)
Theorem add_then_get_round_trip (o : DbManager.orm) (now : Z)
    (kwargs : gmap string pyval) (tbl tbl' : gmap Z (gmap string pyval)) (i : Z) :
  Services.add_leitura o now kwargs tbl = (inr i, tbl') ->
  exists row,
    Services.get tbl' i = Some row
    /\ DbManager.attr row "id" = PInt i
    /\ DbManager.adapt o DbManager.TDateTime
         (match DbManager.attr kwargs "timestamp" with PNone => PDateTime now | v => v end)
       = inr (DbManager.attr row "timestamp")
    /\ (forall c, DbManager.is_column c = true -> c <> "id" -> c <> "timestamp" ->
          DbManager.adapt o (DbManager.column_type c) (DbManager.attr kwargs c)
          = inr (DbManager.attr row c))
    /\ (forall c, DbManager.is_column c = true -> c <> "id" -> c <> "timestamp" ->
          match DbManager.column_type c, DbManager.attr kwargs c with
          | _, PNone => DbManager.attr row c = PNone
          | DbManager.TBoolean, PBool b => DbManager.attr row c = PBool b
          | DbManager.TString, PStr s => DbManager.attr row c = PStr s
          | DbManager.TFloat, PFloat x =>
              DbManager.attr row c
              = if PrimFloat.is_nan x then PNone
                else if (x =? 0)%float then PFloat 0 else PFloat x
          | DbManager.TFloat, PBool b => DbManager.attr row c = PFloat (if b then 1 else 0)
          | DbManager.TFloat, PInt z =>
              (Z.abs z < 2 ^ 63)%Z -> DbManager.attr row c = PFloat (Pandas.float_of_Z z)
          | _, _ => True
          end)
    /\ (DbManager.attr kwargs "timestamp" = PNone ->
        DbManager.attr row "timestamp" = PDateTime (DbManager.naive o now))
    /\ (forall z, DbManager.attr kwargs "id" = PInt z -> i = z)
    /\ (forall j, j <> i -> Services.get tbl' j = Services.get tbl j).
Proof.
  intros Hadd.
  apply add_leitura_inserted in Hadd as (row & -> & Hfree & Hid & _ & _ & Hts & Hcols & Hi).
  exists row. split; [unfold Services.get; apply lookup_insert_eq|].
  split; [exact Hid|]. split; [exact Hts|]. split; [exact Hcols|]. split; [|split; [|split]].
  - intros c Hc Hnid Hnts. specialize (Hcols c Hc Hnid Hnts).
    destruct (DbManager.column_type c), (DbManager.attr kwargs c) as [|b|z|x|s|t];
      cbn [DbManager.adapt] in Hcols; try exact I;
      try (apply (inj inr) in Hcols; symmetry; exact Hcols).
    intros Hz. apply Z.ltb_lt in Hz. rewrite Hz in Hcols.
    apply (inj inr) in Hcols. symmetry. exact Hcols.
  - intros Hnone. rewrite Hnone in Hts. cbn [DbManager.adapt] in Hts.
    apply (inj inr) in Hts. symmetry. exact Hts.
  - intros z Hz. rewrite Hz in Hi. destruct Hi as [Hi | [Hi _]].
    + apply adapt_id in Hi. congruence.
    + apply adapt_id in Hi. discriminate.
  - intros j Hj. unfold Services.get. apply lookup_insert_ne. congruence.
Qed.

Lemma add_then_get_round_trip_witness :
  exists row,
    Services.get Samples.one_reading 1 = Some row
    /\ DbManager.attr row "id" = PInt 1
    /\ DbManager.adapt Samples.plain_orm DbManager.TDateTime
         (match DbManager.attr Samples.reading "timestamp" with
          | PNone => PDateTime 1000
          | v => v
          end)
       = inr (DbManager.attr row "timestamp")
    /\ (forall c, DbManager.is_column c = true -> c <> "id" -> c <> "timestamp" ->
          DbManager.adapt Samples.plain_orm (DbManager.column_type c)
            (DbManager.attr Samples.reading c)
          = inr (DbManager.attr row c))
    /\ (forall c, DbManager.is_column c = true -> c <> "id" -> c <> "timestamp" ->
          match DbManager.column_type c, DbManager.attr Samples.reading c with
          | _, PNone => DbManager.attr row c = PNone
          | DbManager.TBoolean, PBool b => DbManager.attr row c = PBool b
          | DbManager.TString, PStr s => DbManager.attr row c = PStr s
          | DbManager.TFloat, PFloat x =>
              DbManager.attr row c
              = if PrimFloat.is_nan x then PNone
                else if (x =? 0)%float then PFloat 0 else PFloat x
          | DbManager.TFloat, PBool b => DbManager.attr row c = PFloat (if b then 1 else 0)
          | DbManager.TFloat, PInt z =>
              (Z.abs z < 2 ^ 63)%Z -> DbManager.attr row c = PFloat (Pandas.float_of_Z z)
          | _, _ => True
          end)
    /\ (DbManager.attr Samples.reading "timestamp" = PNone ->
        DbManager.attr row "timestamp" = PDateTime (DbManager.naive Samples.plain_orm 1000))
    /\ (forall z, DbManager.attr Samples.reading "id" = PInt z -> 1%Z = z)
    /\ (forall j, j <> 1%Z -> Services.get Samples.one_reading j = Services.get ∅ j).
Proof.
  apply (add_then_get_round_trip Samples.plain_orm 1000 Samples.reading ∅
           Samples.one_reading 1).
  by_evaluation.
Defined.

(** A humidity that is not a number is refused: it would be NULL in a
    non-nullable column.  An integer humidity reads back as a float. *)
Lemma nan_humidity_is_refused :
  Services.add_leitura Samples.plain_orm 1000 Fixtures.reading_nan_humidity ∅
  = (inl IntegrityError, ∅).
Proof. by_evaluation. Qed.

Lemma integer_humidity_reads_back_as_float :
  (fst (Services.add_leitura Samples.plain_orm 1000 Fixtures.reading_int_humidity ∅),
   option_map (fun row => DbManager.attr row "umidade")
     (Services.get
        (snd (Services.add_leitura Samples.plain_orm 1000 Fixtures.reading_int_humidity ∅)) 1))
  = (inr 1%Z, Some (PFloat 65)).
Proof. by_evaluation. Qed.



(** A field map with a column and a name the class does not have: the column
    is updated, the unknown name is ignored, the other fields stay. *)
Lemma update_known_and_unknown_fields :
  exists tbl' row,
    Services.update_leitura Samples.plain_orm 1
      {[ "umidade" := PFloat 30; "cor" := PStr "azul" ]} Samples.one_reading
    = (inr true, tbl')
    /\ Services.get tbl' 1 = Some row
    /\ DbManager.attr row "umidade" = PFloat 30
    /\ DbManager.attr row "ph_estimado" = PFloat 6.75
    /\ row !! "cor" = None.
Proof.
  exists (snd (Services.update_leitura Samples.plain_orm 1
                 {[ "umidade" := PFloat 30; "cor" := PStr "azul" ]} Samples.one_reading)).
  exists (default ∅
            (Services.get
               (snd (Services.update_leitura Samples.plain_orm 1
                       {[ "umidade" := PFloat 30; "cor" := PStr "azul" ]}
                       Samples.one_reading)) 1)).
  repeat split; by_evaluation.
Qed.

(** A field map of unknown names only changes nothing. *)
Lemma update_unknown_fields_only :
  Services.update_leitura Samples.plain_orm 1 {[ "cor" := PStr "azul" ]} Samples.one_reading
  = (inr true, Samples.one_reading).
Proof. by_evaluation. Qed.

(** A name the reading has, but that cannot be set to a value of the table:
    [setattr] raises, and the table is left as it was.  A humidity that is not
    a number is refused by the column. *)
Lemma update_of_class_raises :
  Services.update_leitura Samples.plain_orm 1 {[ "__class__" := PStr "x" ]}
    Samples.one_reading
  = (inl TypeError, Samples.one_reading).
Proof. by_evaluation. Qed.

Lemma update_to_nan_raises :
  Services.update_leitura Samples.plain_orm 1 {[ "umidade" := PFloat PrimFloat.nan ]}
    Samples.one_reading
  = (inl IntegrityError, Samples.one_reading).
Proof. by_evaluation. Qed.

(** * Further properties *)

(** ** More of the order on floats *)

Lemma SFltb_leb_trans (a b c : spec_float) :
  SFltb a b = true -> SFleb b c = true -> SFltb a c = true.
Proof.
  unfold SFltb, SFleb.
  destruct a as [sa|sa| |sa ma ea], b as [sb|sb| |sb mb eb], c as [sc|sc| |sc mc ec];
    simpl; try destruct sa; try destruct sb; try destruct sc; simpl; try congruence;
    change (PosDef.Pos.compare_cont Eq) with Pos.compare;
    destruct (Z.compare_spec ea eb); destruct (Z.compare_spec eb ec);
    destruct (Z.compare_spec ea ec); simpl; try congruence; try lia; subst;
    destruct (Pos.compare_spec ma mb); destruct (Pos.compare_spec mb mc);
    destruct (Pos.compare_spec ma mc); simpl; try congruence; try lia.
Qed.

(** Below a bound that is not above [z] means below [z]. *)
Lemma ltb_leb_trans (x y z : float) :
  (x <? y)%float = true -> (y <=? z)%float = true -> (x <? z)%float = true.
Proof. rewrite !ltb_spec, leb_spec. apply SFltb_leb_trans. Qed.

Lemma SFcompare_refl_None (a b : spec_float) :
  SFcompare a a <> None -> SFcompare b b <> None -> SFcompare a b <> None.
Proof. destruct a, b; simpl; congruence. Qed.

(** A NaN compares false with everything. *)
Lemma nan_compare (x y : float) :
  PrimFloat.is_nan x = true ->
  (x <? y)%float = false /\ (y <? x)%float = false
  /\ (x <=? y)%float = false /\ (y <=? x)%float = false.
Proof.
  unfold PrimFloat.is_nan. rewrite FloatAxioms.eqb_spec, !ltb_spec, !leb_spec.
  unfold SFeqb, SFltb, SFleb. intros Hnan.
  assert (Hx : Prim2SF x = S754_nan).
  { destruct (Prim2SF x) as [s|s| |s m e]; try reflexivity; simpl in Hnan.
    - discriminate.
    - destruct s; discriminate.
    - destruct s; rewrite Z.compare_refl in Hnan;
        change (PosDef.Pos.compare_cont Eq) with Pos.compare in Hnan;
        rewrite Pos.compare_refl in Hnan; discriminate. }
  rewrite Hx. destruct (Prim2SF y); simpl; repeat split; reflexivity.
Qed.

(** Two values that are not NaN are comparable. *)
Lemma not_lt_ge (x y : float) :
  PrimFloat.is_nan x = false -> PrimFloat.is_nan y = false ->
  (x <? y)%float = false -> (y <=? x)%float = true.
Proof.
  unfold PrimFloat.is_nan. rewrite !FloatAxioms.eqb_spec, ltb_spec, leb_spec.
  unfold SFeqb, SFltb, SFleb. intros Hx Hy.
  rewrite (SFcompare_antisym (Prim2SF x) (Prim2SF y)).
  assert (Hc : SFcompare (Prim2SF x) (Prim2SF y) <> None).
  { apply SFcompare_refl_None.
    - destruct (SFcompare (Prim2SF x) (Prim2SF x)); [discriminate|]. simpl in Hx. discriminate.
    - destruct (SFcompare (Prim2SF y) (Prim2SF y)); [discriminate|]. simpl in Hy. discriminate. }
  destruct (SFcompare (Prim2SF x) (Prim2SF y)) as [[]|]; simpl; congruence.
Qed.

Lemma ltb_not_nan (x y : float) :
  (x <? y)%float = true -> PrimFloat.is_nan x = false /\ PrimFloat.is_nan y = false.
Proof.
  intros Hlt. split.
  - destruct (PrimFloat.is_nan x) eqn:Hn; [|reflexivity].
    destruct (nan_compare x y Hn) as (H & _). congruence.
  - destruct (PrimFloat.is_nan y) eqn:Hn; [|reflexivity].
    destruct (nan_compare y x Hn) as (_ & H & _). congruence.
Qed.

(** [is_nan] holds of the NaN of the specification only. *)
Lemma is_nan_spec (x : float) : PrimFloat.is_nan x = true -> Prim2SF x = S754_nan.
Proof.
  unfold PrimFloat.is_nan. rewrite FloatAxioms.eqb_spec. unfold SFeqb. intros Hnan.
  destruct (Prim2SF x) as [s|s| |s m e]; try reflexivity; simpl in Hnan.
  - discriminate.
  - destruct s; discriminate.
  - destruct s; rewrite Z.compare_refl in Hnan;
      change (PosDef.Pos.compare_cont Eq) with Pos.compare in Hnan;
      rewrite Pos.compare_refl in Hnan; discriminate.
Qed.

(** No threshold lies below the absolute value of a NaN. *)
Lemma not_above_nan (t z : float) : Prim2SF z = S754_nan -> (t <? PrimFloat.abs z)%float = false.
Proof.
  intros Hz. rewrite ltb_spec, abs_spec, Hz. unfold SFltb.
  destruct (Prim2SF t) as [s|s| |s m e]; reflexivity.
Qed.

(** The z-score of a missing value is missing. *)
Lemma z_score_of_nan (x m s : float) :
  PrimFloat.is_nan x = true -> Prim2SF ((x - m) / s)%float = S754_nan.
Proof.
  intros Hx. rewrite div_spec, sub_spec, (is_nan_spec x Hx).
  destruct (Prim2SF m), (Prim2SF s); reflexivity.
Qed.

(** ** The engines side by side *)

Section EngineFacts.
Import DataAnalysis WokwiListener Dashboard.
Variable params : logica_esp32.

(** X4.  Neither the nutrient flags nor the temperature ever change whether
    the pump runs: the listener's engine and the dashboard's engine return
    the same pump state for every pair of flags. *)
Theorem nutrients_never_change_the_decision (humidity ph temperature temperature' chuva_mm : float)
    (p k p' k' : bool) :
  fst (_simulate_irrigation_logic params humidity ph p k temperature)
  = fst (_simulate_irrigation_logic params humidity ph p' k' temperature')
  /\ fst (simular_logica_irrigacao_app humidity ph p k params chuva_mm)
     = fst (simular_logica_irrigacao_app humidity ph p' k' params chuva_mm).
Proof.
  unfold _simulate_irrigation_logic, simular_logica_irrigacao_app.
  destruct (humidity <? UMIDADE_CRITICA_BAIXA params)%float.
  { split; [reflexivity|]. cbn [andb fst]. destruct (1 <? chuva_mm)%float; [reflexivity|].
    destruct (0 <? chuva_mm)%float; reflexivity. }
  destruct ((ph <? PH_CRITICO_MINIMO params)%float || (PH_CRITICO_MAXIMO params <? ph)%float).
  { split; [reflexivity|]. cbn [andb fst]. destruct (0 <? chuva_mm)%float; reflexivity. }
  destruct (humidity <? UMIDADE_MINIMA_PARA_IRRIGAR params)%float.
  - destruct ((PH_IDEAL_MINIMO params <=? ph)%float && (ph <=? PH_IDEAL_MAXIMO params)%float).
    + split.
      * destruct p, k, p', k'; reflexivity.
      * cbn [andb fst]. destruct (1 <? chuva_mm)%float; [reflexivity|].
        destruct (0 <? chuva_mm)%float; reflexivity.
    + split; [reflexivity|]. cbn [andb fst]. destruct (0 <? chuva_mm)%float; reflexivity.
  - destruct (UMIDADE_ALTA_PARAR_IRRIGACAO params <? humidity)%float;
      (split; [reflexivity|]); cbn [andb fst]; destruct (0 <? chuva_mm)%float; reflexivity.
Qed.

(** X5.  With the critical humidity not above the irrigation minimum, the
    listener's engine switches the pump on only below the irrigation minimum,
    and then only in an emergency or at an ideal pH. *)
Theorem listener_irrigates_only_below_threshold (humidity ph temperature : float)
    (phosphorus potassium : bool) :
  (UMIDADE_CRITICA_BAIXA params <=? UMIDADE_MINIMA_PARA_IRRIGAR params)%float = true ->
  fst (_simulate_irrigation_logic params humidity ph phosphorus potassium temperature) = true ->
  (humidity <? UMIDADE_MINIMA_PARA_IRRIGAR params)%float = true
  /\ ((humidity <? UMIDADE_CRITICA_BAIXA params)%float = true
      \/ ((PH_IDEAL_MINIMO params <=? ph)%float = true
          /\ (ph <=? PH_IDEAL_MAXIMO params)%float = true)).
Proof.
  intros Hord. unfold _simulate_irrigation_logic.
  destruct (humidity <? UMIDADE_CRITICA_BAIXA params)%float eqn:Hcrit.
  { intros _. split; [exact (ltb_leb_trans _ _ _ Hcrit Hord) | left; reflexivity]. }
  destruct ((ph <? PH_CRITICO_MINIMO params)%float || (PH_CRITICO_MAXIMO params <? ph)%float);
    [discriminate|].
  destruct (humidity <? UMIDADE_MINIMA_PARA_IRRIGAR params)%float.
  - destruct (PH_IDEAL_MINIMO params <=? ph)%float, (ph <=? PH_IDEAL_MAXIMO params)%float;
      cbn [andb fst]; try discriminate. intros _. split; [reflexivity | right; split; reflexivity].
  - destruct (UMIDADE_ALTA_PARAR_IRRIGACAO params <? humidity)%float; discriminate.
Qed.

(** X6.  When the forecast rainfall does not exceed 1.0 mm the dashboard's
    engine decides as the listener's engine does. *)
Theorem dashboard_follows_listener_without_rain (umidade ph temperature chuva_mm : float)
    (p k : bool) :
  (1 <? chuva_mm)%float = false ->
  fst (simular_logica_irrigacao_app umidade ph p k params chuva_mm)
  = fst (_simulate_irrigation_logic params umidade ph p k temperature).
Proof.
  intros Hrain. unfold simular_logica_irrigacao_app, _simulate_irrigation_logic.
  destruct (umidade <? UMIDADE_CRITICA_BAIXA params)%float.
  { rewrite Hrain. cbn [andb fst]. destruct (0 <? chuva_mm)%float; reflexivity. }
  destruct ((ph <? PH_CRITICO_MINIMO params)%float || (PH_CRITICO_MAXIMO params <? ph)%float).
  { cbn [andb fst]. destruct (0 <? chuva_mm)%float; reflexivity. }
  destruct (umidade <? UMIDADE_MINIMA_PARA_IRRIGAR params)%float.
  - destruct ((PH_IDEAL_MINIMO params <=? ph)%float && (ph <=? PH_IDEAL_MAXIMO params)%float).
    + rewrite Hrain. cbn [andb fst]. destruct (0 <? chuva_mm)%float; destruct p, k; reflexivity.
    + cbn [andb fst]. destruct (0 <? chuva_mm)%float; reflexivity.
  - destruct (UMIDADE_ALTA_PARAR_IRRIGACAO params <? umidade)%float;
      cbn [andb fst]; destruct (0 <? chuva_mm)%float; reflexivity.
Qed.

(** X7.  The forecast only ever switches the pump off: the decision with a
    forecast is the decision without rain, and not more than 1.0 mm. *)
Theorem rain_only_switches_off (umidade ph chuva_mm : float) (p k : bool) :
  fst (simular_logica_irrigacao_app umidade ph p k params chuva_mm)
  = fst (simular_logica_irrigacao_app umidade ph p k params 0) && negb (1 <? chuva_mm)%float.
Proof.
  unfold simular_logica_irrigacao_app.
  assert (H10 : (1 <? 0)%float = false) by reflexivity.
  assert (H00 : (0 <? 0)%float = false) by reflexivity.
  rewrite H10, H00.
  match goal with
  | |- context [let '(a, b) := ?e in _] => destruct e as [[] motivo]
  end; cbn [andb fst negb].
  - destruct (1 <? chuva_mm)%float; [reflexivity|]. destruct (0 <? chuva_mm)%float; reflexivity.
  - destruct (0 <? chuva_mm)%float; reflexivity.
Qed.

(** X8.  In the analysis variant the emergency flag is set exactly when the
    decision is the emergency one, plain irrigation is decided only below the
    irrigation minimum at a pH strictly inside the ideal range, and no other
    decision text is produced. *)
Theorem data_analysis_flag_and_decision (umidade ph : float) :
  let r := simular_logica_irrigacao umidade ph params in
  emergencia r = String.eqb (decisao r) "Ligar bomba (EMERGÊNCIA)"
  /\ (decisao r = "Ligar bomba" ->
      (umidade <? UMIDADE_MINIMA_PARA_IRRIGAR params)%float = true
      /\ (PH_IDEAL_MINIMO params <? ph)%float = true
      /\ (ph <? PH_IDEAL_MAXIMO params)%float = true)
  /\ (decisao r = "Ligar bomba (EMERGÊNCIA)" \/ decisao r = "Ligar bomba"
      \/ decisao r = "Manter bomba desligada").
Proof.
  cbv zeta. unfold simular_logica_irrigacao.
  destruct ((umidade <? UMIDADE_CRITICA_BAIXA params)%float
            || negb ((PH_CRITICO_MINIMO params <? ph)%float
                     && (ph <? PH_CRITICO_MAXIMO params)%float)).
  { cbn [decisao emergencia].
    split; [reflexivity|]. split; [intros H; discriminate H | left; reflexivity]. }
  destruct (umidade <? UMIDADE_MINIMA_PARA_IRRIGAR params)%float.
  - destruct (PH_IDEAL_MINIMO params <? ph)%float, (ph <? PH_IDEAL_MAXIMO params)%float;
      cbn [andb negb decisao emergencia];
      (split; [reflexivity|]);
      (split; [first [intros H; discriminate H | intros _; repeat split; reflexivity]
              | first [right; left; reflexivity | right; right; reflexivity]]).
  - destruct (UMIDADE_ALTA_PARAR_IRRIGACAO params <? umidade)%float;
      cbn [decisao emergencia];
      (split; [reflexivity|]); (split; [intros H; discriminate H | right; right; reflexivity]).
Qed.

(** X9.  A pH that is not a number is an emergency with the pump on for the
    analysis variant, whatever the humidity; the listener sees no emergency in
    it and lets the pump run only at critical humidity. *)
Theorem nan_ph_divides_the_engines (humidity ph temperature : float) (p k : bool) :
  PrimFloat.is_nan ph = true ->
  emergencia (simular_logica_irrigacao humidity ph params) = true
  /\ decisao (simular_logica_irrigacao humidity ph params) = "Ligar bomba (EMERGÊNCIA)"
  /\ emergency params humidity ph = (humidity <? UMIDADE_CRITICA_BAIXA params)%float
  /\ fst (_simulate_irrigation_logic params humidity ph p k temperature)
     = (humidity <? UMIDADE_CRITICA_BAIXA params)%float.
Proof.
  intros Hnan.
  destruct (nan_compare ph (PH_CRITICO_MINIMO params) Hnan) as (Hlt1 & Hgt1 & _ & _).
  destruct (nan_compare ph (PH_CRITICO_MAXIMO params) Hnan) as (Hlt2 & Hgt2 & _ & _).
  destruct (nan_compare ph (PH_IDEAL_MINIMO params) Hnan) as (_ & _ & _ & Hle3).
  unfold simular_logica_irrigacao, emergency, _simulate_irrigation_logic.
  rewrite Hlt1, Hgt1, Hlt2, Hgt2, Hle3. cbn [andb orb negb].
  rewrite !orb_true_r, !orb_false_r. cbn [decisao emergencia].
  repeat split; try reflexivity.
  destruct (humidity <? UMIDADE_CRITICA_BAIXA params)%float; [reflexivity|].
  destruct (humidity <? UMIDADE_MINIMA_PARA_IRRIGAR params)%float; [reflexivity|].
  destruct (UMIDADE_ALTA_PARAR_IRRIGACAO params <? humidity)%float; reflexivity.
Qed.
End EngineFacts.

Lemma listener_irrigates_only_below_threshold_witness :
  (18 <? UMIDADE_MINIMA_PARA_IRRIGAR default_logica_esp32)%float = true
  /\ ((18 <? UMIDADE_CRITICA_BAIXA default_logica_esp32)%float = true
      \/ ((PH_IDEAL_MINIMO default_logica_esp32 <=? 6)%float = true
          /\ (6 <=? PH_IDEAL_MAXIMO default_logica_esp32)%float = true)).
Proof.
  apply (listener_irrigates_only_below_threshold default_logica_esp32 18 6 25 true false);
    reflexivity.
Defined.

Lemma dashboard_follows_listener_without_rain_witness :
  fst (Dashboard.simular_logica_irrigacao_app 18 6 true false default_logica_esp32 0.5)
  = fst (WokwiListener._simulate_irrigation_logic default_logica_esp32 18 6 true false 25).
Proof.
  apply (dashboard_follows_listener_without_rain default_logica_esp32 18 6 25 0.5 true false).
  reflexivity.
Defined.

Lemma nan_ph_divides_the_engines_witness :
  DataAnalysis.emergencia
    (DataAnalysis.simular_logica_irrigacao 40 PrimFloat.nan default_logica_esp32) = true
  /\ DataAnalysis.decisao
       (DataAnalysis.simular_logica_irrigacao 40 PrimFloat.nan default_logica_esp32)
     = "Ligar bomba (EMERGÊNCIA)"
  /\ WokwiListener.emergency default_logica_esp32 40 PrimFloat.nan
     = (40 <? UMIDADE_CRITICA_BAIXA default_logica_esp32)%float
  /\ fst (WokwiListener._simulate_irrigation_logic default_logica_esp32 40 PrimFloat.nan
            true true 25)
     = (40 <? UMIDADE_CRITICA_BAIXA default_logica_esp32)%float.
Proof.
  apply (nan_ph_divides_the_engines default_logica_esp32 40 PrimFloat.nan 25 true true).
  reflexivity.
Defined.

(** X10.  The single-file application decides on humidity alone, against the
    fixed minimum of 20: its what-if pump state is that of the service layer
    under the default thresholds, the simulated reading carries the same pump
    state and the listener's emergency flag, and the justification has one to
    three parts. *)
Theorem app_what_if_decides_on_humidity (umidade ph temperatura : float) (fosforo potassio : bool) :
  fst (App.run_what_if_simulation umidade ph temperatura fosforo potassio)
    = (umidade <? 20)%float
  /\ fst (App.run_what_if_simulation umidade ph temperatura fosforo potassio)
     = fst (Services.run_what_if_simulation default_logica_esp32 umidade ph temperatura
              fosforo potassio)
  /\ App.sd_bomba_ligada (App.simulate_sensor_data umidade ph temperatura fosforo potassio)
     = (umidade <? 20)%float
  /\ App.sd_emergencia (App.simulate_sensor_data umidade ph temperatura fosforo potassio)
     = WokwiListener.emergency App.CONFIG umidade ph
  /\ 1 <= length (snd (App.justificativas umidade ph temperatura fosforo potassio)) <= 3.
Proof.
  assert (Hlow : (umidade <? 15)%float = true -> (umidade <? 20)%float = true).
  { intros H. apply (ltb_leb_trans umidade 15 20 H). reflexivity. }
  unfold App.run_what_if_simulation, App.justificativas, App.simulate_sensor_data,
    Services.run_what_if_simulation, WokwiListener.emergency.
  cbn [App.CONFIG default_logica_esp32 UMIDADE_CRITICA_BAIXA UMIDADE_MINIMA_PARA_IRRIGAR
         UMIDADE_ALTA_PARAR_IRRIGACAO PH_CRITICO_MINIMO PH_CRITICO_MAXIMO].
  destruct (umidade <? 15)%float eqn:H15.
  - rewrite (Hlow eq_refl). cbn [fst snd App.sd_bomba_ligada App.sd_emergencia orb].
    repeat split; try reflexivity;
      destruct ((ph <? 4.5)%float || (7.5 <? ph)%float), fosforo, potassio; cbn; lia.
  - destruct (umidade <? 20)%float.
    + cbn [fst snd App.sd_bomba_ligada App.sd_emergencia orb].
      repeat split; try reflexivity;
        destruct ((ph <? 4.5)%float || (7.5 <? ph)%float), fosforo, potassio; cbn;
        try reflexivity; lia.
    + destruct (60 <? umidade)%float;
        cbn [fst snd App.sd_bomba_ligada App.sd_emergencia orb];
        (repeat split; try reflexivity;
         destruct ((ph <? 4.5)%float || (7.5 <? ph)%float), fosforo, potassio; cbn;
         try reflexivity; lia).
Qed.

(** ** The calibration curve *)

Section CalibrationFacts.
Import Calibration WokwiListener.
Variable parse_floats : string -> option (list float).
Variable pow : float -> Z -> float.

(** Clamping to a range whose bounds are numbers yields a number of the range,
    NaN included: [max(lo, min(v, hi))]. *)
Lemma clamp_in_range (lo hi v : float) :
  (lo <? hi)%float = true ->
  let r := py_max lo (py_min v hi) in
  (lo <=? r)%float = true /\ (r <=? hi)%float = true.
Proof.
  intros Hlohi. cbv zeta. unfold py_max, py_min.
  destruct (ltb_not_nan lo hi Hlohi) as [Hlo Hhi].
  assert (Hlolo : (lo <=? lo)%float = true).
  { apply not_lt_ge; try assumption.
    destruct (lo <? lo)%float eqn:H; [|reflexivity].
    pose proof (leb_not_gt lo lo (ltb_leb lo lo H)). congruence. }
  assert (Hhihi : (hi <=? hi)%float = true).
  { apply not_lt_ge; try assumption.
    destruct (hi <? hi)%float eqn:H; [|reflexivity].
    pose proof (leb_not_gt hi hi (ltb_leb hi hi H)). congruence. }
  destruct (hi <? v)%float eqn:Hv.
  - rewrite Hlohi. split; [apply ltb_leb, Hlohi | exact Hhihi].
  - destruct (lo <? v)%float eqn:Hlv.
    + split; [apply ltb_leb, Hlv|].
      apply not_lt_ge; [exact Hhi | apply (ltb_not_nan lo v Hlv) | exact Hv].
    + split; [exact Hlolo | apply ltb_leb, Hlohi].
Qed.

(** X11.  Whatever the reading, the range of the converter and the
    coefficients, a pH that [adc_to_ph] returns lies on the scale from 0 to
    14; it is never NaN. *)
Theorem adc_to_ph_within_ph_scale (first_line : option string) (raw adc_max : float)
    (coeffs : option (list float)) (ph : float) :
  adc_to_ph parse_floats pow first_line raw coeffs adc_max = inr ph ->
  (0 <=? ph)%float = true /\ (ph <=? 14)%float = true.
Proof.
  unfold adc_to_ph.
  destruct (raw <? 0)%float; [intros [= <-]; split; reflexivity|].
  destruct (adc_max <? raw)%float; [intros [= <-]; split; reflexivity|].
  match goal with |- context [match ?cs with [] => _ | _ => _ end] => destruct cs as [|a [|b [|c [|d [|e rest]]]]] end;
    try discriminate.
  destruct (adc_max =? 0)%float; [discriminate|].
  intros [= <-]. apply clamp_in_range. reflexivity.
Qed.

(** Coefficients read from the file are four. *)
Lemma loaded_coeffs_are_four (first_line : option string) (cs : list float) :
  _load_coeffs_from_file parse_floats first_line = Some cs -> length cs = 4.
Proof.
  unfold _load_coeffs_from_file. destruct first_line as [line|]; [|discriminate].
  destruct (parse_floats line) as [vals|]; [|discriminate].
  destruct (Nat.eqb_spec (length vals) 4); [|discriminate]. intros [= <-]. assumption.
Qed.

(** X12.  [adc_to_ph] raises only for a reading inside the range: a division
    by zero when the range of the converter is 0, or the coefficient error,
    which only coefficients the caller supplied can cause, when they are not
    four. *)
Theorem adc_to_ph_failures (first_line : option string) (raw adc_max : float)
    (coeffs : option (list float)) (e : calib_error) :
  adc_to_ph parse_floats pow first_line raw coeffs adc_max = inl e ->
  (raw <? 0)%float = false /\ (adc_max <? raw)%float = false
  /\ ((e = ZeroDivisionError /\ (adc_max =? 0)%float = true)
      \/ (e = CoeffError [Lit "São necessários 4 coeficientes (a,b,c,d)"]
          /\ exists cs, coeffs = Some cs /\ length cs <> 4)).
Proof.
  unfold adc_to_ph.
  destruct (raw <? 0)%float; [discriminate|].
  destruct (adc_max <? raw)%float; [discriminate|].
  intros Hres. split; [reflexivity|]. split; [reflexivity|].
  destruct coeffs as [cs|].
  - destruct cs as [|a [|b [|c [|d [|x rest]]]]];
      try (right; split; [congruence | eexists; split; [reflexivity | discriminate]]).
    destruct (adc_max =? 0)%float; [|discriminate].
    left. split; [congruence | reflexivity].
  - destruct (_load_coeffs_from_file parse_floats first_line) as [fs|] eqn:Hfile.
    + apply loaded_coeffs_are_four in Hfile.
      destruct fs as [|a [|b [|c [|d [|x rest]]]]]; try discriminate Hfile.
      destruct (adc_max =? 0)%float; [|discriminate].
      left. split; [congruence | reflexivity].
    + cbn [DEFAULT_PH_COEFFS] in Hres. destruct (adc_max =? 0)%float; [|discriminate].
      left. split; [congruence | reflexivity].
Qed.
End CalibrationFacts.

Lemma adc_to_ph_within_ph_scale_witness :
  (0 <=? Fixtures.half_scale_ph)%float = true /\ (Fixtures.half_scale_ph <=? 14)%float = true.
Proof.
  apply (adc_to_ph_within_ph_scale Fixtures.no_floats Fixtures.repeated_product None 2048 4095
           None Fixtures.half_scale_ph).
  by_evaluation.
Defined.

Lemma adc_to_ph_failures_witness :
  (100 <? 0)%float = false /\ (4095 <? 100)%float = false
  /\ ((Calibration.CoeffError [Lit "São necessários 4 coeficientes (a,b,c,d)"]
       = Calibration.ZeroDivisionError /\ (4095 =? 0)%float = true)
      \/ (Calibration.CoeffError [Lit "São necessários 4 coeficientes (a,b,c,d)"]
          = Calibration.CoeffError [Lit "São necessários 4 coeficientes (a,b,c,d)"]
          /\ exists cs, Some [1; 2]%float = Some cs /\ length cs <> 4)).
Proof.
  apply (adc_to_ph_failures Fixtures.no_floats Fixtures.repeated_product None 100 4095
           (Some [1; 2]%float)).
  by_evaluation.
Defined.

(** ** The soil assessment *)

Section SoilFacts.
Import DashboardSoil.
Variable params : logica_esp32.

(** X13.  The risk level of the soil assessment in closed form.  The levels
    are merged with [max] on their names, so a missing nutrient makes the
    level "médio" even at critical humidity or pH.  The efficiency impact
    lies between -65 and 0, there are at most three recommendations, and
    there is none exactly when the impact is 0, which is exactly when the
    level is "baixo". *)
Theorem soil_risk_level (humidity ph : float) (phosphorus potassium : bool) :
  let '(risk_level, efficiency_impact, recommendations) :=
    evaluate_soil_conditions humidity ph phosphorus potassium params in
  let ph_critical :=
    (ph <? PH_CRITICO_MINIMO params)%float || (PH_CRITICO_MAXIMO params <? ph)%float in
  let ph_ideal :=
    (PH_IDEAL_MINIMO params <=? ph)%float && (ph <=? PH_IDEAL_MAXIMO params)%float in
  risk_level
  = (if negb (phosphorus && potassium) then "médio"
     else if ph_critical then "alto"
     else if negb ph_ideal then "médio"
     else if (humidity <? UMIDADE_CRITICA_BAIXA params)%float then "alto"
     else if (humidity <? UMIDADE_MINIMA_PARA_IRRIGAR params)%float then "médio"
     else "baixo")
  /\ (-65 <= efficiency_impact <= 0)%Z
  /\ length recommendations <= 3
  /\ (recommendations = [] <-> efficiency_impact = 0%Z)
  /\ (recommendations = [] <-> risk_level = "baixo").
Proof.
  unfold evaluate_soil_conditions.
  assert (Hm1 : str_max "alto" "médio" = "médio") by reflexivity.
  assert (Hm2 : str_max "baixo" "médio" = "médio") by reflexivity.
  assert (Hm3 : str_max "médio" "médio" = "médio") by reflexivity.
  destruct (humidity <? UMIDADE_CRITICA_BAIXA params)%float;
    [|destruct (humidity <? UMIDADE_MINIMA_PARA_IRRIGAR params)%float];
    (destruct (ph <? PH_CRITICO_MINIMO params)%float;
     [|destruct (PH_CRITICO_MAXIMO params <? ph)%float;
       [|destruct ((PH_IDEAL_MINIMO params <=? ph)%float
                   && (ph <=? PH_IDEAL_MAXIMO params)%float)]]);
    destruct phosphorus, potassium;
    cbn [andb orb negb app length]; rewrite ?Hm1, ?Hm2, ?Hm3;
    (split; [reflexivity|]); (split; [lia|]); (split; [lia|]);
    split; split; intros H; first [discriminate H | reflexivity | lia].
Qed.
End SoilFacts.

(** ** Anomalies *)

Section AnomalyFacts.
Import Pandas DataAnalysis.

(** X14.  On a frame that is not empty and a column of numeric dtype,
    [detect_anomalies] returns the frame with one flag per value in the
    column [anomalia]; a missing value is never flagged, and nothing is
    flagged when the threshold is NaN. *)
Theorem detect_anomalies_flags (df : DataFrame) (col : string) (z_thresh : float)
    (c : column) (xs : list float) :
  empty df = false ->
  df_columns df !! col = Some c ->
  to_numeric c = inr xs ->
  exists flags,
    detect_anomalies df col z_thresh = inr (assign "anomalia" (BoolCol flags) df)
    /\ length flags = length xs
    /\ (forall i x, xs !! i = Some x -> PrimFloat.is_nan x = true -> flags !! i = Some false)
    /\ (PrimFloat.is_nan z_thresh = true -> flags = repeat false (length xs)).
Proof.
  intros Hempty Hcol Hnum. unfold detect_anomalies, getitem.
  rewrite Hempty, Hcol, Hnum. eexists. split; [reflexivity|].
  unfold z_scores. split; [rewrite !length_map; reflexivity|]. split.
  - intros i x Hi Hx. rewrite !list_lookup_fmap, Hi. cbn [fmap option_fmap option_map].
    rewrite not_above_nan by (apply z_score_of_nan, Hx). reflexivity.
  - intros Hnan. rewrite map_map.
    generalize (mean xs) (std0 xs). intros m s.
    induction xs as [|x l IH] in |- *; [reflexivity|].
    cbn [map length repeat]. rewrite IH.
    destruct (nan_compare z_thresh (PrimFloat.abs ((x - m) / s)) Hnan) as [-> _]. reflexivity.
Qed.
End AnomalyFacts.

Lemma detect_anomalies_flags_witness :
  exists flags,
    DataAnalysis.detect_anomalies Fixtures.with_gap "umidade" 1
    = inr (Pandas.assign "anomalia" (Pandas.BoolCol flags) Fixtures.with_gap)
    /\ length flags = length [10; PrimFloat.nan; 100]%float
    /\ (forall i x, [10; PrimFloat.nan; 100]%float !! i = Some x ->
                    PrimFloat.is_nan x = true -> flags !! i = Some false)
    /\ (PrimFloat.is_nan 1 = true ->
        flags = repeat false (length [10; PrimFloat.nan; 100]%float)).
Proof.
  apply (detect_anomalies_flags Fixtures.with_gap "umidade" 1
           (Pandas.NumCol [10; PrimFloat.nan; 100]%float)).
  - by_evaluation.
  - by_evaluation.
  - reflexivity.
Defined.

(** ** The feature matrix, the risk model and the forecast *)

Section FeatureMatrix.
Import Pandas MlPredictor FrameChecks.
Variable parse_dates : column -> exn + list Z.
Variable int_of_string : string -> option Z.

Lemma fill0_not_nan (x : float) : PrimFloat.is_nan (fill0 x) = false.
Proof. unfold fill0. destruct (PrimFloat.is_nan x) eqn:Hx; [reflexivity | exact Hx]. Qed.

(** After [fillna(method="ffill").fillna(0)] no value is missing. *)
Lemma fillna_leaves_nothing_missing (c : column) : no_missing (fillna_ffill_zero c) = true.
Proof.
  destruct c as [xs|ns|bs|ts|vs]; cbn [fillna_ffill_zero no_missing]; try reflexivity.
  - generalize (ffill_from PrimFloat.nan xs). intros l.
    induction l as [|x l IH]; [reflexivity|]. cbn [map forallb].
    rewrite fill0_not_nan, IH. reflexivity.
  - generalize (ffill_obj_from PNone vs). intros l.
    induction l as [|v l IH]; [reflexivity|]. cbn [map forallb].
    rewrite IH. destruct (isna v) eqn:Hv; [reflexivity | rewrite Hv; reflexivity].
Qed.

Lemma mapM_inr {A B : Type} (f : A -> exn + B) (l : list A) (bs : list B) :
  mapM f l = inr bs -> Forall2 (fun a b => f a = inr b) l bs.
Proof.
  revert bs. induction l as [|a l IH]; intros bs; cbn [mapM].
  - intros [= <-]. constructor.
  - destruct (f a) as [e|b] eqn:Hb; cbn [bind]; [discriminate|].
    destruct (mapM f l) as [e|bs'] eqn:Hbs; cbn [bind]; [discriminate|].
    intros [= <-]. constructor; [exact Hb | apply IH; reflexivity].
Qed.

Lemma selected_columns (df : DataFrame) (cols : list string) (kcs : list (string * column)) :
  mapM (fun col => let* c := getitem df col in inr (col, fillna_ffill_zero c)) cols = inr kcs ->
  map fst kcs = cols /\ Forall (fun kc => no_missing (snd kc) = true) kcs.
Proof.
  intros H. apply mapM_inr in H.
  induction H as [|col kc cols kcs Hkc _ IH]; [split; constructor|].
  destruct (getitem df col) as [e|c]; cbn [bind] in Hkc; [discriminate|].
  injection Hkc as <-. destruct IH as [IH1 IH2]. split.
  - cbn [map fst]. rewrite IH1. reflexivity.
  - constructor; [apply fillna_leaves_nothing_missing | exact IH2].
Qed.

Lemma fill_missing_other (cols : list string) (df : DataFrame) (col : string) :
  col ∉ cols -> getitem (fill_missing df cols) col = getitem df col.
Proof.
  revert df. induction cols as [|k cols IH]; intros df Hnin; [reflexivity|].
  cbn [fill_missing fold_left].
  change (fold_left _ cols ?d) with (fill_missing d cols).
  rewrite IH by (intros H; apply Hnin; right; exact H).
  destruct (has_column k df); [reflexivity|].
  apply getitem_assign_ne. intros ->. apply Hnin. left.
Qed.

(** X15.  When the feature builder succeeds, the matrix holds exactly the
    feature columns, none of them with a missing value, and the labels are
    the [emergencia] column of the input as integers. *)
Theorem feature_matrix_is_complete (df X : DataFrame) (y : list Z) :
  build_feature_matrix parse_dates int_of_string df = inr (X, y) ->
  (forall col, has_column col X = true <-> col ∈ feature_cols)
  /\ (forall col c, df_columns X !! col = Some c -> no_missing c = true)
  /\ (exists e, df_columns df !! "emergencia" = Some e /\ astype_int int_of_string e = inr y).
Proof.
  unfold build_feature_matrix.
  set (df0 := match df_index df with DatetimeIndex _ => _ | RangeIndex _ => df end).
  assert (Hkeep0 : forall col, col <> "timestamp" -> getitem df0 col = getitem df col).
  { intros col Hne. unfold df0. destruct (df_index df); [reflexivity|].
    destruct (negb (has_column "timestamp" df)); [|reflexivity].
    apply getitem_assign_ne. congruence. }
  unfold add_time_based_features.
  destruct (getitem df0 "timestamp") as [e|cts]; cbn [bind]; [discriminate|].
  destruct (to_datetime parse_dates cts) as [e|ts]; cbn [bind]; [discriminate|].
  set (df1 := assign "dia_semana" _ _).
  assert (Hkeep1 : getitem df1 "emergencia" = getitem df "emergencia").
  { unfold df1. rewrite !getitem_assign_ne by discriminate. apply Hkeep0. discriminate. }
  unfold add_moving_average.
  destruct (getitem df1 "umidade") as [e|cu]; cbn [bind]; [discriminate|].
  destruct (to_numeric cu) as [e|xu]; cbn [bind]; [discriminate|].
  set (df2 := assign (ma_name "umidade" 3) _ df1).
  destruct (getitem df2 "temperatura") as [e|ct]; cbn [bind]; [discriminate|].
  destruct (to_numeric ct) as [e|xt]; cbn [bind]; [discriminate|].
  set (df3 := assign (ma_name "temperatura" 3) _ df2).
  destruct (getitem df3 "ph_estimado") as [e|cp]; cbn [bind]; [discriminate|].
  destruct (to_numeric cp) as [e|xp]; cbn [bind]; [discriminate|].
  set (df4 := assign (ma_name "ph_estimado" 3) _ df3).
  assert (Hkeep4 : getitem df4 "emergencia" = getitem df "emergencia").
  { unfold df4, df3, df2. rewrite !getitem_assign_ne by (cbv; discriminate). exact Hkeep1. }
  destruct (mapM _ feature_cols) as [e|kcs] eqn:Hsel; cbn [bind]; [discriminate|].
  apply selected_columns in Hsel as [Hkeys Hfull].
  destruct (getitem (fill_missing df4 feature_cols) "emergencia") as [e|ce] eqn:Hce;
    cbn [bind]; [discriminate|].
  destruct (astype_int int_of_string ce) as [e|ys] eqn:Hys; cbn [bind]; [discriminate|].
  intros Heq. apply (inj inr) in Heq. apply pair_equal_spec in Heq as [HX Hy].
  subst X y. split; [|split].
  - intros col. unfold has_column. cbn [df_columns]. rewrite <- Hkeys. split.
    + destruct (list_to_map kcs !! col) as [c|] eqn:Hc; [intros _|discriminate].
      apply elem_of_list_to_map_2 in Hc. apply list_elem_of_fmap. exists (col, c). split; [reflexivity | exact Hc].
    + intros Hin. destruct (list_to_map kcs !! col) as [c|] eqn:Hc; [reflexivity|].
      apply not_elem_of_list_to_map in Hc. contradiction.
  - intros col c Hc. cbn [df_columns] in Hc. apply elem_of_list_to_map_2 in Hc.
    rewrite Forall_forall in Hfull. exact (Hfull (col, c) Hc).
  - exists ce. split; [|exact Hys].
    rewrite fill_missing_other in Hce
      by (intros H; repeat (apply elem_of_cons in H as [H|H]; [discriminate H|]); inversion H).
    rewrite Hkeep4 in Hce. unfold getitem in Hce.
    destruct (df_columns df !! "emergencia"); [|discriminate].
    apply (inj inr) in Hce. rewrite Hce. reflexivity.
Qed.
End FeatureMatrix.

Lemma feature_matrix_is_complete_witness :
  (forall col, Pandas.has_column col (fst Fixtures.two_emergencies_features) = true
               <-> col ∈ MlPredictor.feature_cols)
  /\ (forall col c, Pandas.df_columns (fst Fixtures.two_emergencies_features) !! col = Some c ->
                    FrameChecks.no_missing c = true)
  /\ (exists e, Pandas.df_columns Samples.two_emergencies !! "emergencia" = Some e
                /\ MlPredictor.astype_int Samples.no_int e
                   = inr (snd Fixtures.two_emergencies_features)).
Proof.
  apply (feature_matrix_is_complete Samples.parse_nothing Samples.no_int
           Samples.two_emergencies).
  by_evaluation.
Defined.

Section Training.
Import Pandas MlPredictor.
Variable parse_dates : column -> exn + list Z.
Variable int_of_string : string -> option Z.
Variable Report : Type.
Variable sk_train :
  DataFrame -> list Z -> gmap string (list pyval) -> float -> Z -> exn + Report.

(** On a frame with timestamps, the three numeric columns and a boolean
    [emergencia] column, the feature builder succeeds, with one label per
    reading. *)
Lemma build_feature_matrix_ok (df : DataFrame) (es : list bool) :
  has_timestamps df ->
  numeric_column df "umidade" ->
  numeric_column df "temperatura" ->
  numeric_column df "ph_estimado" ->
  df_columns df !! "emergencia" = Some (BoolCol es) ->
  exists X, build_feature_matrix parse_dates int_of_string df
            = inr (X, map (fun b : bool => if b then 1%Z else 0%Z) es).
Proof.
  intros Hts (cu & xu & Hu & Hxu) (ct & xt & Ht & Hxt) (cp & xp & Hp & Hxp) He.
  set (df0 := match df_index df with
              | DatetimeIndex ts =>
                  if negb (has_column "timestamp" df)
                  then assign "timestamp" (TimeCol ts) df else df
              | RangeIndex _ => df
              end).
  assert (Hkeep0 : forall col, col <> "timestamp" -> getitem df0 col = getitem df col).
  { intros col Hne. unfold df0. destruct (df_index df); [reflexivity|].
    destruct (negb (has_column "timestamp" df)); [|reflexivity].
    apply getitem_assign_ne. congruence. }
  assert (Hts0 : exists ts, getitem df0 "timestamp" = inr (TimeCol ts)).
  { unfold df0. destruct Hts as [[ts Hc] | [Hnone [ts Hidx]]].
    - exists ts.
      assert (has_column "timestamp" df = true) as Hh
        by (unfold has_column; rewrite Hc; reflexivity).
      destruct (df_index df); [|rewrite Hh; cbn [negb]]; apply lookup_getitem, Hc.
    - exists ts. rewrite Hidx. unfold has_column. rewrite Hnone. cbn [negb].
      apply getitem_assign_eq. }
  destruct Hts0 as [ts Hts0].
  unfold build_feature_matrix. fold df0.
  unfold add_time_based_features. rewrite Hts0. cbn [bind to_datetime].
  set (df1 := assign "dia_semana" _ _).
  assert (Hkeep1 : forall col, col <> "timestamp" -> col <> "hora_dia" ->
                               col <> "dia_semana" -> getitem df1 col = getitem df col).
  { intros col H1 H2 H3. unfold df1. rewrite !getitem_assign_ne by congruence.
    apply Hkeep0, H1. }
  rewrite (moving_average_ok df1 "umidade" 3 cu xu);
    [|rewrite Hkeep1 by discriminate; apply lookup_getitem, Hu|exact Hxu].
  cbn [bind].
  set (df2 := assign (ma_name "umidade" 3) _ df1).
  rewrite (moving_average_ok df2 "temperatura" 3 ct xt);
    [|unfold df2; rewrite getitem_assign_ne by (cbv; discriminate);
      rewrite Hkeep1 by discriminate; apply lookup_getitem, Ht|exact Hxt].
  cbn [bind].
  set (df3 := assign (ma_name "temperatura" 3) _ df2).
  rewrite (moving_average_ok df3 "ph_estimado" 3 cp xp);
    [|unfold df3, df2; rewrite !getitem_assign_ne by (cbv; discriminate);
      rewrite Hkeep1 by discriminate; apply lookup_getitem, Hp|exact Hxp].
  cbn [bind].
  set (df4 := assign (ma_name "ph_estimado" 3) _ df3).
  destruct (mapM_total
              (fun col => let* c := getitem (fill_missing df4 feature_cols) col in
                          inr (col, fillna_ffill_zero c)) feature_cols) as [cols Hcols].
  { intros col Hin. destruct (fill_missing_covers feature_cols df4 col Hin) as [c Hc].
    rewrite Hc. cbn [bind]. eauto. }
  rewrite Hcols. cbn [bind].
  rewrite (fill_missing_keeps feature_cols df4 "emergencia" (BoolCol es)).
  2:{ unfold df4, df3, df2. rewrite !getitem_assign_ne by (cbv; discriminate).
      rewrite Hkeep1 by discriminate. apply lookup_getitem, He. }
  cbn [bind astype_int]. eexists. reflexivity.
Qed.

(** Two different labels make two classes. *)
Lemma two_distinct_values (ys : list Z) (a b : Z) :
  a ∈ ys -> b ∈ ys -> a <> b -> 2 <= length (remove_dups ys).
Proof.
  intros Ha Hb Hne. apply elem_of_remove_dups in Ha, Hb.
  destruct (remove_dups ys) as [|x [|x' l]]; cbn [length]; [inversion Ha| |lia].
  apply list_elem_of_singleton in Ha, Hb. congruence.
Qed.

(** X16.  On a frame that is not empty, has what the feature builder reads
    and holds both classes, [train_risk_model] hands the feature matrix, one
    label per reading and the grid (the default one unless one was given) to
    the training, and its outcome is the outcome of the training. *)
Theorem two_classes_reach_training (df : DataFrame)
    (param_grid : option (gmap string (list pyval)))
    (test_size : float) (random_state : Z) (es : list bool) :
  len df <> 0 ->
  has_timestamps df ->
  numeric_column df "umidade" ->
  numeric_column df "temperatura" ->
  numeric_column df "ph_estimado" ->
  df_columns df !! "emergencia" = Some (BoolCol es) ->
  true ∈ es -> false ∈ es ->
  exists X,
    build_feature_matrix parse_dates int_of_string df
    = inr (X, map (fun b : bool => if b then 1%Z else 0%Z) es)
    /\ train_risk_model parse_dates int_of_string Report sk_train df param_grid test_size
         random_state
       = match sk_train X (map (fun b : bool => if b then 1%Z else 0%Z) es)
                 (default default_param_grid param_grid) test_size random_state with
         | inl e => inl e
         | inr report => inr (Trained report)
         end.
Proof.
  intros Hlen Hts Hu Ht Hp He Htrue Hfalse.
  destruct (build_feature_matrix_ok df es Hts Hu Ht Hp He) as [X HX].
  exists X. split; [exact HX|].
  unfold train_risk_model.
  assert (Hempty : empty df = false).
  { unfold empty. apply orb_false_iff. split; apply Nat.eqb_neq; [exact Hlen|].
    intros Hsz. apply map_size_empty_iff in Hsz. rewrite Hsz in He.
    rewrite lookup_empty in He. discriminate. }
  assert (Hhas : has_column "emergencia" df = true)
    by (unfold has_column; rewrite He; reflexivity).
  rewrite Hempty, Hhas. cbn [orb negb]. rewrite HX. cbn [bind].
  destruct (Nat.ltb_spec
              (length (remove_dups (map (fun b : bool => if b then 1%Z else 0%Z) es))) 2)
    as [Hlt | _].
  - exfalso.
    assert (2 <= length (remove_dups (map (fun b : bool => if b then 1%Z else 0%Z) es))).
    { apply (two_distinct_values _ 1%Z 0%Z); [| |discriminate].
      - apply list_elem_of_fmap. exists true. split; [reflexivity | exact Htrue].
      - apply list_elem_of_fmap. exists false. split; [reflexivity | exact Hfalse]. }
    lia.
  - destruct (sk_train X _ _ test_size random_state); reflexivity.
Qed.
End Training.

Lemma two_classes_reach_training_witness :
  exists X,
    MlPredictor.build_feature_matrix Samples.parse_nothing Samples.no_int Fixtures.two_classes
    = inr (X, map (fun b : bool => if b then 1%Z else 0%Z) [true; false])
    /\ MlPredictor.train_risk_model Samples.parse_nothing Samples.no_int unit
         Samples.train_always Fixtures.two_classes None MlPredictor.default_test_size
         MlPredictor.default_random_state
       = match Samples.train_always X (map (fun b : bool => if b then 1%Z else 0%Z) [true; false])
                 (default MlPredictor.default_param_grid None) MlPredictor.default_test_size
                 MlPredictor.default_random_state with
         | inl e => inl e
         | inr report => inr (MlPredictor.Trained report)
         end.
Proof.
  apply (two_classes_reach_training Samples.parse_nothing Samples.no_int unit
           Samples.train_always Fixtures.two_classes None MlPredictor.default_test_size
           MlPredictor.default_random_state [true; false]).
  - vm_compute. discriminate.
  - left. eexists. vm_compute. reflexivity.
  - eexists. eexists. split; vm_compute; reflexivity.
  - eexists. eexists. split; vm_compute; reflexivity.
  - eexists. eexists. split; vm_compute; reflexivity.
  - vm_compute. reflexivity.
  - apply elem_of_cons. left. reflexivity.
  - apply elem_of_cons. right. apply elem_of_cons. left. reflexivity.
Defined.

Section Forecast.
Import Pandas MlPredictor.
Variable inferred_freq : index -> option string.
Variable infer_freq : index -> exn + option string.
Variable asfreq_ffill : Series -> option string -> exn + Series.
Variable Model : Type.
Variable arima_fit : list float -> Z * Z * Z -> string + Model.

(** X17.  For a series of at least 20 points on a datetime index the
    forecaster fits the model on the series, resampled first when its index
    has no frequency.  A failure of the fit is raised again as [RuntimeError]
    with the text of the cause; a failure of the resampling is raised as it
    is, and no fit is attempted.  On a range index, which has no
    [inferred_freq], the series raises [AttributeError] before any call to
    the libraries. *)
Theorem long_series_outcomes (s : Series) (order : Z * Z * Z) :
  20 <= length (s_values s) ->
  let run := train_arima_model inferred_freq infer_freq asfreq_ffill Model arima_fit
               (PdSeries s) order in
  match s_index s with
  | RangeIndex _ => run = ([], inl AttributeError)
  | DatetimeIndex _ =>
      (forall freq, inferred_freq (s_index s) = Some freq ->
         run = ([ArimaFit (s_values s) order],
                match arima_fit (s_values s) order with
                | inr model_fit => inr model_fit
                | inl e => inl (RuntimeError [Lit "Falha ao treinar modelo ARIMA: "; Lit e])
                end))
      /\ (forall e, inferred_freq (s_index s) = None -> infer_freq (s_index s) = inl e ->
            run = ([InferFreq (s_index s)], inl e))
      /\ (forall freq e, inferred_freq (s_index s) = None ->
            infer_freq (s_index s) = inr freq ->
            asfreq_ffill s freq = inl e ->
            run = ([InferFreq (s_index s); Asfreq s], inl e))
      /\ (forall freq s', inferred_freq (s_index s) = None ->
            infer_freq (s_index s) = inr freq ->
            asfreq_ffill s freq = inr s' ->
            run = ([InferFreq (s_index s); Asfreq s; ArimaFit (s_values s') order],
                   match arima_fit (s_values s') order with
                   | inr model_fit => inr model_fit
                   | inl e => inl (RuntimeError [Lit "Falha ao treinar modelo ARIMA: "; Lit e])
                   end))
  end.
Proof.
  intros Hlen. cbv zeta. unfold train_arima_model.
  destruct (Nat.eqb_spec (length (s_values s)) 0) as [H0 | _]; [lia|].
  destruct (Nat.ltb_spec (length (s_values s)) 20) as [Hlt | _]; [lia|].
  destruct (s_index s) as [n | ts]; [reflexivity|].
  repeat split.
  - intros freq ->. reflexivity.
  - intros e -> ->. reflexivity.
  - intros freq e -> -> ->. reflexivity.
  - intros freq s' -> -> ->. reflexivity.
Qed.
End Forecast.

Lemma long_series_outcomes_witness :
  let run := MlPredictor.train_arima_model Fixtures.hourly Samples.infer_none
               Samples.asfreq_same unit Samples.fit_always
               (MlPredictor.PdSeries Fixtures.twenty_points) (5, 1, 0)%Z in
  match MlPredictor.s_index Fixtures.twenty_points with
  | Pandas.RangeIndex _ => run = ([], inl AttributeError)
  | Pandas.DatetimeIndex _ =>
      (forall freq, Fixtures.hourly (MlPredictor.s_index Fixtures.twenty_points) = Some freq ->
         run = ([MlPredictor.ArimaFit (MlPredictor.s_values Fixtures.twenty_points) (5, 1, 0)%Z],
                match Samples.fit_always (MlPredictor.s_values Fixtures.twenty_points)
                        (5, 1, 0)%Z with
                | inr model_fit => inr model_fit
                | inl e => inl (RuntimeError [Lit "Falha ao treinar modelo ARIMA: "; Lit e])
                end))
      /\ (forall e, Fixtures.hourly (MlPredictor.s_index Fixtures.twenty_points) = None ->
            Samples.infer_none (MlPredictor.s_index Fixtures.twenty_points) = inl e ->
            run = ([MlPredictor.InferFreq (MlPredictor.s_index Fixtures.twenty_points)], inl e))
      /\ (forall freq e, Fixtures.hourly (MlPredictor.s_index Fixtures.twenty_points) = None ->
            Samples.infer_none (MlPredictor.s_index Fixtures.twenty_points) = inr freq ->
            Samples.asfreq_same Fixtures.twenty_points freq = inl e ->
            run = ([MlPredictor.InferFreq (MlPredictor.s_index Fixtures.twenty_points);
                    MlPredictor.Asfreq Fixtures.twenty_points], inl e))
      /\ (forall freq s', Fixtures.hourly (MlPredictor.s_index Fixtures.twenty_points) = None ->
            Samples.infer_none (MlPredictor.s_index Fixtures.twenty_points) = inr freq ->
            Samples.asfreq_same Fixtures.twenty_points freq = inr s' ->
            run = ([MlPredictor.InferFreq (MlPredictor.s_index Fixtures.twenty_points);
                    MlPredictor.Asfreq Fixtures.twenty_points;
                    MlPredictor.ArimaFit (MlPredictor.s_values s') (5, 1, 0)%Z],
                   match Samples.fit_always (MlPredictor.s_values s') (5, 1, 0)%Z with
                   | inr model_fit => inr model_fit
                   | inl e => inl (RuntimeError [Lit "Falha ao treinar modelo ARIMA: "; Lit e])
                   end))
  end.
Proof.
  apply (long_series_outcomes Fixtures.hourly Samples.infer_none Samples.asfreq_same unit
           Samples.fit_always Fixtures.twenty_points (5, 1, 0)%Z).
  vm_compute. lia.
Defined.

(** Twenty points on a range index: the attribute error, and no call. *)
Lemma unindexed_series_raises_attribute_error :
  MlPredictor.train_arima_model Fixtures.hourly Samples.infer_none Samples.asfreq_same unit
    Samples.fit_always (MlPredictor.PdSeries Fixtures.twenty_unindexed) (5, 1, 0)%Z
  = ([], inl AttributeError).
Proof. by_evaluation. Qed.

(** ** The reading store, continued *)

Section StoreFacts.
Import DbManager Services DbQueries.
Variable o : orm.

(** The comparison of stored values is symmetric. *)
Lemma pyval_eqb_sym (v w : pyval) : pyval_eqb v w = pyval_eqb w v.
Proof.
  destruct v as [|a|a|a|a|a], w as [|b|b|b|b|b]; cbn [pyval_eqb]; try reflexivity.
  - destruct a, b; reflexivity.
  - apply Z.eqb_sym.
  - destruct (PrimFloat.eqb a b) eqn:H1, (PrimFloat.eqb b a) eqn:H2; try reflexivity;
      rewrite FloatAxioms.eqb_spec in *; unfold SpecFloat.SFeqb in *.
    + rewrite SFcompare_antisym in H2. destruct (SpecFloat.SFcompare _ _) as [[| |]|];
        cbn in *; congruence.
    + rewrite SFcompare_antisym in H1. destruct (SpecFloat.SFcompare _ _) as [[| |]|];
        cbn in *; congruence.
  - apply String.eqb_sym.
  - apply Z.eqb_sym.
Qed.

(** A timestamp is free when no row holds it. *)
Lemma timestamp_taken_false (ts : pyval) (tbl : gmap Z (gmap string pyval)) :
  timestamp_taken ts tbl = false <->
  forall i r, tbl !! i = Some r -> pyval_eqb (attr r "timestamp") ts = false.
Proof.
  unfold timestamp_taken. split.
  - intros Hf i r Hr.
    destruct (pyval_eqb (attr r "timestamp") ts) eqn:He; [|reflexivity].
    rewrite <- Hf. symmetry. apply existsb_exists. exists (i, r). split; [|exact He].
    apply list_elem_of_In, elem_of_map_to_list, Hr.
  - intros Hall. apply not_true_is_false. intros Hex.
    apply existsb_exists in Hex as [[i r] [Hin He]].
    apply list_elem_of_In, elem_of_map_to_list in Hin. cbn [snd] in He.
    rewrite (Hall i r Hin) in He. discriminate.
Qed.

(** A row written under a key no other row has keeps the table consistent when
    it carries the key as its id, has no NULL where none is allowed and a
    timestamp no other row holds. *)
Lemma consistent_insert (tbl : gmap Z (gmap string pyval)) (i : Z)
    (row : gmap string pyval) :
  consistent tbl ->
  attr row "id" = PInt i ->
  null_violation row = false ->
  timestamp_taken (attr row "timestamp") (delete i tbl) = false ->
  consistent (<[i := row]> tbl).
Proof.
  intros [Hrows Huniq] Hid Hnull Hfree.
  pose proof (proj1 (timestamp_taken_false _ _) Hfree) as Hts. split.
  - intros j r Hj. destruct (decide (i = j)) as [<- | Hne].
    + rewrite lookup_insert_eq in Hj. injection Hj as <-. split; assumption.
    + rewrite lookup_insert_ne in Hj by exact Hne. apply (Hrows j r Hj).
  - intros j k rj rk Hj Hk Hjk.
    destruct (decide (i = j)) as [<- | Hij].
    + rewrite lookup_insert_eq in Hj. injection Hj as <-.
      rewrite lookup_insert_ne in Hk by exact Hjk.
      rewrite pyval_eqb_sym. apply (Hts k rk). rewrite lookup_delete_ne by exact Hjk. exact Hk.
    + rewrite lookup_insert_ne in Hj by exact Hij.
      destruct (decide (i = k)) as [<- | Hik].
      * rewrite lookup_insert_eq in Hk. injection Hk as <-.
        apply (Hts j rj). rewrite lookup_delete_ne by exact Hij. exact Hj.
      * rewrite lookup_insert_ne in Hk by exact Hik. apply (Huniq j k rj rk Hj Hk Hjk).
Qed.

Lemma consistent_delete (tbl : gmap Z (gmap string pyval)) (i : Z) :
  consistent tbl -> consistent (delete i tbl).
Proof.
  intros [Hrows Huniq]. split.
  - intros j r Hj. apply lookup_delete_Some in Hj as [_ Hj]. apply (Hrows j r Hj).
  - intros j k rj rk Hj Hk Hjk.
    apply lookup_delete_Some in Hj as [_ Hj]. apply lookup_delete_Some in Hk as [_ Hk].
    apply (Huniq j k rj rk Hj Hk Hjk).
Qed.

Lemma consistent_empty : consistent ∅.
Proof.
  split.
  - intros i r Hr. rewrite lookup_empty in Hr. discriminate.
  - intros i j ri rj Hi. rewrite lookup_empty in Hi. discriminate.
Qed.

Lemma timestamp_taken_delete (ts : pyval) (i : Z) (tbl : gmap Z (gmap string pyval)) :
  timestamp_taken ts tbl = false -> timestamp_taken ts (delete i tbl) = false.
Proof.
  rewrite !timestamp_taken_false. intros Hall j r Hj.
  apply lookup_delete_Some in Hj as [_ Hj]. apply (Hall j r Hj).
Qed.

(** X18.  Deleting the reading [add_leitura] has just added gives back the
    table as it was before: the id it returned was not in use, and deleting
    it from the former table finds nothing. *)
Theorem add_then_delete_restores (now : Z) (kwargs : gmap string pyval)
    (tbl tbl' : gmap Z (gmap string pyval)) (i : Z) :
  add_leitura o now kwargs tbl = (inr i, tbl') ->
  get tbl i = None
  /\ delete_leitura i tbl' = (true, tbl)
  /\ delete_leitura i tbl = (false, tbl).
Proof.
  intros Hadd. apply add_leitura_inserted in Hadd as (row & -> & Hfree & _).
  unfold delete_leitura, get. split; [exact Hfree|].
  rewrite lookup_insert_eq, Hfree. split; [|reflexivity].
  rewrite delete_insert_id by exact Hfree. reflexivity.
Qed.

Lemma add_leitura_keeps_consistent (now : Z) (kwargs : gmap string pyval)
    (tbl : gmap Z (gmap string pyval)) :
  consistent tbl -> consistent (snd (add_leitura o now kwargs tbl)).
Proof.
  intros Hc.
  destruct (add_leitura o now kwargs tbl) as [[e | i] tbl'] eqn:Hadd.
  - unfold add_leitura in Hadd. destruct (bind _ _) as [e' | [i' t']].
    + apply pair_equal_spec in Hadd as [_ <-]. exact Hc.
    + apply pair_equal_spec in Hadd as [Hadd _]. discriminate.
  - apply add_leitura_inserted in Hadd as (row & -> & Hfree & Hid & Hnull & Hts & _).
    apply consistent_insert; [exact Hc | exact Hid | exact Hnull |].
    apply timestamp_taken_delete, Hts.
Qed.

Lemma update_leitura_keeps_consistent (leitura_id : Z) (campos : gmap string pyval)
    (tbl : gmap Z (gmap string pyval)) :
  consistent tbl -> consistent (snd (update_leitura o leitura_id campos tbl)).
Proof.
  intros Hc. unfold update_leitura.
  destruct (get tbl leitura_id) as [leitura|] eqn:Hget; [|exact Hc].
  destruct (set_known o campos) as [e | pending]; cbn [bind]; [exact Hc|].
  destruct (flush_update o leitura_id leitura pending tbl) as [e | tbl'] eqn:Hflush;
    [exact Hc|]. cbn [snd].
  apply flush_update_updated in Hflush. cbv zeta in Hflush.
  destruct Hflush as [[_ ->] | (j & written & _ & _ & -> & Hfree & Hid & Hnull & Hts)];
    [exact Hc|].
  apply consistent_insert; [apply consistent_delete, Hc | | exact Hnull |].
  - rewrite attr_union. destruct Hid as [[Hnone ->] | Hsome].
    + rewrite Hnone. destruct Hc as [Hrows _]. apply (Hrows leitura_id leitura Hget).
    + rewrite Hsome. reflexivity.
  - apply timestamp_taken_delete, Hts.
Qed.

(** X20.  The three operations of the service layer keep the constraints of
    the schema: in the table they leave, every row carries its key as id, has
    no NULL in a non-nullable column, and no two rows share a timestamp. *)
Theorem store_operations_keep_the_constraints (now : Z) (kwargs campos : gmap string pyval)
    (leitura_id : Z) (tbl : gmap Z (gmap string pyval)) :
  consistent tbl ->
  consistent (snd (add_leitura o now kwargs tbl))
  /\ consistent (snd (update_leitura o leitura_id campos tbl))
  /\ consistent (snd (delete_leitura leitura_id tbl)).
Proof.
  intros Hc. split; [|split].
  - apply add_leitura_keeps_consistent, Hc.
  - apply update_leitura_keeps_consistent, Hc.
  - unfold delete_leitura. destruct (get tbl leitura_id); [|exact Hc].
    apply consistent_delete, Hc.
Qed.

(** X21.  An update that succeeded changes nothing when it is repeated: the
    second call leaves the table as the first left it, and returns True
    unless the first moved the row to another id. *)
Theorem update_leitura_twice (leitura_id : Z) (campos : gmap string pyval)
    (tbl tbl' : gmap Z (gmap string pyval)) :
  update_leitura o leitura_id campos tbl = (inr true, tbl') ->
  update_leitura o leitura_id campos tbl'
  = (inr (bool_decide (is_Some (get tbl' leitura_id))), tbl').
Proof.
  unfold update_leitura at 1.
  destruct (get tbl leitura_id) as [leitura|] eqn:Hget.
  2:{ intros Heq. apply pair_equal_spec in Heq as [Heq _]. discriminate. }
  destruct (set_known o campos) as [e | pending] eqn:Hpending; cbn [bind].
  { intros Heq. apply pair_equal_spec in Heq as [Heq _]. discriminate. }
  destruct (flush_update o leitura_id leitura pending tbl) as [e | t] eqn:Hflush.
  { intros Heq. apply pair_equal_spec in Heq as [Heq _]. discriminate. }
  intros Heq. apply pair_equal_spec in Heq as [_ ->].
  pose proof Hflush as Hdone. apply flush_update_updated in Hdone. cbv zeta in Hdone.
  unfold update_leitura. rewrite Hpending. cbn [bind].
  destruct Hdone as [[Hnil ->] | (j & written & Hne & Hrow & -> & Hfree & Hid & Hnull & Hts)].
  - rewrite Hget, Hflush.
    rewrite bool_decide_eq_true_2 by (eexists; reflexivity). reflexivity.
  - unfold get. destruct (decide (j = leitura_id)) as [-> | Hj].
    + rewrite lookup_insert_eq.
      rewrite bool_decide_eq_true_2 by (eexists; reflexivity).
      unfold flush_update in Hflush |- *.
      destruct (List.filter _ columns) as [|c cols] eqn:Hcols; [contradiction|].
      rewrite Hrow in Hflush |- *. cbn [bind] in Hflush |- *.
      rewrite delete_insert_eq, delete_delete_eq.
      assert (Hsame : written ∪ (written ∪ leitura) = written ∪ leitura)
        by (rewrite (assoc_L (∪)), (idemp_L (∪)); reflexivity).
      rewrite Hsame.
      destruct (match written !! "id" with
                | Some (PInt j) =>
                    match delete leitura_id tbl !! j with
                    | Some _ => inl IntegrityError
                    | None => inr j
                    end
                | Some _ => inl IntegrityError
                | None => inr leitura_id
                end) as [e | j'] eqn:Hj'; cbn [bind] in Hflush |- *; [discriminate|].
      destruct (_ || _); [discriminate|].
      assert (j' = leitura_id).
      { destruct Hid as [[Hnone _] | Hsome].
        - rewrite Hnone in Hj'. congruence.
        - rewrite Hsome, Hfree in Hj'. congruence. }
      subst j'. reflexivity.
    + rewrite lookup_insert_ne by exact Hj. rewrite lookup_delete_eq.
      rewrite bool_decide_eq_false_2 by (intros [x Hx]; discriminate). reflexivity.
Qed.

(** X22.  Updating an existing row with a field map that names no column,
    and no name of the reading that [setattr] refuses, returns True and
    leaves the table as it is: no statement is issued. *)
Theorem update_without_columns_changes_nothing (leitura_id : Z)
    (campos : gmap string pyval) (tbl : gmap Z (gmap string pyval)) :
  is_Some (get tbl leitura_id) ->
  (forall k v, campos !! k = Some v -> is_column k = false) ->
  (forall k v, campos !! k = Some v -> other_attr o k = true ->
               setattr_other o k v = None) ->
  update_leitura o leitura_id campos tbl = (inr true, tbl).
Proof.
  intros [leitura Hget] Hnone Hset. unfold update_leitura. rewrite Hget.
  pose proof (setattrs_outcome o (other_attr o) None campos) as Hout.
  fold (set_known o campos) in Hout.
  destruct (set_known o campos) as [e | pending]; cbn [bind].
  { exfalso. destruct Hout as (k & v & Hk & _ & Hraise).
    destruct (other_attr o k) eqn:Hother; [|discriminate].
    rewrite (Hset k v Hk Hother) in Hraise. discriminate. }
  destruct Hout as [Hlook _]. unfold flush_update.
  assert (Hnil : List.filter (fun c => bool_decide (is_Some (pending !! c))) columns = []).
  { destruct (List.filter _ columns) as [|c cols] eqn:Hcols; [reflexivity|]. exfalso.
    assert (Hc : c ∈ List.filter (fun c => bool_decide (is_Some (pending !! c))) columns)
      by (rewrite Hcols; left).
    apply written_columns in Hc as [Hcol [v Hv]]. rewrite Hlook, Hcol in Hv.
    rewrite (Hnone c v Hv) in Hcol. discriminate. }
  rewrite Hnil. reflexivity.
Qed.
End StoreFacts.

Section DeleteFacts.
Import DbManager Services DbQueries.


End DeleteFacts.

Lemma add_then_delete_restores_witness :
  Services.get ∅ 1 = None
  /\ Services.delete_leitura 1 Samples.one_reading = (true, ∅)
  /\ Services.delete_leitura 1 ∅ = (false, ∅).
Proof.
  apply (add_then_delete_restores Samples.plain_orm 1000 Samples.reading ∅
           Samples.one_reading 1).
  by_evaluation.
Defined.

Lemma store_operations_keep_the_constraints_witness :
  DbQueries.consistent
    (snd (Services.add_leitura Samples.plain_orm 2000 Samples.reading Samples.one_reading))
  /\ DbQueries.consistent
       (snd (Services.update_leitura Samples.plain_orm 1 {[ "umidade" := PFloat 30 ]}
               Samples.one_reading))
  /\ DbQueries.consistent (snd (Services.delete_leitura 1 Samples.one_reading)).
Proof.
  apply (store_operations_keep_the_constraints Samples.plain_orm 2000 Samples.reading
           {[ "umidade" := PFloat 30 ]} 1 Samples.one_reading).
  exact (add_leitura_keeps_consistent Samples.plain_orm 1000 Samples.reading ∅
           consistent_empty).
Defined.

Lemma update_leitura_twice_witness :
  Services.update_leitura Samples.plain_orm 1 {[ "umidade" := PFloat 30 ]}
    Fixtures.one_reading_at_30
  = (inr (bool_decide (is_Some (Services.get Fixtures.one_reading_at_30 1))),
     Fixtures.one_reading_at_30).
Proof.
  apply (update_leitura_twice Samples.plain_orm 1 {[ "umidade" := PFloat 30 ]}
           Samples.one_reading Fixtures.one_reading_at_30).
  by_evaluation.
Defined.

Lemma update_without_columns_changes_nothing_witness :
  Services.update_leitura Samples.plain_orm 1
    {[ "cor" := PStr "azul"; "to_dict" := PNone ]} Samples.one_reading
  = (inr true, Samples.one_reading).
Proof.
  apply (update_without_columns_changes_nothing Samples.plain_orm 1
           {[ "cor" := PStr "azul"; "to_dict" := PNone ]} Samples.one_reading).
  - exists (default ∅ (Services.get Samples.one_reading 1)). by_evaluation.
  - intros k v Hk.
    apply lookup_insert_Some in Hk as [[<- _] | [_ Hk]]; [by_evaluation|].
    apply lookup_singleton_Some in Hk as [<- _]. by_evaluation.
  - intros k v Hk _.
    apply lookup_insert_Some in Hk as [[<- <-] | [_ Hk]]; [by_evaluation|].
    apply lookup_singleton_Some in Hk as [<- <-]. by_evaluation.
Defined.

(** ** The latest readings and the listener's records *)

Section LatestFacts.
Import DbManager Services DbQueries.
Variable ts_leb : pyval -> pyval -> bool.

End LatestFacts.


Section PersistFacts.
Import DbManager Services WokwiListener ListenerStore.
Variable o : orm.
Variable fromisoformat : string -> option Z.
Variable repr : float -> string.
Variable fixed1 : float -> string.
Variable dec : Z -> string.

(** A timestamp is taken once a row holds it. *)
Lemma timestamp_taken_insert (ts : pyval) (i : Z) (row : gmap string pyval)
    (tbl : gmap Z (gmap string pyval)) :
  pyval_eqb (attr row "timestamp") ts = true ->
  timestamp_taken ts (<[i := row]> tbl) = true.
Proof.
  intros Heq. unfold timestamp_taken. apply existsb_exists. exists (i, row).
  split; [|exact Heq]. apply list_elem_of_In, elem_of_map_to_list, lookup_insert_eq.
Qed.

Lemma stored_real_some (x : float) : PrimFloat.is_nan x = false -> stored_real x <> PNone.
Proof. unfold stored_real. intros ->. destruct (x =? 0)%float; discriminate. Qed.

Ltac column_value :=
  unfold attr, as_dict;
  repeat (rewrite lookup_insert_ne by discriminate);
  first [rewrite lookup_insert_eq | rewrite lookup_singleton_eq]; cbn [default].

Ltac not_a_nullable H :=
  exfalso; unfold not_nullable in H;
  repeat (apply elem_of_cons in H as [H | H]; [discriminate H|]); inversion H.

(** X24.  What [persist_data] does with a record of the listener.  It
    answers False and leaves the table as it was when the timestamp does not
    parse, when the humidity or the pH of the record is not a number, when a
    row already holds that time, or when the store finds no id.  Otherwise it
    answers True and the record is stored under the next id, with the parsed
    time, without its time zone, as its timestamp (not the time of the flush)
    and every other column as the record has it, up to what a Float column
    makes of a float: a temperature that is not a number is stored as NULL.
    Persisting the record once more, as it was or with the parsed time written
    back, answers False and changes nothing. *)
Theorem listener_record_is_stored (now : Z) (d : wokwi_data)
    (tbl : gmap Z (gmap string pyval)) :
  let data := as_dict repr fixed1 dec d in
  let persist := persist_data o fromisoformat now data in
  match fromisoformat (replace_Z (wd_timestamp d)) with
  | None => persist tbl = (false, tbl)
  | Some t =>
      if PrimFloat.is_nan (wd_umidade d) || PrimFloat.is_nan (wd_ph_estimado d)
         || timestamp_taken (PDateTime (naive o t)) tbl
      then persist tbl = (false, tbl)
      else
        match next_id o tbl with
        | inl _ => persist tbl = (false, tbl)
        | inr i =>
            exists row,
              persist tbl = (true, <[i := row]> tbl)
              /\ get tbl i = None
              /\ attr row "id" = PInt i
              /\ attr row "timestamp" = PDateTime (naive o t)
              /\ attr row "umidade" = stored_real (wd_umidade d)
              /\ attr row "ph_estimado" = stored_real (wd_ph_estimado d)
              /\ attr row "temperatura" = stored_real (wd_temperatura d)
              /\ attr row "fosforo_presente" = PBool (wd_fosforo_presente d)
              /\ attr row "potassio_presente" = PBool (wd_potassio_presente d)
              /\ attr row "bomba_ligada" = PBool (wd_bomba_ligada d)
              /\ attr row "decisao_logica_esp32"
                 = PStr (render repr fixed1 dec (wd_decisao_logica_esp32 d))
              /\ attr row "emergencia" = PBool (wd_emergencia d)
              /\ persist (<[i := row]> tbl) = (false, <[i := row]> tbl)
              /\ persist_data o fromisoformat now (<["timestamp" := PDateTime t]> data)
                   (<[i := row]> tbl)
                 = (false, <[i := row]> tbl)
        end
  end.
Proof.
  cbv zeta. unfold persist_data.
  assert (Hts : as_dict repr fixed1 dec d !! "timestamp" = Some (PStr (wd_timestamp d)))
    by (unfold as_dict; apply lookup_insert_eq).
  rewrite Hts. destruct (fromisoformat (replace_Z (wd_timestamp d))) as [t|]; [|reflexivity].
  set (data := <["timestamp" := PDateTime t]> (as_dict repr fixed1 dec d)).
  assert (Hkeys : forall k v, data !! k = Some v -> is_column k = true).
  { intros k v Hk. unfold data, as_dict in Hk.
    repeat (apply lookup_insert_Some in Hk as [[<- _] | [_ Hk]]; [by_evaluation|]).
    apply lookup_singleton_Some in Hk as [<- _]. by_evaluation. }
  assert (Hid : attr data "id" = PNone).
  { unfold attr, data, as_dict. repeat (rewrite lookup_insert_ne by discriminate).
    rewrite lookup_singleton_ne by discriminate. reflexivity. }
  assert (Htime : attr data "timestamp" = PDateTime t)
    by (unfold attr, data; rewrite lookup_insert_eq; reflexivity).
  assert (Hu : adapt o (column_type "umidade") (attr data "umidade")
               = inr (stored_real (wd_umidade d)))
    by (unfold data; column_value; reflexivity).
  assert (Hph : adapt o (column_type "ph_estimado") (attr data "ph_estimado")
                = inr (stored_real (wd_ph_estimado d)))
    by (unfold data; column_value; reflexivity).
  assert (Htemp : adapt o (column_type "temperatura") (attr data "temperatura")
                  = inr (stored_real (wd_temperatura d)))
    by (unfold data; column_value; reflexivity).
  assert (Hp : adapt o (column_type "fosforo_presente") (attr data "fosforo_presente")
               = inr (PBool (wd_fosforo_presente d)))
    by (unfold data; column_value; reflexivity).
  assert (Hk : adapt o (column_type "potassio_presente") (attr data "potassio_presente")
               = inr (PBool (wd_potassio_presente d)))
    by (unfold data; column_value; reflexivity).
  assert (Hb : adapt o (column_type "bomba_ligada") (attr data "bomba_ligada")
               = inr (PBool (wd_bomba_ligada d)))
    by (unfold data; column_value; reflexivity).
  assert (Hdec : adapt o (column_type "decisao_logica_esp32")
                   (attr data "decisao_logica_esp32")
                 = inr (PStr (render repr fixed1 dec (wd_decisao_logica_esp32 d))))
    by (unfold data; column_value; reflexivity).
  assert (Hem : adapt o (column_type "emergencia") (attr data "emergencia")
                = inr (PBool (wd_emergencia d)))
    by (unfold data; column_value; reflexivity).
  assert (Hstamp : adapt o TDateTime (match attr data "timestamp" with
                                      | PNone => PDateTime now
                                      | v => v
                                      end) = inr (PDateTime (naive o t)))
    by (rewrite Htime; reflexivity).
  (* what a row that came of the record holds *)
  assert (Hrow : forall T T' i,
             add_leitura o now data T = (inr i, T') ->
             exists row,
               T' = <[i := row]> T /\ T !! i = None /\ attr row "id" = PInt i
               /\ null_violation row = false
               /\ timestamp_taken (attr row "timestamp") T = false
               /\ attr row "timestamp" = PDateTime (naive o t)
               /\ attr row "umidade" = stored_real (wd_umidade d)
               /\ attr row "ph_estimado" = stored_real (wd_ph_estimado d)
               /\ attr row "temperatura" = stored_real (wd_temperatura d)
               /\ attr row "fosforo_presente" = PBool (wd_fosforo_presente d)
               /\ attr row "potassio_presente" = PBool (wd_potassio_presente d)
               /\ attr row "bomba_ligada" = PBool (wd_bomba_ligada d)
               /\ attr row "decisao_logica_esp32"
                  = PStr (render repr fixed1 dec (wd_decisao_logica_esp32 d))
               /\ attr row "emergencia" = PBool (wd_emergencia d)
               /\ next_id o T = inr i).
  { intros T T' i Hadd.
    apply add_leitura_inserted in Hadd
      as (row & -> & Hfree & Hrid & Hnull & Htaken & Hrts & Hcols & Hi).
    exists row. rewrite Hstamp in Hrts. apply (inj inr) in Hrts.
    assert (Hget : forall c w, is_column c = true -> c <> "id" -> c <> "timestamp" ->
                     adapt o (column_type c) (attr data c) = inr w -> attr row c = w).
    { intros c w Hc H1 H2 Hw. specialize (Hcols c Hc H1 H2). congruence. }
    repeat (split; [first [reflexivity | assumption | symmetry; assumption
                          | apply Hget; [reflexivity | discriminate | discriminate
                                        | assumption]]|]).
    rewrite Hid in Hi. destruct Hi as [Hi | [_ Hi]]; [discriminate Hi | exact Hi]. }
  (* when the record is refused *)
  assert (Hrefused : forall T,
             PrimFloat.is_nan (wd_umidade d) || PrimFloat.is_nan (wd_ph_estimado d)
             || timestamp_taken (PDateTime (naive o t)) T = true
             \/ (exists e, next_id o T = inl e) ->
             match add_leitura o now data T with
             | (inr _, tbl') => (true, tbl')
             | (inl _, _) => (false, T)
             end = (false, T)).
  { intros T Hwhy.
    destruct (add_leitura o now data T) as [[e | i] T'] eqn:Hadd; [reflexivity|]. exfalso.
    apply Hrow in Hadd
      as (row & _ & _ & _ & Hnull & Htaken & Hrts & Hru & Hrph & _ & _ & _ & _ & _ & _ & Hn).
    destruct Hwhy as [Hwhy | [e He]]; [|congruence].
    apply orb_true_iff in Hwhy as [Hwhy | Hwhy]; [apply orb_true_iff in Hwhy as [Hnan | Hnan]|].
    - apply (null_violation_attr row "umidade" Hnull); [unfold not_nullable; set_solver|].
      rewrite Hru. unfold stored_real. rewrite Hnan. reflexivity.
    - apply (null_violation_attr row "ph_estimado" Hnull); [unfold not_nullable; set_solver|].
      rewrite Hrph. unfold stored_real. rewrite Hnan. reflexivity.
    - rewrite Hrts in Htaken. congruence. }
  destruct (PrimFloat.is_nan (wd_umidade d)) eqn:Hnu;
    [apply Hrefused; left; reflexivity|].
  destruct (PrimFloat.is_nan (wd_ph_estimado d)) eqn:Hnph;
    [apply Hrefused; left; reflexivity|].
  destruct (timestamp_taken (PDateTime (naive o t)) tbl) eqn:Hfree; cbn [orb];
    [apply Hrefused; left; rewrite Hfree; reflexivity|].
  destruct (next_id o tbl) as [e | i] eqn:Hnext;
    [apply Hrefused; right; exists e; exact Hnext|].
  assert (Hok : fst (add_leitura o now data tbl) = inr i).
  { apply (add_leitura_accepted o now data tbl (PDateTime (naive o t)) i).
    - intros k v Hkv Hcol. rewrite (Hkeys k v Hkv) in Hcol. discriminate.
    - exact Hid.
    - exact Hstamp.
    - discriminate.
    - intros c Hc Hnid Hnts. apply is_column_elem in Hc. unfold columns in Hc.
      repeat (apply elem_of_cons in Hc as [-> | Hc];
              [first [contradiction
                     | eexists; split; [eassumption|]; intros Hin;
                       first [discriminate | apply stored_real_some; assumption
                             | not_a_nullable Hin]]|]).
      inversion Hc.
    - exact Hfree.
    - exact Hnext. }
  destruct (add_leitura o now data tbl) as [[e | i'] tbl'] eqn:Hadd; cbn [fst] in Hok;
    [discriminate|]. apply (inj inr) in Hok. subst i'.
  apply Hrow in Hadd as (row & -> & Hnone & Hrest).
  exists row. split; [reflexivity|]. split; [exact Hnone|].
  destruct Hrest as (H1 & _ & _ & H4 & H5 & H6 & H7 & H8 & H9 & H10 & H11 & H12 & _).
  repeat (split; [assumption|]).
  assert (Hagain : timestamp_taken (PDateTime (naive o t)) (<[i := row]> tbl) = true).
  { apply timestamp_taken_insert. rewrite H4. cbn [pyval_eqb]. apply Z.eqb_refl. }
  split.
  - apply Hrefused. left. rewrite Hagain. apply orb_true_r.
  - fold data. unfold data at 1. rewrite lookup_insert_eq. fold data.
    apply Hrefused. left. rewrite Hagain. apply orb_true_r.
Qed.
End PersistFacts.
